(** * Weather-app: the search-to-forecast pipeline

    A shallow embedding of the two React components of the repository,
    [WeatherPage] (src/.history/src/components/WeatherPage_20251127155010.tsx)
    and [WeatherAppWithSuggestions] (src/unnamed/part_000), together with the
    geocoding wrappers of src/.history/src/api/locatioiq_20251127124434.ts and
    the forecast wrapper of src/.history/src/api/openmeteo_20251127124728.ts.

    React state is a record, one field per [useState]; a handler is a function
    on that record; what the browser does between handlers (timers, pending
    HTTP requests, the geolocation prompt) is a second record, the host.
    The first draft of the page, [App]
    (src/.history/src/api/openmeteo_20251127123811.ts), is embedded the same
    way. *)

From Stdlib Require Import ZArith NArith List String Ascii Bool Lia.
From stdpp Require Import base option list gmap.
Import ListNotations.

Local Open Scope nat_scope.

(** ** JavaScript strings *)

Module JS.

(** A JavaScript string is a sequence of UTF-16 code units; [len] is the
    [.length] property. *)
Definition str : Type := list N.

Definition len (s : str) : nat := List.length s.

(** Source literals are written in UTF-8; [lit] decodes them to code units. *)
Fixpoint utf8_decode (bs : list N) : list N :=
  match bs with
  | [] => []
  | b :: r =>
      if (b <? 128)%N then b :: utf8_decode r
      else if (b <? 224)%N then
        match r with
        | c1 :: r' => ((b mod 32) * 64 + c1 mod 64)%N :: utf8_decode r'
        | _ => []
        end
      else if (b <? 240)%N then
        match r with
        | c1 :: c2 :: r' =>
            ((b mod 16) * 4096 + (c1 mod 64) * 64 + c2 mod 64)%N
              :: utf8_decode r'
        | _ => []
        end
      else
        match r with
        | c1 :: c2 :: c3 :: r' =>
            ((b mod 8) * 262144 + (c1 mod 64) * 4096
             + (c2 mod 64) * 64 + c3 mod 64)%N :: utf8_decode r'
        | _ => []
        end
  end.

Definition utf16_encode (cp : N) : list N :=
  if (cp <? 65536)%N then [cp]
  else [(55296 + (cp - 65536) / 1024)%N; (56320 + (cp - 65536) mod 1024)%N].

Definition lit (s : string) : str :=
  concat (map utf16_encode
            (utf8_decode (map N_of_ascii (list_ascii_of_string s)))).

(** [undefined] is [None]; a string is falsy exactly when it is empty. *)
Definition truthy (v : option str) : bool :=
  match v with
  | Some (_ :: _) => true
  | _ => false
  end.

(** [if (v) th(v) else el] on a possibly undefined string. *)
Definition when {A : Type} (v : option str) (th : str -> A) (el : A) : A :=
  match v with
  | Some (c :: r) => th (c :: r)
  | _ => el
  end.

(** [v || d], for a possibly undefined string [v]. *)
Definition or (v : option str) (d : str) : str := when v (fun s => s) d.

(** [v1 || v2] where the right operand may itself be undefined. *)
Definition or_else (v1 v2 : option str) : option str :=
  when v1 (fun s => Some s) v2.

(** [parts.join(sep)]. *)
Fixpoint join (sep : str) (parts : list str) : str :=
  match parts with
  | [] => []
  | [p] => p
  | p :: rest => p ++ sep ++ join sep rest
  end.

(** [s.split(c)] for a separator of one code unit.  The array it returns
    is never empty: it is given as its element 0 and the elements after. *)
Fixpoint split (c : N) (s : str) : str * list str :=
  match s with
  | [] => ([], [])
  | x :: r =>
      let '(seg, segs) := split c r in
      if (x =? c)%N then ([], seg :: segs) else (x :: seg, segs)
  end.

(** [a[0]] and [a.slice(1)] of such an array. *)
Definition at0 (a : str * list str) : str := fst a.
Definition slice1 (a : str * list str) : list str := snd a.

Definition comma : N := 44.

(** White space and line terminators removed by [String.prototype.trim]. *)
Definition is_space (c : N) : bool :=
  ((9 <=? c) && (c <=? 13) || (c =? 32) || (c =? 160) || (c =? 5760)
   || (8192 <=? c) && (c <=? 8202) || (c =? 8232) || (c =? 8233)
   || (c =? 8239) || (c =? 8287) || (c =? 12288) || (c =? 65279))%N.

Fixpoint trim_start (s : str) : str :=
  match s with
  | c :: r => if is_space c then trim_start r else s
  | [] => []
  end.

Definition trim (s : str) : str := rev (trim_start (rev (trim_start s))).

(** Surrogate code units.  A string is well formed when each of them belongs
    to a pair, a high one followed by a low one; on any other string
    [encodeURIComponent] throws a URIError. *)
Definition is_high (c : N) : bool := ((55296 <=? c) && (c <=? 56319))%N.
Definition is_low (c : N) : bool := ((56320 <=? c) && (c <=? 57343))%N.

Fixpoint well_formed (s : str) : bool :=
  match s with
  | [] => true
  | c :: r =>
      if is_high c then
        match r with
        | d :: r' => is_low d && well_formed r'
        | [] => false
        end
      else negb (is_low c) && well_formed r
  end.

End JS.

Arguments JS.lit s%_string.

(** A JavaScript number that is only carried around and printed is identified
    with the text [toString] gives for it. *)
Inductive number : Type := Num (text : JS.str).

Definition toString (n : number) : JS.str := let 'Num t := n in t.

(** A promise either resolves with a value or rejects. *)
Inductive outcome (A : Type) : Type :=
| Resolved (v : A)
| Rejected.
Arguments Resolved {A} v.
Arguments Rejected {A}.

(** What [fetch] followed by [response.json()] can give: the transport fails,
    or a response arrives with its [ok] flag and a body that parses to a value
    of the declared type ([Some]) or does not parse ([None]).  A body that
    parses to something else is an event of its own in the component that
    stores bodies unchecked, WeatherAppWithSuggestions. *)
Inductive response (A : Type) : Type :=
| NetworkError
| Http (ok : bool) (body : option A).
Arguments NetworkError {A}.
Arguments Http {A} ok body.

(** ** Weather-code classifier *)

Module Glyph.
Definition sun := JS.lit "☀️".
Definition sun_small_cloud := JS.lit "🌤️".
Definition sun_behind_cloud := JS.lit "⛅".
Definition cloud := JS.lit "☁️".
Definition fog := JS.lit "🌫️".
Definition fog_plain := JS.lit "🌫".
Definition sun_rain := JS.lit "🌦️".
Definition sun_rain_plain := JS.lit "🌦".
Definition rain := JS.lit "🌧️".
Definition rain_plain := JS.lit "🌧".
Definition snowflake := JS.lit "❄️".
Definition thunder := JS.lit "⛈️".
Definition thunder_plain := JS.lit "⛈".
End Glyph.

(** [getWeatherEmoji] of WeatherPage: an object literal keyed by the code,
    indexed with [map[code] || default]. *)
Definition emoji_map : gmap Z JS.str :=
  list_to_map
    [ (0, Glyph.sun); (1, Glyph.sun_small_cloud); (2, Glyph.sun_behind_cloud);
      (3, Glyph.cloud);
      (45, Glyph.fog); (48, Glyph.fog);
      (51, Glyph.sun_rain); (53, Glyph.sun_rain); (55, Glyph.sun_rain);
      (61, Glyph.rain); (63, Glyph.rain); (65, Glyph.rain);
      (71, Glyph.snowflake); (73, Glyph.snowflake); (75, Glyph.snowflake);
      (95, Glyph.thunder); (96, Glyph.thunder); (99, Glyph.thunder) ]%Z.

Definition getWeatherEmoji (code : Z) : JS.str :=
  JS.or (emoji_map !! code) (JS.lit "🌤️").

(** [getWeatherIcon] of WeatherAppWithSuggestions: same shape, another table
    (several glyphs without the variation selector, 55 drawn as rain). *)
Definition icon_map : gmap Z JS.str :=
  list_to_map
    [ (0, Glyph.sun); (1, Glyph.sun_small_cloud); (2, Glyph.sun_behind_cloud);
      (3, Glyph.cloud);
      (45, Glyph.fog_plain); (48, Glyph.fog_plain);
      (51, Glyph.sun_rain_plain); (53, Glyph.sun_rain_plain);
      (55, Glyph.rain_plain);
      (61, Glyph.rain_plain); (63, Glyph.rain_plain); (65, Glyph.rain_plain);
      (71, Glyph.snowflake); (73, Glyph.snowflake); (75, Glyph.snowflake);
      (95, Glyph.thunder_plain); (96, Glyph.thunder_plain);
      (99, Glyph.thunder_plain) ]%Z.

Definition getWeatherIcon (code : Z) : JS.str :=
  JS.or (icon_map !! code) (JS.lit "🌤️").


(** ** The host's timer queue

    [setTimeout], [clearTimeout] and the passage of time.  A pending timeout
    carries what its callback closed over (here the query text of the render
    that scheduled it).  Every timeout of the program uses the same delay, so
    the order of scheduling is the order of expiry. *)

Module Timers.

Record timer : Type := Timer {
  tid : N;
  deadline : N;
  captured : JS.str
}.

Record queue : Type := Queue {
  clock : N;          (* milliseconds *)
  next_id : N;        (* handles are positive, hence truthy *)
  pending : list timer
}.

Definition init : queue := Queue 0 1 [].

Definition setTimeout (q : JS.str) (delay : N) (h : queue) : N * queue :=
  (next_id h,
   Queue (clock h) (next_id h + 1)
         (pending h ++ [Timer (next_id h) (clock h + delay) q])).

Definition clearTimeout (id : N) (h : queue) : queue :=
  Queue (clock h) (next_id h)
        (List.filter (fun tm => negb (tid tm =? id)%N) (pending h)).

Definition is_due (t : N) (tm : timer) : bool := (deadline tm <=? t)%N.

(** Time moves to [t]: the expired timeouts leave the queue, to be run by
    the caller in order. *)
Definition expire (t : N) (h : queue) : list timer * queue :=
  (List.filter (is_due t) (pending h),
   Queue (N.max (clock h) t) (next_id h)
         (List.filter (fun tm => negb (is_due t tm)) (pending h))).

End Timers.

(** ** WeatherPage *)

Module WeatherPage.

Record LocationSuggestion : Type := {
  place_id : JS.str;
  display_name : JS.str;
  lat : JS.str;
  lon : JS.str
}.

Record Current : Type := {
  temperature_2m : number;
  apparent_temperature : number;
  relative_humidity_2m : number;
  wind_speed_10m : number;
  weather_code : Z
}.

Record Daily : Type := {
  time : list JS.str;
  temperature_2m_max : list number;
  temperature_2m_min : list number;
  daily_weather_code : list Z
}.

Record WeatherData : Type := {
  current : Current;
  daily : Daily
}.

(** The reverse-geocoding payload, typed [any] in the source: the fields
    the component reads.  [address] itself and each field may be missing. *)
Record Address : Type := {
  city : option JS.str;
  town : option JS.str;
  village : option JS.str
}.

Record Place : Type := {
  place_name : JS.str;             (* data.display_name *)
  address : option Address
}.

(** *** The API wrappers *)

(** [searchLocations] and [reverseGeocode] have one body: await [fetch],
    throw unless [response.ok], return [response.json()]. *)
Definition settle {A : Type} (r : response A) : outcome A :=
  match r with
  | NetworkError => Rejected
  | Http false _ => Rejected
  | Http true None => Rejected
  | Http true (Some v) => Resolved v
  end.

Definition searchLocations := @settle (list LocationSuggestion).
Definition reverseGeocode := @settle Place.

(** [getWeather] is written the same way, but what it awaits is [a(url)],
    and neither the module nor the browser declares an [a]: evaluating the
    call throws a ReferenceError.  The promise of [getWeather] therefore
    rejects on every call, before any request is made and whatever the
    forecast service would have answered. *)
Definition getWeather (r : response WeatherData) : outcome WeatherData :=
  Rejected.

(** *** Component state: one field per [useState], plus the timer ref *)

Record ui_state : Type := State {
  query : JS.str;
  suggestions : list LocationSuggestion;
  showDropdown : bool;
  loading : bool;
  searching : bool;
  weather : option WeatherData;
  selectedCity : JS.str;
  error : JS.str;
  geoLoading : bool;
  debounceRef : option N
}.

(** Arguments of one [fetchWeatherData] call. *)
Record forecast_call : Type := {
  fc_lat : JS.str;
  fc_lon : JS.str;
  fc_cityName : JS.str
}.

(** *** The host: timers and the asynchronous calls not yet settled *)

Record host : Type := Host {
  timers : Timers.queue;
  next_call : nat;
  searches : gmap nat JS.str;            (* searchLocations(query) awaited *)
  search_log : list JS.str;              (* every searchLocations call *)
  forecasts : gmap nat forecast_call;    (* getWeather awaited *)
  forecast_log : list forecast_call;     (* every fetchWeatherData call *)
  positions : gset nat;                  (* getCurrentPosition awaited *)
  lookups : gmap nat (number * number)   (* reverseGeocode awaited *)
}.

Record world : Type := World { ui : ui_state; env : host }.

Definition initial : world :=
  World (State [] [] false false false None [] [] false None)
        (Host Timers.init 0 ∅ [] ∅ [] ∅ ∅).

(** State setters. *)
Definition setQuery v (w : world) : world :=
  let s := ui w in
  World (State v (suggestions s) (showDropdown s) (loading s) (searching s)
               (weather s) (selectedCity s) (error s) (geoLoading s)
               (debounceRef s)) (env w).
Definition setSuggestions v (w : world) : world :=
  let s := ui w in
  World (State (query s) v (showDropdown s) (loading s) (searching s)
               (weather s) (selectedCity s) (error s) (geoLoading s)
               (debounceRef s)) (env w).
Definition setShowDropdown v (w : world) : world :=
  let s := ui w in
  World (State (query s) (suggestions s) v (loading s) (searching s)
               (weather s) (selectedCity s) (error s) (geoLoading s)
               (debounceRef s)) (env w).
Definition setLoading v (w : world) : world :=
  let s := ui w in
  World (State (query s) (suggestions s) (showDropdown s) v (searching s)
               (weather s) (selectedCity s) (error s) (geoLoading s)
               (debounceRef s)) (env w).
Definition setSearching v (w : world) : world :=
  let s := ui w in
  World (State (query s) (suggestions s) (showDropdown s) (loading s) v
               (weather s) (selectedCity s) (error s) (geoLoading s)
               (debounceRef s)) (env w).
Definition setWeather v (w : world) : world :=
  let s := ui w in
  World (State (query s) (suggestions s) (showDropdown s) (loading s)
               (searching s) v (selectedCity s) (error s) (geoLoading s)
               (debounceRef s)) (env w).
Definition setSelectedCity v (w : world) : world :=
  let s := ui w in
  World (State (query s) (suggestions s) (showDropdown s) (loading s)
               (searching s) (weather s) v (error s) (geoLoading s)
               (debounceRef s)) (env w).
Definition setError v (w : world) : world :=
  let s := ui w in
  World (State (query s) (suggestions s) (showDropdown s) (loading s)
               (searching s) (weather s) (selectedCity s) v (geoLoading s)
               (debounceRef s)) (env w).
Definition setGeoLoading v (w : world) : world :=
  let s := ui w in
  World (State (query s) (suggestions s) (showDropdown s) (loading s)
               (searching s) (weather s) (selectedCity s) (error s) v
               (debounceRef s)) (env w).
Definition setDebounceRef v (w : world) : world :=
  let s := ui w in
  World (State (query s) (suggestions s) (showDropdown s) (loading s)
               (searching s) (weather s) (selectedCity s) (error s)
               (geoLoading s) v) (env w).

(** Host updates. *)
Definition withTimers (q : Timers.queue) (w : world) : world :=
  let h := env w in
  World (ui w) (Host q (next_call h) (searches h) (search_log h)
                     (forecasts h) (forecast_log h) (positions h)
                     (lookups h)).

(** [searchLocations(q)] is called: logged, and awaited under a fresh id. *)
Definition call_search (q : JS.str) (w : world) : world :=
  let h := env w in
  World (ui w) (Host (timers h) (S (next_call h))
                     (<[next_call h := q]> (searches h))
                     (search_log h ++ [q])
                     (forecasts h) (forecast_log h) (positions h)
                     (lookups h)).
Definition done_search (id : nat) (w : world) : world :=
  let h := env w in
  World (ui w) (Host (timers h) (next_call h) (delete id (searches h))
                     (search_log h) (forecasts h) (forecast_log h)
                     (positions h) (lookups h)).
Definition call_forecast (c : forecast_call) (w : world) : world :=
  let h := env w in
  World (ui w) (Host (timers h) (S (next_call h)) (searches h)
                     (search_log h)
                     (<[next_call h := c]> (forecasts h))
                     (forecast_log h ++ [c]) (positions h) (lookups h)).
Definition done_forecast (id : nat) (w : world) : world :=
  let h := env w in
  World (ui w) (Host (timers h) (next_call h) (searches h) (search_log h)
                     (delete id (forecasts h)) (forecast_log h)
                     (positions h) (lookups h)).
Definition call_position (w : world) : world :=
  let h := env w in
  World (ui w) (Host (timers h) (S (next_call h)) (searches h)
                     (search_log h) (forecasts h) (forecast_log h)
                     ({[next_call h]} ∪ positions h) (lookups h)).
Definition done_position (id : nat) (w : world) : world :=
  let h := env w in
  World (ui w) (Host (timers h) (next_call h) (searches h) (search_log h)
                     (forecasts h) (forecast_log h)
                     (positions h ∖ {[id]}) (lookups h)).
Definition call_lookup (latitude longitude : number) (w : world) : world :=
  let h := env w in
  World (ui w) (Host (timers h) (S (next_call h)) (searches h)
                     (search_log h) (forecasts h) (forecast_log h)
                     (positions h)
                     (<[next_call h := (latitude, longitude)]> (lookups h))).
Definition done_lookup (id : nat) (w : world) : world :=
  let h := env w in
  World (ui w) (Host (timers h) (next_call h) (searches h) (search_log h)
                     (forecasts h) (forecast_log h) (positions h)
                     (delete id (lookups h))).

(** *** Handlers *)

(** The debounced search effect, [useEffect(..., [query])]: run after every
    render in which [query] changed. *)
Definition search_effect (w : world) : world :=
  if JS.len (query (ui w)) <? 2 then
    setShowDropdown false (setSuggestions [] w)
  else
    let w :=
      match debounceRef (ui w) with
      | Some id => withTimers (Timers.clearTimeout id (timers (env w))) w
      | None => w
      end in
    let '(id, q) := Timers.setTimeout (query (ui w)) 300 (timers (env w)) in
    setDebounceRef (Some id) (withTimers q w).

(** The timer callback, up to its [await]; [q] is the query it closed
    over. *)
Definition search_callback (q : JS.str) (w : world) : world :=
  call_search q (setError [] (setSearching true w)).

(** The timer callback, from its [await] on. *)
Definition search_settled (r : response (list LocationSuggestion))
    (w : world) : world :=
  let w :=
    match searchLocations r with
    | Resolved results => setShowDropdown true (setSuggestions results w)
    | Rejected =>
        setSuggestions [] (setError (JS.lit "Location search failed") w)
    end in
  setSearching false w.

(** [fetchWeatherData], up to its [await]. *)
Definition fetchWeatherData (lat lon cityName : JS.str) (w : world)
    : world :=
  call_forecast {| fc_lat := lat; fc_lon := lon; fc_cityName := cityName |}
                (setError [] (setLoading true w)).

(** [fetchWeatherData], from its [await] on. *)
Definition forecast_settled (c : forecast_call) (r : response WeatherData)
    (w : world) : world :=
  let w :=
    match getWeather r with
    | Resolved data =>
        setShowDropdown false
          (setSelectedCity (fc_cityName c) (setWeather (Some data) w))
    | Rejected => setError (JS.lit "Failed to load weather data") w
    end in
  setLoading false w.

Definition handleSelect (loc : LocationSuggestion) (w : world) : world :=
  let city := JS.at0 (JS.split JS.comma (display_name loc)) in
  let w := setQuery city w in
  fetchWeatherData (lat loc) (lon loc) (display_name loc) w.

(** [handleUseMyLocation]; [supported] is whether [navigator.geolocation]
    exists. *)
Definition handleUseMyLocation (supported : bool) (w : world) : world :=
  if negb supported then setError (JS.lit "Geolocation not supported") w
  else call_position (setGeoLoading true w).

(** The success callback of [getCurrentPosition], up to its [await]. *)
Definition position_granted (latitude longitude : number) (w : world)
    : world :=
  call_lookup latitude longitude w.

(** The name shown for a reverse-geocoded place. *)
Definition place_label (data : Place) : JS.str :=
  JS.or (JS.or_else (address data ≫= city)
           (JS.or_else (address data ≫= town) (address data ≫= village)))
        (JS.lit "Your Location").

(** The success callback, from its [await] on. *)
Definition lookup_settled (latitude longitude : number)
    (r : response Place) (w : world) : world :=
  let w :=
    match reverseGeocode r with
    | Resolved data =>
        let name := place_label data in
        let w := setQuery name w in
        fetchWeatherData (toString latitude) (toString longitude)
                         (place_name data) w
    | Rejected => setError (JS.lit "Could not detect city name") w
    end in
  setGeoLoading false w.

(** The error callback of [getCurrentPosition]. *)
Definition position_denied (w : world) : world :=
  setGeoLoading false (setError (JS.lit "Location access denied") w).

(** *** Events *)

Inductive event : Type :=
| Change (text : JS.str)                 (* onChange of the input *)
| Focus                                  (* onFocus of the input *)
| MouseDownOutside                       (* mousedown outside the dropdown *)
| Select (loc : LocationSuggestion)      (* click on a suggestion *)
| UseMyLocation (supported : bool)       (* click on the location button *)
| SearchResponse (id : nat) (r : response (list LocationSuggestion))
| ForecastResponse (id : nat) (r : response WeatherData)
                                         (* the promise of getWeather settles *)
| Position (id : nat) (coords : option (number * number))
| LookupResponse (id : nat) (r : response Place).

Definition handle (e : event) (w : world) : world :=
  match e with
  | Change text => setQuery text w
  | Focus =>
      if 0 <? length (suggestions (ui w)) then setShowDropdown true w else w
  | MouseDownOutside => setShowDropdown false w
  | Select loc => handleSelect loc w
  | UseMyLocation supported =>
      if geoLoading (ui w) then w            (* the button is disabled *)
      else handleUseMyLocation supported w
  | SearchResponse id r =>
      match searches (env w) !! id with
      | Some _ => search_settled r (done_search id w)
      | None => w
      end
  | ForecastResponse id r =>
      match forecasts (env w) !! id with
      | Some c => forecast_settled c r (done_forecast id w)
      | None => w
      end
  | Position id coords =>
      if decide (id ∈ positions (env w)) then
        match coords with
        | Some (latitude, longitude) =>
            position_granted latitude longitude (done_position id w)
        | None => position_denied (done_position id w)
        end
      else w
  | LookupResponse id r =>
      match lookups (env w) !! id with
      | Some (latitude, longitude) =>
          lookup_settled latitude longitude r (done_lookup id w)
      | None => w
      end
  end.

(** A handler runs, React renders, and the search effect runs if the
    render changed [query]. *)
Definition dispatch (e : event) (w : world) : world :=
  let w' := handle e w in
  if decide (query (ui w') = query (ui w)) then w' else search_effect w'.

(** Time passes until [t]: the timeouts that expired run their callback. *)
Definition advance (t : N) (w : world) : world :=
  let '(due, q) := Timers.expire t (timers (env w)) in
  fold_left (fun w tm => search_callback (Timers.captured tm) w) due
            (withTimers q w).

(** An event arriving at time [t], and a timed trace of events. *)
Definition step (te : N * event) (w : world) : world :=
  dispatch (snd te) (advance (fst te) w).

Definition run (evs : list (N * event)) (w : world) : world :=
  fold_left (fun w te => step te w) evs w.

(** The user types: each text of the burst arrives at its time. *)
Definition type_burst (b : list (N * JS.str)) (w : world) : world :=
  fold_left (fun w u => step (fst u, Change (snd u)) w) b w.

(** *** Rendering *)

Record entry : Type := {
  entry_title : JS.str;
  entry_subtitle : JS.str;
  entry_loc : LocationSuggestion
}.

Record section : Type := {
  heading : JS.str;
  glyph : JS.str;
  snapshot : WeatherData
}.

Record view : Type := {
  input_value : JS.str;
  search_spinner : bool;
  dropdown : option (list entry);
  error_box : option JS.str;
  loading_spinner : bool;
  weather_section : option section;
  placeholder : bool
}.

Definition render_entry (loc : LocationSuggestion) : entry :=
  let parts := JS.split JS.comma (display_name loc) in
  {| entry_title := JS.at0 parts;
     entry_subtitle := JS.join [JS.comma] (JS.slice1 parts);
     entry_loc := loc |}.

Definition render (s : ui_state) : view :=
  {| input_value := query s;
     search_spinner := searching s;
     dropdown :=
       if showDropdown s && (0 <? length (suggestions s))
       then Some (map render_entry (suggestions s)) else None;
     error_box := if JS.truthy (Some (error s)) then Some (error s) else None;
     loading_spinner := loading s;
     weather_section :=
       match weather s with
       | Some data =>
           if negb (loading s) then
             Some {| heading := selectedCity s;
                     glyph := getWeatherEmoji (weather_code (current data));
                     snapshot := data |}
           else None
       | None => None
       end;
     placeholder :=
       match weather s with
       | None =>
           negb (loading s) && negb (JS.truthy (Some (error s)))
           && bool_decide (query s = [])
       | Some _ => false
       end |}.

End WeatherPage.

(** ** WeatherAppWithSuggestions *)

Module WeatherAppWithSuggestions.

Record Address : Type := {
  city : option JS.str;
  town : option JS.str;
  village : option JS.str;
  state : option JS.str;
  country : option JS.str
}.

Record Location : Type := {
  lat : JS.str;
  lon : JS.str;
  display_name : JS.str;
  address : Address
}.

Record Current : Type := {
  temperature_2m : number;
  apparent_temperature : number;
  relative_humidity_2m : number;
  weather_code : Z;
  wind_speed_10m : number
}.

Record Daily : Type := {
  time : list JS.str;
  temperature_2m_max : list number;
  temperature_2m_min : list number;
  daily_weather_code : list Z;
  precipitation_probability_max : list number
}.

Record WeatherData : Type := {
  current : Current;
  daily : Daily
}.

(** [formatDisplayName]: [parts] grows by [push], then is joined. *)
Definition push (parts : list JS.str) (v : JS.str) : list JS.str :=
  parts ++ [v].

Definition formatDisplayName (loc : Location) : JS.str :=
  let parts := [] in
  let a := address loc in
  let parts :=
    JS.when (city a) (push parts)
      (JS.when (town a) (push parts)
         (JS.when (village a) (push parts) parts)) in
  let parts := JS.when (state a) (push parts) parts in
  let parts := JS.when (country a) (push parts) parts in
  JS.join (JS.lit ", ") parts.

(** *** Component state *)

Record ui_state : Type := State {
  query : JS.str;
  suggestions : list Location;
  selectedLocation : option Location;
  weather : option WeatherData;
  loading : bool;
  showSuggestions : bool;
  debounceTimer : option N
}.

Record host : Type := Host {
  timers : Timers.queue;
  next_call : nat;
  searches : gmap nat JS.str;        (* autocomplete fetches awaited *)
  search_log : list JS.str;          (* every autocomplete fetch *)
  forecasts : gmap nat Location;     (* forecast fetches awaited *)
  forecast_log : list Location;      (* every fetchWeather call *)
  console : list JS.str;             (* console.error *)
  alerts : list JS.str               (* alert *)
}.

Record world : Type := World { ui : ui_state; env : host }.

Definition initial : world :=
  World (State [] [] None None false false None)
        (Host Timers.init 0 ∅ [] ∅ [] [] []).

Definition setQuery v (w : world) : world :=
  let s := ui w in
  World (State v (suggestions s) (selectedLocation s) (weather s)
               (loading s) (showSuggestions s) (debounceTimer s)) (env w).
Definition setSuggestions v (w : world) : world :=
  let s := ui w in
  World (State (query s) v (selectedLocation s) (weather s)
               (loading s) (showSuggestions s) (debounceTimer s)) (env w).
Definition setSelectedLocation v (w : world) : world :=
  let s := ui w in
  World (State (query s) (suggestions s) v (weather s)
               (loading s) (showSuggestions s) (debounceTimer s)) (env w).
Definition setWeather v (w : world) : world :=
  let s := ui w in
  World (State (query s) (suggestions s) (selectedLocation s) v
               (loading s) (showSuggestions s) (debounceTimer s)) (env w).
Definition setLoading v (w : world) : world :=
  let s := ui w in
  World (State (query s) (suggestions s) (selectedLocation s) (weather s)
               v (showSuggestions s) (debounceTimer s)) (env w).
Definition setShowSuggestions v (w : world) : world :=
  let s := ui w in
  World (State (query s) (suggestions s) (selectedLocation s) (weather s)
               (loading s) v (debounceTimer s)) (env w).
Definition setDebounceTimer v (w : world) : world :=
  let s := ui w in
  World (State (query s) (suggestions s) (selectedLocation s) (weather s)
               (loading s) (showSuggestions s) v) (env w).

Definition withTimers (q : Timers.queue) (w : world) : world :=
  let h := env w in
  World (ui w) (Host q (next_call h) (searches h) (search_log h)
                     (forecasts h) (forecast_log h) (console h) (alerts h)).
Definition call_search (q : JS.str) (w : world) : world :=
  let h := env w in
  World (ui w) (Host (timers h) (S (next_call h))
                     (<[next_call h := q]> (searches h))
                     (search_log h ++ [q])
                     (forecasts h) (forecast_log h) (console h) (alerts h)).
Definition done_search (id : nat) (w : world) : world :=
  let h := env w in
  World (ui w) (Host (timers h) (next_call h) (delete id (searches h))
                     (search_log h) (forecasts h) (forecast_log h)
                     (console h) (alerts h)).
Definition call_forecast (loc : Location) (w : world) : world :=
  let h := env w in
  World (ui w) (Host (timers h) (S (next_call h)) (searches h)
                     (search_log h)
                     (<[next_call h := loc]> (forecasts h))
                     (forecast_log h ++ [loc]) (console h) (alerts h)).
Definition done_forecast (id : nat) (w : world) : world :=
  let h := env w in
  World (ui w) (Host (timers h) (next_call h) (searches h) (search_log h)
                     (delete id (forecasts h)) (forecast_log h)
                     (console h) (alerts h)).
Definition console_error (msg : JS.str) (w : world) : world :=
  let h := env w in
  World (ui w) (Host (timers h) (next_call h) (searches h) (search_log h)
                     (forecasts h) (forecast_log h) (console h ++ [msg])
                     (alerts h)).
Definition alert (msg : JS.str) (w : world) : world :=
  let h := env w in
  World (ui w) (Host (timers h) (next_call h) (searches h) (search_log h)
                     (forecasts h) (forecast_log h) (console h)
                     (alerts h ++ [msg])).

(** *** Handlers *)

(** The debounced suggestion effect, [useEffect(..., [query])]. *)
Definition search_effect (w : world) : world :=
  if JS.len (query (ui w)) <? 2 then
    setShowSuggestions false (setSuggestions [] w)
  else
    let w :=
      match debounceTimer (ui w) with
      | Some id => withTimers (Timers.clearTimeout id (timers (env w))) w
      | None => w
      end in
    let '(id, q) := Timers.setTimeout (query (ui w)) 300 (timers (env w)) in
    setDebounceTimer (Some id) (withTimers q w).

(** The timer callback up to its first [await].  The URL is built first:
    on a text that is not well formed [encodeURIComponent] throws, [fetch]
    is not called and the [catch] writes to the console.  Otherwise the
    fetch is issued. *)
Definition search_callback (q : JS.str) (w : world) : world :=
  if JS.well_formed q then call_search q w
  else console_error (JS.lit "Autocomplete failed") w.

(** The timer callback from there on: [fetch] and [res.json()] are awaited
    in a [try]; [res.ok] is not looked at. *)
Definition search_settled (r : response (list Location)) (w : world)
    : world :=
  match r with
  | Http _ (Some data) => setShowSuggestions true (setSuggestions data w)
  | Http _ None | NetworkError =>
      console_error (JS.lit "Autocomplete failed") w
  end.

(** [fetchWeather], up to its first [await]. *)
Definition fetchWeather (loc : Location) (w : world) : world :=
  call_forecast loc (setLoading true w).

(** [fetchWeather], from there on. *)
Definition forecast_settled (loc : Location) (r : response WeatherData)
    (w : world) : world :=
  let w :=
    match r with
    | Http _ (Some data) =>
        setQuery (formatDisplayName loc)
          (setShowSuggestions false
             (setSelectedLocation (Some loc) (setWeather (Some data) w)))
    | Http _ None | NetworkError =>
        alert (JS.lit "Failed to load weather") w
    end in
  setLoading false w.

(** Bodies that parse to something else than the declared type are stored
    like any other, since nothing is checked.  Two kinds leave the page
    standing.  A suggestion body whose [length] is not a positive number
    (the provider's error object, a number, an empty string) is kept in
    [suggestions], where the render and [onFocus] read nothing but that
    length: it is held here as the empty list.  A forecast body that is
    [null] or [false] is kept in [weather], where it fails the guard of the
    weather section like the initial [null]. *)
Definition search_settled_lengthless (w : world) : world :=
  setShowSuggestions true (setSuggestions [] w).

Definition forecast_settled_null (loc : Location) (w : world) : world :=
  setLoading false
    (setQuery (formatDisplayName loc)
       (setShowSuggestions false
          (setSelectedLocation (Some loc) (setWeather None w)))).

(** *** Events *)

#[global] Instance Address_eq_dec : EqDecision Address.
Proof. solve_decision. Defined.
#[global] Instance Location_eq_dec : EqDecision Location.
Proof. solve_decision. Defined.

(** The [<li>] of [loc] is on screen. *)
Definition listed (loc : Location) (s : ui_state) : bool :=
  showSuggestions s && bool_decide (loc ∈ suggestions s).

(** [inputRef] is the [<input>] alone, so the mousedown listener takes a
    press on the list for a press outside.  A selection with the pointer
    is a mousedown on the [<li>], then a mouseup and a click: the listener
    hides the list at the mousedown, React renders before the mouseup, and
    the [<li>] is gone when the click would reach it.  [Click] is a click
    event that does reach the [<li>] of a listed suggestion, as one
    dispatched by a script does. *)
Inductive event : Type :=
| Change (text : JS.str)             (* onChange of the input *)
| Focus                              (* onFocus of the input *)
| MouseDownOutside                   (* mousedown outside the input *)
| Select (loc : Location)            (* the pointer selects a suggestion *)
| Click (loc : Location)             (* onClick of a suggestion *)
| SearchResponse (id : nat) (r : response (list Location))
| ForecastResponse (id : nat) (r : response WeatherData)
| SearchLengthless (id : nat)        (* a suggestion body without entries *)
| ForecastNull (id : nat).           (* a forecast body null or false *)

Definition handle (e : event) (w : world) : world :=
  match e with
  | Change text => setQuery text w
  | Focus =>
      if 0 <? length (suggestions (ui w)) then setShowSuggestions true w
      else w
  | MouseDownOutside => setShowSuggestions false w
  | Select loc =>
      if listed loc (ui w) then setShowSuggestions false w else w
  | Click loc =>
      if listed loc (ui w) then fetchWeather loc w else w
  | SearchResponse id r =>
      match searches (env w) !! id with
      | Some _ => search_settled r (done_search id w)
      | None => w
      end
  | ForecastResponse id r =>
      match forecasts (env w) !! id with
      | Some loc => forecast_settled loc r (done_forecast id w)
      | None => w
      end
  | SearchLengthless id =>
      match searches (env w) !! id with
      | Some _ => search_settled_lengthless (done_search id w)
      | None => w
      end
  | ForecastNull id =>
      match forecasts (env w) !! id with
      | Some loc => forecast_settled_null loc (done_forecast id w)
      | None => w
      end
  end.

Definition dispatch (e : event) (w : world) : world :=
  let w' := handle e w in
  if decide (query (ui w') = query (ui w)) then w' else search_effect w'.

Definition advance (t : N) (w : world) : world :=
  let '(due, q) := Timers.expire t (timers (env w)) in
  fold_left (fun w tm => search_callback (Timers.captured tm) w) due
            (withTimers q w).

Definition step (te : N * event) (w : world) : world :=
  dispatch (snd te) (advance (fst te) w).

Definition run (evs : list (N * event)) (w : world) : world :=
  fold_left (fun w te => step te w) evs w.

Definition type_burst (b : list (N * JS.str)) (w : world) : world :=
  fold_left (fun w u => step (fst u, Change (snd u)) w) b w.

(** Every event but a scripted click: what the user and the network can
    bring about. *)
Definition unscripted (e : event) : bool :=
  match e with
  | Click _ => false
  | _ => true
  end.

(** *** Rendering *)

Record entry : Type := {
  entry_title : JS.str;
  entry_loc : Location
}.

Record section : Type := {
  heading : JS.str;
  glyph : JS.str;
  snapshot : WeatherData
}.

Record view : Type := {
  input_value : JS.str;
  dropdown : option (list entry);
  loading_text : bool;
  weather_section : option section
}.

Definition render (s : ui_state) : view :=
  {| input_value := query s;
     dropdown :=
       if showSuggestions s && (0 <? length (suggestions s))
       then Some (map (fun loc => {| entry_title := formatDisplayName loc;
                                     entry_loc := loc |})
                      (suggestions s))
       else None;
     loading_text := loading s;
     weather_section :=
       match weather s, selectedLocation s with
       | Some data, Some loc =>
           Some {| heading := formatDisplayName loc;
                   glyph := getWeatherIcon (weather_code (current data));
                   snapshot := data |}
       | _, _ => None
       end |}.

(** *** The page while the component is mounted, and after

    A stored body on which the render throws takes the component down:
    there is no error boundary, so React unmounts the tree and the page
    stays blank.  This happens for a suggestion body that is [null] or has
    entries that are no suggestions, and for a forecast body that is
    truthy but has no [current] or no [daily.time] (the provider's error
    object).  The handler has finished by then (React renders after it, in
    one batch), so its [catch] does not see the error.  Afterwards the
    input and the listeners are gone and state setters do nothing; a timeout
    still pending fires and issues its fetch, and [console.error] and
    [alert] still run. *)
Inductive occurrence : Type :=
| Ordinary (e : event)
| SearchUnlistable (id : nat)
| ForecastUnrenderable (id : nat).

Record page : Type := Page { content : world; mounted : bool }.

Definition start : page := Page initial true.

(** An answer arriving after the unmount: the host's part of the handler. *)
Definition host_only (e : event) (w : world) : world :=
  match e with
  | SearchResponse _ _ | ForecastResponse _ _
  | SearchLengthless _ | ForecastNull _ => World (ui w) (env (handle e w))
  | _ => w
  end.

Definition occur (to : N * occurrence) (p : page) : page :=
  let w := advance (fst to) (content p) in
  if mounted p then
    match snd to with
    | Ordinary e => Page (dispatch e w) true
    | SearchUnlistable id =>
        match searches (env w) !! id with
        | Some _ => Page (done_search id w) false
        | None => Page w true
        end
    | ForecastUnrenderable id =>
        match forecasts (env w) !! id with
        | Some _ => Page (done_forecast id w) false
        | None => Page w true
        end
    end
  else
    match snd to with
    | Ordinary e => Page (host_only e w) false
    | SearchUnlistable id => Page (done_search id w) false
    | ForecastUnrenderable id => Page (done_forecast id w) false
    end.

Definition occurs (tos : list (N * occurrence)) (p : page) : page :=
  fold_left (fun p to => occur to p) tos p.

Definition render_page (p : page) : option view :=
  if mounted p then Some (render (ui (content p))) else None.

End WeatherAppWithSuggestions.

(** ** The specification's vocabulary *)

Module Spec.

(** The first present (defined and non-empty) field of a preference list,
    as a list of at most one element. *)
Fixpoint first_present (fields : list (option JS.str)) : list JS.str :=
  match fields with
  | [] => []
  | f :: rest => if JS.truthy f then [JS.or f []] else first_present rest
  end.

(** "Preferring city, then town, then village, followed by state and
    country, joined with a fixed separator." *)
Definition address_label (a : WeatherAppWithSuggestions.Address) : JS.str :=
  JS.join (JS.lit ", ")
    (first_present [WeatherAppWithSuggestions.city a;
                    WeatherAppWithSuggestions.town a;
                    WeatherAppWithSuggestions.village a]
     ++ first_present [WeatherAppWithSuggestions.state a]
     ++ first_present [WeatherAppWithSuggestions.country a]).

(** "No structured address fields." *)
Definition no_address_fields (a : WeatherAppWithSuggestions.Address) : Prop :=
  WeatherAppWithSuggestions.city a = None /\
  WeatherAppWithSuggestions.town a = None /\
  WeatherAppWithSuggestions.village a = None /\
  WeatherAppWithSuggestions.state a = None /\
  WeatherAppWithSuggestions.country a = None.

(** "Trimmed text length." *)
Definition trimmed_length (text : JS.str) : nat := JS.len (JS.trim text).

(** "The first comma-delimited segment" of a label: the part before its
    first comma, or all of it when it has none. *)
Definition first_segment (seg label : JS.str) : Prop :=
  ~ In JS.comma seg /\
  (label = seg \/ exists rest, label = seg ++ JS.comma :: rest).

(** A burst of query updates: arrival time in milliseconds and text. *)
Definition burst : Type := list (N * JS.str).

(** Every update of [b] arrives less than 300 ms after the one before it,
    [t0] being the arrival time of the update before the first of [b]. *)
Fixpoint spaced (t0 : N) (b : burst) : Prop :=
  match b with
  | [] => True
  | (t, _) :: rest => (t0 <= t < t0 + 300)%N /\ spaced t rest
  end.

(** Every update of [b] changes the text, [q0] being the text before. *)
Fixpoint changing (q0 : JS.str) (b : burst) : Prop :=
  match b with
  | [] => True
  | (_, text) :: rest => text <> q0 /\ changing text rest
  end.

(** Every update of [b] has at least two code units. *)
Definition long (b : burst) : Prop :=
  Forall (fun u => 2 <= JS.len (snd u)) b.

End Spec.

(** ** The debounce discipline, for either component

    What the two components share: a query, a ref holding the handle of the
    last timeout, the host's timer queue and the log of searches issued. *)

Module Debounce.
Section Machine.

Variable W : Type.
Variable query : W -> JS.str.
Variable ref : W -> option N.
Variable tq : W -> Timers.queue.
Variable advance : N -> W -> W.
Variable change : JS.str -> W -> W.

(** No timeout is pending but the one the ref points to. *)
Definition tidy (w : W) : Prop :=
  forall tm, In tm (Timers.pending (tq w)) -> ref w = Some (Timers.tid tm).

(** The update to [text] arrived at [t] and its search is scheduled: the
    only pending timeout carries [text] and expires at [t + 300]. *)
Definition armed (t : N) (text : JS.str) (w : W) : Prop :=
  query w = text /\ Timers.clock (tq w) = t /\
  exists id, Timers.pending (tq w) = [Timers.Timer id (t + 300)%N text]
             /\ ref w = Some id.

Definition type_burst (b : list (N * JS.str)) (w : W) : W :=
  fold_left (fun w u => change (snd u) (advance (fst u) w)) b w.

End Machine.
End Debounce.

(** The discipline in each component. *)
Module PageDebounce.
Definition ref (w : WeatherPage.world) : option N :=
  WeatherPage.debounceRef (WeatherPage.ui w).
Definition tq (w : WeatherPage.world) : Timers.queue :=
  WeatherPage.timers (WeatherPage.env w).
Definition query (w : WeatherPage.world) : JS.str :=
  WeatherPage.query (WeatherPage.ui w).
Definition tidy : WeatherPage.world -> Prop :=
  Debounce.tidy WeatherPage.world ref tq.
Definition armed : N -> JS.str -> WeatherPage.world -> Prop :=
  Debounce.armed WeatherPage.world query ref tq.
End PageDebounce.

Module AppDebounce.
Definition ref (w : WeatherAppWithSuggestions.world) : option N :=
  WeatherAppWithSuggestions.debounceTimer (WeatherAppWithSuggestions.ui w).
Definition tq (w : WeatherAppWithSuggestions.world) : Timers.queue :=
  WeatherAppWithSuggestions.timers (WeatherAppWithSuggestions.env w).
Definition query (w : WeatherAppWithSuggestions.world) : JS.str :=
  WeatherAppWithSuggestions.query (WeatherAppWithSuggestions.ui w).
Definition tidy : WeatherAppWithSuggestions.world -> Prop :=
  Debounce.tidy WeatherAppWithSuggestions.world ref tq.
Definition armed : N -> JS.str -> WeatherAppWithSuggestions.world -> Prop :=
  Debounce.armed WeatherAppWithSuggestions.world query ref tq.
End AppDebounce.

(** ** Sample data *)

Module Samples.

Definition berlin : WeatherPage.LocationSuggestion :=
  {| WeatherPage.place_id := JS.lit "1";
     WeatherPage.display_name := JS.lit "Berlin, Germany";
     WeatherPage.lat := JS.lit "52.52";
     WeatherPage.lon := JS.lit "13.405" |}.

Definition london : WeatherPage.LocationSuggestion :=
  {| WeatherPage.place_id := JS.lit "2";
     WeatherPage.display_name := JS.lit "London, England, United Kingdom";
     WeatherPage.lat := JS.lit "51.5074";
     WeatherPage.lon := JS.lit "-0.1278" |}.

Definition long_eaton : WeatherPage.LocationSuggestion :=
  {| WeatherPage.place_id := JS.lit "3";
     WeatherPage.display_name := JS.lit "Long Eaton, England, United Kingdom";
     WeatherPage.lat := JS.lit "52.8983";
     WeatherPage.lon := JS.lit "-1.2719" |}.

Definition mild : WeatherPage.WeatherData :=
  {| WeatherPage.current :=
       {| WeatherPage.temperature_2m := Num (JS.lit "18.3");
          WeatherPage.apparent_temperature := Num (JS.lit "17.9");
          WeatherPage.relative_humidity_2m := Num (JS.lit "60");
          WeatherPage.wind_speed_10m := Num (JS.lit "12.4");
          WeatherPage.weather_code := 2 |};
     WeatherPage.daily :=
       {| WeatherPage.time := [JS.lit "2025-11-27"];
          WeatherPage.temperature_2m_max := [Num (JS.lit "19.1")];
          WeatherPage.temperature_2m_min := [Num (JS.lit "9.6")];
          WeatherPage.daily_weather_code := [2%Z] |} |}.

(** A reverse-geocoded place with a city, and one without any of the three
    name fields. *)
Definition paris_place : WeatherPage.Place :=
  {| WeatherPage.place_name := JS.lit "Paris, Île-de-France, France";
     WeatherPage.address :=
       Some {| WeatherPage.city := Some (JS.lit "Paris");
               WeatherPage.town := None;
               WeatherPage.village := None |} |}.

Definition road_place : WeatherPage.Place :=
  {| WeatherPage.place_name := JS.lit "Route 66, Arizona, United States";
     WeatherPage.address :=
       Some {| WeatherPage.city := None;
               WeatherPage.town := None;
               WeatherPage.village := None |} |}.

(** Suggestions of the other component carry an address. *)
Definition paris : WeatherAppWithSuggestions.Location :=
  {| WeatherAppWithSuggestions.lat := JS.lit "48.8566";
     WeatherAppWithSuggestions.lon := JS.lit "2.3522";
     WeatherAppWithSuggestions.display_name :=
       JS.lit "Paris, Île-de-France, France";
     WeatherAppWithSuggestions.address :=
       {| WeatherAppWithSuggestions.city := Some (JS.lit "Paris");
          WeatherAppWithSuggestions.town := None;
          WeatherAppWithSuggestions.village := None;
          WeatherAppWithSuggestions.state := Some (JS.lit "Île-de-France");
          WeatherAppWithSuggestions.country := Some (JS.lit "France") |} |}.

Definition bare_paris : WeatherAppWithSuggestions.Location :=
  {| WeatherAppWithSuggestions.lat := JS.lit "48.8566";
     WeatherAppWithSuggestions.lon := JS.lit "2.3522";
     WeatherAppWithSuggestions.display_name :=
       JS.lit "Paris, Île-de-France, France";
     WeatherAppWithSuggestions.address :=
       {| WeatherAppWithSuggestions.city := None;
          WeatherAppWithSuggestions.town := None;
          WeatherAppWithSuggestions.village := None;
          WeatherAppWithSuggestions.state := None;
          WeatherAppWithSuggestions.country := None |} |}.

(** A component state holding a snapshot while a fetch is awaited, and a
    world around it. *)
Definition held_loading : WeatherPage.ui_state :=
  WeatherPage.State (JS.lit "Berlin") [] false true false (Some mild)
                    (JS.lit "Berlin, Germany") [] false None.

Definition holding : WeatherPage.world :=
  WeatherPage.World held_loading (WeatherPage.env WeatherPage.initial).

(** Berlin's forecast fetch has settled and London's is awaited. *)
Definition refetching : WeatherPage.world :=
  WeatherPage.run
    [ (0%N, WeatherPage.Select berlin);
      (120%N, WeatherPage.ForecastResponse 0 (Http true (Some mild)));
      (5000%N, WeatherPage.Select london) ]
    WeatherPage.initial.

(** Suggestions for "Par" are shown and the search for "Pari" is awaited. *)
Definition paris_listed : WeatherAppWithSuggestions.world :=
  WeatherAppWithSuggestions.run
    [ (0%N, WeatherAppWithSuggestions.Change (JS.lit "Par"));
      (420%N, WeatherAppWithSuggestions.SearchResponse 0
                (Http true (Some [paris])));
      (500%N, WeatherAppWithSuggestions.Change (JS.lit "Pari"));
      (800%N, WeatherAppWithSuggestions.Focus) ]
    WeatherAppWithSuggestions.initial.

(** "Lon" was typed, then "London"; both searches are awaited. *)
Definition two_searches : WeatherPage.world :=
  WeatherPage.advance 700
    (WeatherPage.type_burst [ (0%N, JS.lit "Lon"); (350%N, JS.lit "London") ]
                            WeatherPage.initial).

Definition two_fetches : WeatherAppWithSuggestions.world :=
  WeatherAppWithSuggestions.advance 700
    (WeatherAppWithSuggestions.type_burst
       [ (0%N, JS.lit "Par"); (350%N, JS.lit "Paris") ]
       WeatherAppWithSuggestions.initial).

(** "Lo" is typed, cut back to "L" and extended to "Lon", 250 ms apart. *)
Definition mixed_burst : Spec.burst :=
  [ (0%N, JS.lit "Lo"); (250%N, JS.lit "L"); (500%N, JS.lit "Lon") ].

(** Four keystrokes 50 ms apart. *)
Definition keystrokes : Spec.burst :=
  [ (0%N, JS.lit "Be"); (50%N, JS.lit "Ber"); (100%N, JS.lit "Berl");
    (150%N, JS.lit "Berli") ].

(** Suggestions for "Ber" are shown and the search for "Berl" is awaited. *)
Definition berlin_listed : WeatherPage.world :=
  WeatherPage.run
    [ (0%N, WeatherPage.Change (JS.lit "Ber"));
      (420%N, WeatherPage.SearchResponse 0 (Http true (Some [berlin])));
      (500%N, WeatherPage.Change (JS.lit "Berl"));
      (800%N, WeatherPage.Focus) ]
    WeatherPage.initial.

End Samples.

(** ** The day cards of the forecast

    Both components map over [weather.daily.time] and index the other daily
    arrays by position.  A card is modelled by its label and its glyph; the
    two rounded temperatures it also prints are floating point and are left
    out. *)

Module Days.

Inductive day_label : Type :=
| Today
| Weekday (date : JS.str).     (* formatDate(date), toLocaleDateString *)

Record day_card : Type := {
  card_label : day_label;
  card_glyph : JS.str
}.

(** [getWeatherEmoji(codes[i])]: past the end [codes[i]] is [undefined], a
    key no table has. *)
Definition emoji_at (codes : list Z) (i : nat) : JS.str :=
  match codes !! i with
  | Some code => getWeatherEmoji code
  | None => JS.or None (JS.lit "🌤️")
  end.

Definition icon_at (codes : list Z) (i : nat) : JS.str :=
  match codes !! i with
  | Some code => getWeatherIcon code
  | None => JS.or None (JS.lit "🌤️")
  end.

(** WeatherPage: [weather.daily.time.map((date, i) => ...)]. *)
Definition page_cards (data : WeatherPage.WeatherData) : list day_card :=
  imap (fun i date =>
          {| card_label := match i with 0 => Today | S _ => Weekday date end;
             card_glyph :=
               emoji_at (WeatherPage.daily_weather_code
                           (WeatherPage.daily data)) i |})
       (WeatherPage.time (WeatherPage.daily data)).

(** WeatherAppWithSuggestions:
    [weather.daily.time.slice(0, 7).map((day, i) => ...)]. *)
Definition app_cards (data : WeatherAppWithSuggestions.WeatherData)
    : list day_card :=
  imap (fun i day =>
          {| card_label := Weekday day;
             card_glyph :=
               icon_at (WeatherAppWithSuggestions.daily_weather_code
                          (WeatherAppWithSuggestions.daily data)) i |})
       (take 7 (WeatherAppWithSuggestions.time
                  (WeatherAppWithSuggestions.daily data))).

End Days.

(** ** App, the first draft of the page
    (src/.history/src/api/openmeteo_20251127123811.ts)

    The same page with the HTTP calls written inline.  It differs from
    WeatherPage where it reads the API key, clears the snapshot before a
    fetch, names a reverse-geocoded place and waits for the forecast on the
    current-position path. *)

Module App.

Definition weatherMap : gmap Z JS.str :=
  list_to_map
    [ (0, JS.lit "☀️"); (1, JS.lit "🌤️"); (2, JS.lit "⛅"); (3, JS.lit "☁️");
      (45, JS.lit "🌫️"); (48, JS.lit "🌫️");
      (51, JS.lit "🌦️"); (53, JS.lit "🌦️"); (55, JS.lit "🌦️");
      (56, JS.lit "🌧️"); (57, JS.lit "🌧️");
      (61, JS.lit "🌧️"); (63, JS.lit "🌧️"); (65, JS.lit "🌧️");
      (66, JS.lit "🌨️"); (67, JS.lit "🌨️");
      (71, JS.lit "🌨️"); (73, JS.lit "🌨️"); (75, JS.lit "🌨️");
      (77, JS.lit "🌨️");
      (80, JS.lit "🌦️"); (81, JS.lit "🌦️"); (82, JS.lit "🌦️");
      (85, JS.lit "🌨️"); (86, JS.lit "🌨️");
      (95, JS.lit "⛈️"); (96, JS.lit "⛈️"); (99, JS.lit "⛈️") ]%Z.

Definition getWeatherEmoji (code : Z) : JS.str :=
  JS.or (weatherMap !! code) (JS.lit "🌤️").

(** [Location] and [WeatherData] have the fields of WeatherPage's
    [LocationSuggestion] and [WeatherData]; the reverse-geocoding payload is
    read through the same fields. *)
Definition Location : Type := WeatherPage.LocationSuggestion.
Definition WeatherData : Type := WeatherPage.WeatherData.
Definition Place : Type := WeatherPage.Place.

Record ui_state : Type := State {
  query : JS.str;
  suggestions : list Location;
  showDropdown : bool;
  loading : bool;
  searchingLocation : bool;
  weather : option WeatherData;
  selectedCity : JS.str;
  error : JS.str;
  geoLoading : bool;
  debounceTimer : option N
}.

(** Arguments of one [fetchWeather] call, and whether its caller awaits it
    (the current-position path does, to clear [geoLoading] afterwards). *)
Record forecast_call : Type := {
  fc_lat : JS.str;
  fc_lon : JS.str;
  fc_cityName : JS.str;
  fc_awaited : bool
}.

Record host : Type := Host {
  apiKey : option JS.str;                 (* import.meta.env.VITE_LOCATIONIQ_KEY *)
  timers : Timers.queue;
  next_call : nat;
  searches : gmap nat JS.str;             (* autocomplete fetches awaited *)
  search_log : list JS.str;               (* every autocomplete fetch *)
  forecasts : gmap nat forecast_call;     (* forecast fetches awaited *)
  forecast_log : list forecast_call;      (* every fetchWeather call *)
  positions : gset nat;                   (* getCurrentPosition awaited *)
  lookups : gmap nat (number * number);   (* reverse fetches awaited *)
  lookup_log : list (number * number)     (* every reverse fetch *)
}.

Record world : Type := World { ui : ui_state; env : host }.

Definition initial (key : option JS.str) : world :=
  World (State [] [] false false false None [] [] false None)
        (Host key Timers.init 0 ∅ [] ∅ [] ∅ ∅ []).

Definition setQuery v (w : world) : world :=
  let s := ui w in
  World (State v (suggestions s) (showDropdown s) (loading s)
               (searchingLocation s) (weather s) (selectedCity s) (error s)
               (geoLoading s) (debounceTimer s)) (env w).
Definition setSuggestions v (w : world) : world :=
  let s := ui w in
  World (State (query s) v (showDropdown s) (loading s)
               (searchingLocation s) (weather s) (selectedCity s) (error s)
               (geoLoading s) (debounceTimer s)) (env w).
Definition setShowDropdown v (w : world) : world :=
  let s := ui w in
  World (State (query s) (suggestions s) v (loading s)
               (searchingLocation s) (weather s) (selectedCity s) (error s)
               (geoLoading s) (debounceTimer s)) (env w).
Definition setLoading v (w : world) : world :=
  let s := ui w in
  World (State (query s) (suggestions s) (showDropdown s) v
               (searchingLocation s) (weather s) (selectedCity s) (error s)
               (geoLoading s) (debounceTimer s)) (env w).
Definition setSearchingLocation v (w : world) : world :=
  let s := ui w in
  World (State (query s) (suggestions s) (showDropdown s) (loading s) v
               (weather s) (selectedCity s) (error s) (geoLoading s)
               (debounceTimer s)) (env w).
Definition setWeather v (w : world) : world :=
  let s := ui w in
  World (State (query s) (suggestions s) (showDropdown s) (loading s)
               (searchingLocation s) v (selectedCity s) (error s)
               (geoLoading s) (debounceTimer s)) (env w).
Definition setSelectedCity v (w : world) : world :=
  let s := ui w in
  World (State (query s) (suggestions s) (showDropdown s) (loading s)
               (searchingLocation s) (weather s) v (error s) (geoLoading s)
               (debounceTimer s)) (env w).
Definition setError v (w : world) : world :=
  let s := ui w in
  World (State (query s) (suggestions s) (showDropdown s) (loading s)
               (searchingLocation s) (weather s) (selectedCity s) v
               (geoLoading s) (debounceTimer s)) (env w).
Definition setGeoLoading v (w : world) : world :=
  let s := ui w in
  World (State (query s) (suggestions s) (showDropdown s) (loading s)
               (searchingLocation s) (weather s) (selectedCity s) (error s) v
               (debounceTimer s)) (env w).
Definition setDebounceTimer v (w : world) : world :=
  let s := ui w in
  World (State (query s) (suggestions s) (showDropdown s) (loading s)
               (searchingLocation s) (weather s) (selectedCity s) (error s)
               (geoLoading s) v) (env w).

Definition withTimers (q : Timers.queue) (w : world) : world :=
  let h := env w in
  World (ui w) (Host (apiKey h) q (next_call h) (searches h) (search_log h)
                     (forecasts h) (forecast_log h) (positions h)
                     (lookups h) (lookup_log h)).
Definition call_search (q : JS.str) (w : world) : world :=
  let h := env w in
  World (ui w) (Host (apiKey h) (timers h) (S (next_call h))
                     (<[next_call h := q]> (searches h))
                     (search_log h ++ [q])
                     (forecasts h) (forecast_log h) (positions h)
                     (lookups h) (lookup_log h)).
Definition done_search (id : nat) (w : world) : world :=
  let h := env w in
  World (ui w) (Host (apiKey h) (timers h) (next_call h)
                     (delete id (searches h)) (search_log h)
                     (forecasts h) (forecast_log h) (positions h)
                     (lookups h) (lookup_log h)).
Definition call_forecast (c : forecast_call) (w : world) : world :=
  let h := env w in
  World (ui w) (Host (apiKey h) (timers h) (S (next_call h)) (searches h)
                     (search_log h)
                     (<[next_call h := c]> (forecasts h))
                     (forecast_log h ++ [c]) (positions h)
                     (lookups h) (lookup_log h)).
Definition done_forecast (id : nat) (w : world) : world :=
  let h := env w in
  World (ui w) (Host (apiKey h) (timers h) (next_call h) (searches h)
                     (search_log h) (delete id (forecasts h))
                     (forecast_log h) (positions h)
                     (lookups h) (lookup_log h)).
Definition call_position (w : world) : world :=
  let h := env w in
  World (ui w) (Host (apiKey h) (timers h) (S (next_call h)) (searches h)
                     (search_log h) (forecasts h) (forecast_log h)
                     ({[next_call h]} ∪ positions h)
                     (lookups h) (lookup_log h)).
Definition done_position (id : nat) (w : world) : world :=
  let h := env w in
  World (ui w) (Host (apiKey h) (timers h) (next_call h) (searches h)
                     (search_log h) (forecasts h) (forecast_log h)
                     (positions h ∖ {[id]})
                     (lookups h) (lookup_log h)).
Definition call_lookup (latitude longitude : number) (w : world) : world :=
  let h := env w in
  World (ui w) (Host (apiKey h) (timers h) (S (next_call h)) (searches h)
                     (search_log h) (forecasts h) (forecast_log h)
                     (positions h)
                     (<[next_call h := (latitude, longitude)]> (lookups h))
                     (lookup_log h ++ [(latitude, longitude)])).
Definition done_lookup (id : nat) (w : world) : world :=
  let h := env w in
  World (ui w) (Host (apiKey h) (timers h) (next_call h) (searches h)
                     (search_log h) (forecasts h) (forecast_log h)
                     (positions h) (delete id (lookups h)) (lookup_log h)).

(** *** Handlers *)

Definition search_effect (w : world) : world :=
  if JS.len (query (ui w)) <? 2 then
    setShowDropdown false (setSuggestions [] w)
  else
    let w :=
      match debounceTimer (ui w) with
      | Some id => withTimers (Timers.clearTimeout id (timers (env w))) w
      | None => w
      end in
    let '(id, q) := Timers.setTimeout (query (ui w)) 300 (timers (env w)) in
    setDebounceTimer (Some id) (withTimers q w).

(** The [catch] and [finally] of the timer callback. *)
Definition search_failed (w : world) : world :=
  setSearchingLocation false
    (setSuggestions []
       (setError (JS.lit "Failed to search locations. Please try again.") w)).

(** The timer callback up to its first [await]: without an API key it
    throws before any request is made, and so does [encodeURIComponent] on
    a text that is not well formed. *)
Definition search_callback (q : JS.str) (w : world) : world :=
  let w := setSearchingLocation true w in
  let w := setError [] w in
  if JS.truthy (apiKey (env w)) then
    if JS.well_formed q then call_search q w else search_failed w
  else search_failed w.

(** The timer callback from there on. *)
Definition search_settled (r : response (list Location)) (w : world)
    : world :=
  match WeatherPage.settle r with
  | Resolved data =>
      setSearchingLocation false
        (setShowDropdown true (setSuggestions data w))
  | Rejected => search_failed w
  end.

(** [fetchWeather], up to its first [await]. *)
Definition fetchWeather (lat lon cityName : JS.str) (awaited : bool)
    (w : world) : world :=
  call_forecast {| fc_lat := lat; fc_lon := lon; fc_cityName := cityName;
                   fc_awaited := awaited |}
                (setWeather None (setError [] (setLoading true w))).

(** [fetchWeather] from there on, then what its awaiting caller does. *)
Definition forecast_settled (c : forecast_call) (r : response WeatherData)
    (w : world) : world :=
  let w :=
    match WeatherPage.settle r with
    | Resolved data =>
        setShowDropdown false
          (setSelectedCity (fc_cityName c) (setWeather (Some data) w))
    | Rejected =>
        setError (JS.lit "Failed to fetch weather data. Please try again.") w
    end in
  let w := setLoading false w in
  if fc_awaited c then setGeoLoading false w else w.

Definition handleLocationSelect (location : Location) (w : world) : world :=
  let cityName :=
    JS.at0 (JS.split JS.comma (WeatherPage.display_name location)) in
  let w := setQuery cityName w in
  fetchWeather (WeatherPage.lat location) (WeatherPage.lon location)
               (WeatherPage.display_name location) false w.

Definition handleUseMyLocation (supported : bool) (w : world) : world :=
  if negb supported then
    setError (JS.lit "Geolocation is not supported by your browser") w
  else call_position (setError [] (setGeoLoading true w)).

(** The [catch] and [finally] of the position callback. *)
Definition lookup_failed (w : world) : world :=
  setGeoLoading false
    (setError
       (JS.lit "Failed to get location name. Please try searching manually.")
       w).

(** The position callback up to its first [await]. *)
Definition position_granted (latitude longitude : number) (w : world)
    : world :=
  if JS.truthy (apiKey (env w)) then call_lookup latitude longitude w
  else lookup_failed w.

(** [city || town || village || display_name.split(',')[0]]. *)
Definition cityName_of (a : WeatherPage.Address) (display_name : JS.str)
    : JS.str :=
  JS.or (JS.or_else (WeatherPage.city a)
           (JS.or_else (WeatherPage.town a) (WeatherPage.village a)))
        (JS.at0 (JS.split JS.comma display_name)).

(** The position callback from the reverse fetch on; reading a field of a
    missing [data.address] throws. *)
Definition lookup_settled (latitude longitude : number)
    (r : response Place) (w : world) : world :=
  match WeatherPage.settle r with
  | Resolved data =>
      match WeatherPage.address data with
      | Some a =>
          let cityName := cityName_of a (WeatherPage.place_name data) in
          let w := setQuery cityName w in
          fetchWeather (toString latitude) (toString longitude)
                       (WeatherPage.place_name data) true w
      | None => lookup_failed w
      end
  | Rejected => lookup_failed w
  end.

(** The error callback; [denied] is [err.code === err.PERMISSION_DENIED]. *)
Definition position_failed (denied : bool) (w : world) : world :=
  let w := setGeoLoading false w in
  if denied then
    setError
      (JS.lit "Location access denied. Please enable location permissions.")
      w
  else
    setError
      (JS.lit "Failed to get your location. Please try searching manually.")
      w.

Inductive position_result : Type :=
| Granted (latitude longitude : number)
| Failed (denied : bool).

Inductive event : Type :=
| Change (text : JS.str)
| MouseDownOutside
| Select (location : Location)
| UseMyLocation (supported : bool)
| SearchResponse (id : nat) (r : response (list Location))
| ForecastResponse (id : nat) (r : response WeatherData)
| Position (id : nat) (p : position_result)
| LookupResponse (id : nat) (r : response Place).

Definition handle (e : event) (w : world) : world :=
  match e with
  | Change text => setQuery text w
  | MouseDownOutside => setShowDropdown false w
  | Select location => handleLocationSelect location w
  | UseMyLocation supported =>
      if geoLoading (ui w) then w            (* the button is disabled *)
      else handleUseMyLocation supported w
  | SearchResponse id r =>
      match searches (env w) !! id with
      | Some _ => search_settled r (done_search id w)
      | None => w
      end
  | ForecastResponse id r =>
      match forecasts (env w) !! id with
      | Some c => forecast_settled c r (done_forecast id w)
      | None => w
      end
  | Position id p =>
      if decide (id ∈ positions (env w)) then
        match p with
        | Granted latitude longitude =>
            position_granted latitude longitude (done_position id w)
        | Failed denied => position_failed denied (done_position id w)
        end
      else w
  | LookupResponse id r =>
      match lookups (env w) !! id with
      | Some (latitude, longitude) =>
          lookup_settled latitude longitude r (done_lookup id w)
      | None => w
      end
  end.

Definition dispatch (e : event) (w : world) : world :=
  let w' := handle e w in
  if decide (query (ui w') = query (ui w)) then w' else search_effect w'.

Definition advance (t : N) (w : world) : world :=
  let '(due, q) := Timers.expire t (timers (env w)) in
  fold_left (fun w tm => search_callback (Timers.captured tm) w) due
            (withTimers q w).

Definition step (te : N * event) (w : world) : world :=
  dispatch (snd te) (advance (fst te) w).

Definition run (evs : list (N * event)) (w : world) : world :=
  fold_left (fun w te => step te w) evs w.

(** The answer of a forecast fetch that succeeds. *)
Definition brings_snapshot (e : event) : bool :=
  match e with
  | ForecastResponse _ r =>
      match WeatherPage.settle r with
      | Resolved _ => true
      | Rejected => false
      end
  | _ => false
  end.

(** *** Rendering *)

Record entry : Type := {
  entry_title : JS.str;
  entry_subtitle : JS.str;
  entry_loc : Location
}.

Record section : Type := {
  heading : JS.str;
  glyph : JS.str;
  snapshot : WeatherData
}.

Record view : Type := {
  input_value : JS.str;
  search_spinner : bool;
  button_disabled : bool;
  dropdown : option (list entry);
  error_box : option JS.str;
  loading_spinner : bool;
  weather_section : option section;
  placeholder : bool
}.

Definition render (s : ui_state) : view :=
  {| input_value := query s;
     search_spinner := searchingLocation s;
     button_disabled := geoLoading s;
     dropdown :=
       if showDropdown s && (0 <? length (suggestions s))
       then Some (map (fun location =>
                         {| entry_title :=
                              JS.at0 (JS.split JS.comma
                                        (WeatherPage.display_name location));
                            entry_subtitle := WeatherPage.display_name location;
                            entry_loc := location |})
                      (suggestions s))
       else None;
     error_box := if JS.truthy (Some (error s)) then Some (error s) else None;
     loading_spinner := loading s;
     weather_section :=
       match weather s with
       | Some data =>
           if negb (loading s) then
             Some {| heading := selectedCity s;
                     glyph := getWeatherEmoji
                                (WeatherPage.weather_code
                                   (WeatherPage.current data));
                     snapshot := data |}
           else None
       | None => None
       end;
     placeholder :=
       match weather s with
       | None => negb (loading s) && negb (JS.truthy (Some (error s)))
       | Some _ => false
       end |}.

End App.

(** The discipline in the draft. *)
Module DraftDebounce.
Definition ref (w : App.world) : option N := App.debounceTimer (App.ui w).
Definition tq (w : App.world) : Timers.queue := App.timers (App.env w).
Definition query (w : App.world) : JS.str := App.query (App.ui w).
Definition tidy : App.world -> Prop := Debounce.tidy App.world ref tq.
End DraftDebounce.

(** ** Invariants of the reachable states *)

Module Inv.

(** A position request or a reverse lookup is awaited exactly while
    [geoLoading] is set, and never more than one of them. *)
Definition locating (w : WeatherPage.world) : Prop :=
  let h := WeatherPage.env w in
  (WeatherPage.geoLoading (WeatherPage.ui w) = false /\
   WeatherPage.positions h = ∅ /\ WeatherPage.lookups h = ∅)
  \/
  (WeatherPage.geoLoading (WeatherPage.ui w) = true /\
   ((exists id, WeatherPage.positions h = {[id]} /\ WeatherPage.lookups h = ∅)
    \/
    (WeatherPage.positions h = ∅ /\
     exists id c, WeatherPage.lookups h = {[id := c]}))).

(** The debounce queue in a reachable state: the only timeout that can be
    pending is the one the ref points to, at most one is, and neither a
    pending timeout nor a search already issued carries a text of fewer than
    two code units. *)
Definition queue_ok (ref : option N) (log : list JS.str) (h : Timers.queue)
    : Prop :=
  (forall tm, In tm (Timers.pending h) -> ref = Some (Timers.tid tm)) /\
  length (Timers.pending h) <= 1 /\
  Forall (fun tm => 2 <= JS.len (Timers.captured tm)) (Timers.pending h) /\
  Forall (fun q => 2 <= JS.len q) log.

(** WeatherAppWithSuggestions has fetched no forecast and shows none. *)
Definition idle (w : WeatherAppWithSuggestions.world) : Prop :=
  WeatherAppWithSuggestions.forecast_log (WeatherAppWithSuggestions.env w) = []
  /\ WeatherAppWithSuggestions.forecasts (WeatherAppWithSuggestions.env w) = ∅
  /\ WeatherAppWithSuggestions.weather (WeatherAppWithSuggestions.ui w) = None
  /\ WeatherAppWithSuggestions.selectedLocation (WeatherAppWithSuggestions.ui w)
     = None
  /\ WeatherAppWithSuggestions.loading (WeatherAppWithSuggestions.ui w) = false
  /\ WeatherAppWithSuggestions.alerts (WeatherAppWithSuggestions.env w) = [].

End Inv.

(** ** More sample data *)

Module Samples2.

(** The position was asked for and is awaited. *)
Definition asking : WeatherPage.world :=
  WeatherPage.run [ (0%N, WeatherPage.UseMyLocation true) ]
                  WeatherPage.initial.

(** The position was granted and the reverse lookup is awaited. *)
Definition looking_up : WeatherPage.world :=
  WeatherPage.run
    [ (0%N, WeatherPage.UseMyLocation true);
      (900%N, WeatherPage.Position 0
                (Some (Num (JS.lit "48.8566"), Num (JS.lit "2.3522")))) ]
    WeatherPage.initial.

(** A click has reached the Paris suggestion and its forecast is awaited in
    WeatherAppWithSuggestions. *)
Definition paris_selected : WeatherAppWithSuggestions.world :=
  WeatherAppWithSuggestions.dispatch
    (WeatherAppWithSuggestions.Click Samples.paris) Samples.paris_listed.

(** In the draft: Berlin was selected and its snapshot is shown. *)
Definition draft_shown : App.world :=
  App.run
    [ (0%N, App.Select Samples.berlin);
      (120%N, App.ForecastResponse 0 (Http true (Some Samples.mild))) ]
    (App.initial (Some (JS.lit "pk.test"))).

(** In the draft: the position was asked for. *)
Definition draft_asking : App.world :=
  App.run [ (0%N, App.UseMyLocation true) ]
          (App.initial (Some (JS.lit "pk.test"))).

Definition draft_looking_up : App.world :=
  App.run
    [ (0%N, App.UseMyLocation true);
      (900%N, App.Position 0
                (App.Granted (Num (JS.lit "48.8566"))
                             (Num (JS.lit "2.3522")))) ]
    (App.initial (Some (JS.lit "pk.test"))).

(** A reverse-geocoding answer without an [address]. *)
Definition bare_place : WeatherPage.Place :=
  {| WeatherPage.place_name := JS.lit "Route 66, Arizona, United States";
     WeatherPage.address := None |}.

End Samples2.

(** * Properties *)

(** ** Literals *)

(** The literals above, as code units. *)
Example glyph_code_units :
  Glyph.sun = [9728; 65039]%N /\
  Glyph.sun_small_cloud = [55356; 57124; 65039]%N /\
  Glyph.sun_behind_cloud = [9925]%N /\
  Glyph.cloud = [9729; 65039]%N /\
  Glyph.fog = [55356; 57131; 65039]%N /\
  Glyph.fog_plain = [55356; 57131]%N /\
  Glyph.sun_rain = [55356; 57126; 65039]%N /\
  Glyph.sun_rain_plain = [55356; 57126]%N /\
  Glyph.rain = [55356; 57127; 65039]%N /\
  Glyph.rain_plain = [55356; 57127]%N /\
  Glyph.snowflake = [10052; 65039]%N /\
  Glyph.thunder = [9928; 65039]%N /\
  Glyph.thunder_plain = [9928]%N.
Proof. vm_compute. repeat split. Qed.

Example latin1_literal : JS.lit "Île" = [206; 108; 101]%N.
Proof. reflexivity. Qed.

(** ** Weather-code classifier *)

Lemma emoji_map_truthy (code : Z) (g : JS.str) :
  emoji_map !! code = Some g -> g <> [].
Proof.
  intros Hg. apply elem_of_list_to_map_2 in Hg.
  eapply (proj1 (Forall_forall (fun p : Z * JS.str => snd p <> []) _)) in Hg;
    [exact Hg |].
  repeat constructor; intros H; vm_compute in H; discriminate H.
Qed.

Lemma icon_map_truthy (code : Z) (g : JS.str) :
  icon_map !! code = Some g -> g <> [].
Proof.
  intros Hg. apply elem_of_list_to_map_2 in Hg.
  eapply (proj1 (Forall_forall (fun p : Z * JS.str => snd p <> []) _)) in Hg;
    [exact Hg |].
  repeat constructor; intros H; vm_compute in H; discriminate H.
Qed.

Lemma or_some (g d : JS.str) : g <> [] -> JS.or (Some g) d = g.
Proof. destruct g; [congruence | reflexivity]. Qed.

(** C8. The classifier is a total, deterministic function on the integers:
    for every code both versions return a non-empty glyph, equal codes give
    equal glyphs, a code of the table gets the table's glyph, and a code that
    is not a key of the table gets the default glyph. *)
Theorem classifier_total (code : Z) :
  (getWeatherEmoji code <> [] /\ getWeatherIcon code <> []) /\
  (forall code' : Z, code' = code ->
     getWeatherEmoji code' = getWeatherEmoji code /\
     getWeatherIcon code' = getWeatherIcon code) /\
  (forall g, emoji_map !! code = Some g -> getWeatherEmoji code = g) /\
  (forall g, icon_map !! code = Some g -> getWeatherIcon code = g) /\
  (emoji_map !! code = None -> getWeatherEmoji code = JS.lit "🌤️") /\
  (icon_map !! code = None -> getWeatherIcon code = JS.lit "🌤️").
Proof.
  unfold getWeatherEmoji, getWeatherIcon.
  repeat split.
  - destruct (emoji_map !! code) as [g|] eqn:E; [|discriminate].
    rewrite or_some; eauto using emoji_map_truthy.
  - destruct (icon_map !! code) as [g|] eqn:E; [|discriminate].
    rewrite or_some; eauto using icon_map_truthy.
  - congruence.
  - congruence.
  - intros g E. rewrite E. eauto using or_some, emoji_map_truthy.
  - intros g E. rewrite E. eauto using or_some, icon_map_truthy.
  - intros ->. reflexivity.
  - intros ->. reflexivity.
Qed.

(** ** Display-name formatting *)

(** C6, as stated, fails: a location without address fields is formatted to
    the empty string, not to its [display_name]. *)
Lemma formatDisplayName_no_address_counterexample :
  Spec.no_address_fields (WeatherAppWithSuggestions.address Samples.bare_paris)
  /\ WeatherAppWithSuggestions.formatDisplayName Samples.bare_paris = []
  /\ WeatherAppWithSuggestions.formatDisplayName Samples.bare_paris
     <> WeatherAppWithSuggestions.display_name Samples.bare_paris.
Proof.
  split; [repeat split |].
  split; [reflexivity |].
  intros H. vm_compute in H. discriminate H.
Qed.

(** C6, amended.  The formatted label is the first present field among city,
    town and village, then the state, then the country, each only when
    present, joined with ", "; a location with none of the five fields is
    formatted to the empty string; and the Paris suggestion of the
    specification is formatted to "Paris, Île-de-France, France". *)
Theorem formatDisplayName_label (loc : WeatherAppWithSuggestions.Location) :
  WeatherAppWithSuggestions.formatDisplayName loc
  = Spec.address_label (WeatherAppWithSuggestions.address loc)
  /\ (Spec.no_address_fields (WeatherAppWithSuggestions.address loc) ->
      WeatherAppWithSuggestions.formatDisplayName loc = [])
  /\ WeatherAppWithSuggestions.formatDisplayName Samples.paris
     = JS.lit "Paris, Île-de-France, France"
  /\ WeatherAppWithSuggestions.formatDisplayName Samples.paris
     = WeatherAppWithSuggestions.display_name Samples.paris.
Proof.
  destruct loc as [la lo dn [c t v s k]].
  unfold WeatherAppWithSuggestions.formatDisplayName, Spec.address_label,
    Spec.no_address_fields.
  cbn [WeatherAppWithSuggestions.address WeatherAppWithSuggestions.city
       WeatherAppWithSuggestions.town WeatherAppWithSuggestions.village
       WeatherAppWithSuggestions.state WeatherAppWithSuggestions.country].
  split; [| split; [| split; reflexivity]].
  - destruct c as [[|c0 c]|], t as [[|t0 t]|], v as [[|v0 v]|],
      s as [[|s0 s]|], k as [[|k0 k]|]; reflexivity.
  - intros (-> & -> & -> & -> & ->). reflexivity.
Qed.

(** ** Proof tools for the two components *)

Ltac open_page w :=
  destruct w as [[uq usg usd uld usr uwe usc uer ugl udr]
                 [htq hnc hss hsl hfs hfl hps hls]].

Ltac open_app w :=
  destruct w as [[uq usg usl uwe uld usd udr]
                 [htq hnc hss hsl hfs hfl hco hal]].

(** Projections and setters of the two worlds, and nothing else. *)
Ltac page_simpl :=
  cbn [WeatherPage.ui WeatherPage.env WeatherPage.query
       WeatherPage.suggestions WeatherPage.showDropdown WeatherPage.loading
       WeatherPage.searching WeatherPage.weather WeatherPage.selectedCity
       WeatherPage.error WeatherPage.geoLoading WeatherPage.debounceRef
       WeatherPage.timers WeatherPage.next_call WeatherPage.searches
       WeatherPage.search_log WeatherPage.forecasts WeatherPage.forecast_log
       WeatherPage.positions WeatherPage.lookups
       WeatherPage.setQuery WeatherPage.setSuggestions
       WeatherPage.setShowDropdown WeatherPage.setLoading
       WeatherPage.setSearching WeatherPage.setWeather
       WeatherPage.setSelectedCity WeatherPage.setError
       WeatherPage.setGeoLoading WeatherPage.setDebounceRef
       WeatherPage.withTimers WeatherPage.call_search WeatherPage.done_search
       WeatherPage.call_forecast WeatherPage.done_forecast
       WeatherPage.call_position WeatherPage.done_position
       WeatherPage.call_lookup WeatherPage.done_lookup
       WeatherPage.fc_lat WeatherPage.fc_lon WeatherPage.fc_cityName
       WeatherPage.input_value WeatherPage.search_spinner WeatherPage.dropdown
       WeatherPage.error_box WeatherPage.loading_spinner
       WeatherPage.weather_section WeatherPage.placeholder
       Timers.clock Timers.next_id Timers.pending
       Timers.tid Timers.deadline Timers.captured
       fst snd] in *.

Ltac app_simpl :=
  cbn [WeatherAppWithSuggestions.ui WeatherAppWithSuggestions.env
       WeatherAppWithSuggestions.query WeatherAppWithSuggestions.suggestions
       WeatherAppWithSuggestions.selectedLocation
       WeatherAppWithSuggestions.weather WeatherAppWithSuggestions.loading
       WeatherAppWithSuggestions.showSuggestions
       WeatherAppWithSuggestions.debounceTimer
       WeatherAppWithSuggestions.timers WeatherAppWithSuggestions.next_call
       WeatherAppWithSuggestions.searches WeatherAppWithSuggestions.search_log
       WeatherAppWithSuggestions.forecasts
       WeatherAppWithSuggestions.forecast_log
       WeatherAppWithSuggestions.console WeatherAppWithSuggestions.alerts
       WeatherAppWithSuggestions.setQuery
       WeatherAppWithSuggestions.setSuggestions
       WeatherAppWithSuggestions.setSelectedLocation
       WeatherAppWithSuggestions.setWeather
       WeatherAppWithSuggestions.setLoading
       WeatherAppWithSuggestions.setShowSuggestions
       WeatherAppWithSuggestions.setDebounceTimer
       WeatherAppWithSuggestions.withTimers
       WeatherAppWithSuggestions.call_search
       WeatherAppWithSuggestions.done_search
       WeatherAppWithSuggestions.call_forecast
       WeatherAppWithSuggestions.done_forecast
       WeatherAppWithSuggestions.console_error
       WeatherAppWithSuggestions.alert
       WeatherAppWithSuggestions.input_value
       WeatherAppWithSuggestions.dropdown
       WeatherAppWithSuggestions.loading_text
       WeatherAppWithSuggestions.weather_section
       Timers.clock Timers.next_id Timers.pending
       Timers.tid Timers.deadline Timers.captured
       fst snd] in *.

(** The effect does not run when the handler left the query alone. *)
Ltac same_query :=
  match goal with
  | |- context [decide (?a = ?a)] =>
      destruct (decide (a = a)) as [_ | Hne]; [| exfalso; apply Hne; reflexivity]
  end.

(** ** The render guard of the weather section *)

(** C9. While the loading flag is set the weather section is not rendered,
    whatever snapshot the state holds, and the spinner is: the two are never
    on screen together. *)
Theorem loading_hides_weather (s : WeatherPage.ui_state) :
  WeatherPage.loading s = true ->
  WeatherPage.weather_section (WeatherPage.render s) = None /\
  WeatherPage.loading_spinner (WeatherPage.render s) = true.
Proof.
  intros H. destruct s as [q sg sd ld sr [data|] sc er gl dr];
    cbn in H |- *; subst; split; reflexivity.
Qed.

Lemma loading_hides_weather_witness :
  WeatherPage.weather Samples.held_loading = Some Samples.mild /\
  WeatherPage.loading Samples.held_loading = true /\
  WeatherPage.weather_section (WeatherPage.render Samples.held_loading)
    = None /\
  WeatherPage.loading_spinner (WeatherPage.render Samples.held_loading)
    = true.
Proof.
  split; [vm_compute; reflexivity |].
  split; [vm_compute; reflexivity |].
  refine (loading_hides_weather Samples.held_loading _).
  vm_compute; reflexivity.
Defined.

(** ** Failure of a forecast fetch *)

(** The two geocoding wrappers reject exactly on a transport error, a
    non-success status or a body that does not parse. *)
Lemma settle_rejected {A : Type} (r : response A) :
  WeatherPage.settle r = Rejected <->
  r = NetworkError \/ (exists body, r = Http false body) \/ r = Http true None.
Proof.
  destruct r as [| [|] [v|]]; cbn; split; intros H;
    try discriminate; try reflexivity; eauto.
  - destruct H as [H | [[b H] | H]]; discriminate.
Qed.

(** C2. When a forecast fetch fails, the error message is set, the loading
    flag is cleared, and the snapshot and its label are exactly what they
    were: the page shows the whole earlier snapshot under its own heading
    when there was one, and no weather section otherwise. *)
Theorem forecast_failure (w : WeatherPage.world) (id : nat)
    (c : WeatherPage.forecast_call) (r : response WeatherPage.WeatherData) :
  WeatherPage.forecasts (WeatherPage.env w) !! id = Some c ->
  WeatherPage.getWeather r = Rejected ->
  let s := WeatherPage.ui w in
  let s' := WeatherPage.ui (WeatherPage.dispatch
                              (WeatherPage.ForecastResponse id r) w) in
  WeatherPage.error s' = JS.lit "Failed to load weather data" /\
  WeatherPage.error_box (WeatherPage.render s')
    = Some (JS.lit "Failed to load weather data") /\
  WeatherPage.loading s' = false /\
  WeatherPage.loading_spinner (WeatherPage.render s') = false /\
  WeatherPage.weather s' = WeatherPage.weather s /\
  WeatherPage.selectedCity s' = WeatherPage.selectedCity s /\
  WeatherPage.weather_section (WeatherPage.render s')
    = match WeatherPage.weather s with
      | Some data =>
          Some {| WeatherPage.heading := WeatherPage.selectedCity s;
                  WeatherPage.glyph :=
                    getWeatherEmoji
                      (WeatherPage.weather_code (WeatherPage.current data));
                  WeatherPage.snapshot := data |}
      | None => None
      end.
Proof.
  intros Hc Hr. open_page w.
  unfold WeatherPage.dispatch, WeatherPage.handle.
  page_simpl. rewrite Hc.
  unfold WeatherPage.forecast_settled. rewrite Hr.
  page_simpl. same_query. unfold WeatherPage.render. page_simpl.
  repeat split; destruct uwe; reflexivity.
Qed.

Lemma forecast_failure_witness :
  WeatherPage.loading
    (WeatherPage.ui (WeatherPage.dispatch
                       (WeatherPage.ForecastResponse 2 NetworkError)
                       Samples.refetching)) = false.
Proof.
  refine (proj1 (proj2 (proj2
            (forecast_failure Samples.refetching 2
               {| WeatherPage.fc_lat := JS.lit "51.5074";
                  WeatherPage.fc_lon := JS.lit "-0.1278";
                  WeatherPage.fc_cityName :=
                    JS.lit "London, England, United Kingdom" |}
               NetworkError _ _))));
    vm_compute; reflexivity.
Defined.

(** ** Failure of a suggestion search *)

(** C3, as stated, fails in WeatherAppWithSuggestions: the search for "Pari"
    fails and the suggestions found for "Par" stay on screen. *)
Lemma search_failure_stale_counterexample :
  let w := Samples.paris_listed in
  let w' := WeatherAppWithSuggestions.dispatch
              (WeatherAppWithSuggestions.SearchResponse 1 NetworkError) w in
  WeatherAppWithSuggestions.searches (WeatherAppWithSuggestions.env w) !! 1
    = Some (JS.lit "Pari") /\
  WeatherAppWithSuggestions.suggestions (WeatherAppWithSuggestions.ui w')
    = [Samples.paris] /\
  WeatherAppWithSuggestions.dropdown
    (WeatherAppWithSuggestions.render (WeatherAppWithSuggestions.ui w'))
    = Some [ {| WeatherAppWithSuggestions.entry_title :=
                  JS.lit "Paris, Île-de-France, France";
                WeatherAppWithSuggestions.entry_loc := Samples.paris |} ].
Proof. vm_compute. repeat split. Qed.

(** C3, amended.  In WeatherPage a search that fails (transport error,
    non-success status, body that does not parse) sets the error message,
    empties the suggestion list and leaves the query, the snapshot, its label
    and the weather section as they were.  In WeatherAppWithSuggestions a
    search that fails (transport error, body that does not parse) only writes
    to the console: the component state, suggestions included, is unchanged. *)
Theorem search_failure :
  (forall (w : WeatherPage.world) (id : nat) (q : JS.str)
          (r : response (list WeatherPage.LocationSuggestion)),
     WeatherPage.searches (WeatherPage.env w) !! id = Some q ->
     WeatherPage.searchLocations r = Rejected ->
     let s := WeatherPage.ui w in
     let s' := WeatherPage.ui (WeatherPage.dispatch
                                 (WeatherPage.SearchResponse id r) w) in
     WeatherPage.error s' = JS.lit "Location search failed" /\
     WeatherPage.error_box (WeatherPage.render s')
       = Some (JS.lit "Location search failed") /\
     WeatherPage.suggestions s' = [] /\
     WeatherPage.dropdown (WeatherPage.render s') = None /\
     WeatherPage.query s' = WeatherPage.query s /\
     WeatherPage.weather s' = WeatherPage.weather s /\
     WeatherPage.selectedCity s' = WeatherPage.selectedCity s /\
     WeatherPage.weather_section (WeatherPage.render s')
       = WeatherPage.weather_section (WeatherPage.render s))
  /\
  (forall (w : WeatherAppWithSuggestions.world) (id : nat) (q : JS.str)
          (r : response (list WeatherAppWithSuggestions.Location)),
     WeatherAppWithSuggestions.searches (WeatherAppWithSuggestions.env w) !! id
       = Some q ->
     r = NetworkError \/ (exists ok, r = Http ok None) ->
     let w' := WeatherAppWithSuggestions.dispatch
                 (WeatherAppWithSuggestions.SearchResponse id r) w in
     WeatherAppWithSuggestions.ui w' = WeatherAppWithSuggestions.ui w /\
     WeatherAppWithSuggestions.console (WeatherAppWithSuggestions.env w')
       = WeatherAppWithSuggestions.console (WeatherAppWithSuggestions.env w)
         ++ [JS.lit "Autocomplete failed"]).
Proof.
  split.
  - intros w id q r Hq Hr. open_page w.
    unfold WeatherPage.dispatch, WeatherPage.handle.
    page_simpl. rewrite Hq.
    unfold WeatherPage.search_settled. rewrite Hr.
    page_simpl. same_query. unfold WeatherPage.render. page_simpl.
    repeat split; try reflexivity.
    destruct usd; reflexivity.
  - intros w id q r Hq Hr. open_app w.
    unfold WeatherAppWithSuggestions.dispatch, WeatherAppWithSuggestions.handle.
    app_simpl. rewrite Hq.
    unfold WeatherAppWithSuggestions.search_settled.
    destruct Hr as [-> | [ok ->]]; app_simpl; same_query; split; reflexivity.
Qed.

Lemma search_failure_witness :
  WeatherPage.suggestions
    (WeatherPage.ui (WeatherPage.dispatch
                       (WeatherPage.SearchResponse 1 (Http false None))
                       Samples.berlin_listed)) = [] /\
  WeatherAppWithSuggestions.ui
    (WeatherAppWithSuggestions.dispatch
       (WeatherAppWithSuggestions.SearchResponse 1 NetworkError)
       Samples.paris_listed)
  = WeatherAppWithSuggestions.ui Samples.paris_listed.
Proof.
  split.
  - refine (proj1 (proj2 (proj2
              (proj1 search_failure Samples.berlin_listed 1 (JS.lit "Berl")
                 (Http false None) _ _))));
      vm_compute; reflexivity.
  - refine (proj1 (proj2 search_failure Samples.paris_listed 1
                     (JS.lit "Pari") NetworkError _ (or_introl eq_refl)));
      vm_compute; reflexivity.
Defined.

(** ** What the search effect leaves alone *)

Lemma page_effect_frame (w : WeatherPage.world) :
  let w' := WeatherPage.search_effect w in
  WeatherPage.query (WeatherPage.ui w') = WeatherPage.query (WeatherPage.ui w)
  /\ WeatherPage.loading (WeatherPage.ui w')
     = WeatherPage.loading (WeatherPage.ui w)
  /\ WeatherPage.geoLoading (WeatherPage.ui w')
     = WeatherPage.geoLoading (WeatherPage.ui w)
  /\ WeatherPage.forecast_log (WeatherPage.env w')
     = WeatherPage.forecast_log (WeatherPage.env w)
  /\ WeatherPage.search_log (WeatherPage.env w')
     = WeatherPage.search_log (WeatherPage.env w)
  /\ WeatherPage.searches (WeatherPage.env w')
     = WeatherPage.searches (WeatherPage.env w).
Proof.
  open_page w. unfold WeatherPage.search_effect. page_simpl.
  destruct (JS.len uq <? 2); [| destruct udr];
    page_simpl; repeat split; reflexivity.
Qed.

Lemma app_effect_frame (w : WeatherAppWithSuggestions.world) :
  let w' := WeatherAppWithSuggestions.search_effect w in
  WeatherAppWithSuggestions.query (WeatherAppWithSuggestions.ui w')
  = WeatherAppWithSuggestions.query (WeatherAppWithSuggestions.ui w)
  /\ WeatherAppWithSuggestions.search_log (WeatherAppWithSuggestions.env w')
     = WeatherAppWithSuggestions.search_log (WeatherAppWithSuggestions.env w)
  /\ WeatherAppWithSuggestions.searches (WeatherAppWithSuggestions.env w')
     = WeatherAppWithSuggestions.searches (WeatherAppWithSuggestions.env w)
  /\ WeatherAppWithSuggestions.forecasts (WeatherAppWithSuggestions.env w')
     = WeatherAppWithSuggestions.forecasts (WeatherAppWithSuggestions.env w).
Proof.
  open_app w. unfold WeatherAppWithSuggestions.search_effect. app_simpl.
  destruct (JS.len uq <? 2); [| destruct udr];
    app_simpl; repeat split; reflexivity.
Qed.

(** ** The current-position path *)

(** C7, as stated, fails twice.  A place without city, town or village is
    named by the placeholder, not by the first segment of its label; and the
    forecast is fetched under the full label of the place, not under the name
    chosen for it. *)
Lemma current_position_counterexample :
  WeatherPage.place_label Samples.road_place = JS.lit "Your Location" /\
  JS.at0 (JS.split JS.comma (WeatherPage.place_name Samples.road_place))
    = JS.lit "Route 66" /\
  let w := WeatherPage.run
             [ (0%N, WeatherPage.UseMyLocation true);
               (900%N, WeatherPage.Position 0
                         (Some (Num (JS.lit "48.8566"),
                                Num (JS.lit "2.3522"))));
               (1300%N, WeatherPage.LookupResponse 1
                          (Http true (Some Samples.paris_place))) ]
             WeatherPage.initial in
  WeatherPage.place_label Samples.paris_place = JS.lit "Paris" /\
  WeatherPage.forecast_log (WeatherPage.env w)
    = [ {| WeatherPage.fc_lat := JS.lit "48.8566";
           WeatherPage.fc_lon := JS.lit "2.3522";
           WeatherPage.fc_cityName := JS.lit "Paris, Île-de-France, France" |} ].
Proof. vm_compute. repeat split. Qed.

(** C7, amended.  Once the position is granted the reverse lookup is issued
    for the coordinate pair; when it answers, the name put into the query is
    the city, else the town, else the village of the answer, else the
    placeholder "Your Location"; and the forecast is fetched for the
    coordinate pair under the full [display_name] of the answer. *)
Theorem current_position_path (w : WeatherPage.world) (id : nat)
    (latitude longitude : number) (r : response WeatherPage.Place)
    (data : WeatherPage.Place) :
  id ∈ WeatherPage.positions (WeatherPage.env w) ->
  WeatherPage.reverseGeocode r = Resolved data ->
  let call := WeatherPage.next_call (WeatherPage.env w) in
  let w1 := WeatherPage.dispatch
              (WeatherPage.Position id (Some (latitude, longitude))) w in
  let w2 := WeatherPage.dispatch (WeatherPage.LookupResponse call r) w1 in
  let fields := [ WeatherPage.address data ≫= WeatherPage.city;
                  WeatherPage.address data ≫= WeatherPage.town;
                  WeatherPage.address data ≫= WeatherPage.village ] in
  WeatherPage.lookups (WeatherPage.env w1) !! call
    = Some (latitude, longitude) /\
  WeatherPage.place_label data
    = JS.or (head (Spec.first_present fields)) (JS.lit "Your Location") /\
  WeatherPage.query (WeatherPage.ui w2) = WeatherPage.place_label data /\
  WeatherPage.forecast_log (WeatherPage.env w2)
    = WeatherPage.forecast_log (WeatherPage.env w)
      ++ [ {| WeatherPage.fc_lat := toString latitude;
              WeatherPage.fc_lon := toString longitude;
              WeatherPage.fc_cityName := WeatherPage.place_name data |} ] /\
  WeatherPage.geoLoading (WeatherPage.ui w2) = false.
Proof.
  intros Hid Hr call w1 w2 fields. subst call w2 fields.
  assert (E1 : w1 = WeatherPage.call_lookup latitude longitude
                      (WeatherPage.done_position id w)).
  { subst w1. open_page w.
    unfold WeatherPage.dispatch, WeatherPage.handle.
    page_simpl. rewrite (decide_True _ _ Hid).
    unfold WeatherPage.position_granted. page_simpl. same_query.
    reflexivity. }
  rewrite E1. clear E1 w1. open_page w. page_simpl.
  split; [apply lookup_insert_eq |].
  split.
  { unfold WeatherPage.place_label.
    destruct data as [dn [[c t v]|]]; [| reflexivity].
    destruct c as [[|c0 c]|], t as [[|t0 t]|], v as [[|v0 v]|]; reflexivity. }
  unfold WeatherPage.dispatch, WeatherPage.handle. page_simpl.
  rewrite lookup_insert_eq.
  unfold WeatherPage.lookup_settled. rewrite Hr.
  unfold WeatherPage.fetchWeatherData. page_simpl.
  match goal with
  | |- context [WeatherPage.search_effect ?x] =>
      destruct (page_effect_frame x) as (Eq & _ & Eg & Ef & _);
      page_simpl
  end.
  destruct (decide _); [page_simpl; repeat split; reflexivity |].
  rewrite Eq, Eg, Ef. repeat split; reflexivity.
Qed.

Lemma current_position_path_witness :
  let w := WeatherPage.run [ (0%N, WeatherPage.UseMyLocation true) ]
                           WeatherPage.initial in
  WeatherPage.query
    (WeatherPage.ui
       (WeatherPage.dispatch
          (WeatherPage.LookupResponse
             (WeatherPage.next_call (WeatherPage.env w))
             (Http true (Some Samples.road_place)))
          (WeatherPage.dispatch
             (WeatherPage.Position 0
                (Some (Num (JS.lit "35.2"), Num (JS.lit "-112.1")))) w)))
  = WeatherPage.place_label Samples.road_place.
Proof.
  intros w.
  refine (proj1 (proj2 (proj2
            (current_position_path w 0 (Num (JS.lit "35.2"))
               (Num (JS.lit "-112.1"))
               (Http true (Some Samples.road_place)) Samples.road_place
               _ _)))).
  - vm_compute. set_solver.
  - reflexivity.
Defined.

(** ** Selection and the query text *)

(** Element 0 of [label.split(',')] is the first comma-delimited segment. *)
Lemma split_first_segment (label : JS.str) :
  Spec.first_segment (JS.at0 (JS.split JS.comma label)) label.
Proof.
  unfold Spec.first_segment, JS.at0.
  induction label as [| x r [Hno Hseg]]; cbn [JS.split].
  - split; [intros [] | left; reflexivity].
  - destruct (JS.split JS.comma r) as [seg segs]. cbn [fst] in *.
    destruct (N.eqb_spec x JS.comma) as [-> | Hx]; cbn [fst].
    + split; [intros [] | right; exists r; reflexivity].
    + split.
      * intros [E | Hin]; [congruence | exact (Hno Hin)].
      * destruct Hseg as [-> | [rest ->]];
          [left; reflexivity | right; exists rest; reflexivity].
Qed.

(** C10, as stated, fails in WeatherAppWithSuggestions.  "Pari" is typed and
    the Paris suggestion is listed.  The pointer selects it: the list is
    hidden at the mousedown, no forecast is fetched, and the input still
    reads "Pari".  And when a click does reach the suggestion and the fetch
    it starts fails, the input still reads "Pari" as well. *)
Lemma selection_keeps_typed_text_counterexample :
  let w := Samples.paris_listed in
  let w1 := WeatherAppWithSuggestions.dispatch
              (WeatherAppWithSuggestions.Select Samples.paris) w in
  let w2 := WeatherAppWithSuggestions.dispatch
              (WeatherAppWithSuggestions.ForecastResponse 2 NetworkError)
              (WeatherAppWithSuggestions.dispatch
                 (WeatherAppWithSuggestions.Click Samples.paris) w) in
  WeatherAppWithSuggestions.query (WeatherAppWithSuggestions.ui w)
    = JS.lit "Pari" /\
  WeatherAppWithSuggestions.listed Samples.paris
    (WeatherAppWithSuggestions.ui w) = true /\
  WeatherAppWithSuggestions.forecast_log (WeatherAppWithSuggestions.env w1)
    = [] /\
  WeatherAppWithSuggestions.dropdown
    (WeatherAppWithSuggestions.render (WeatherAppWithSuggestions.ui w1))
    = None /\
  WeatherAppWithSuggestions.input_value
    (WeatherAppWithSuggestions.render (WeatherAppWithSuggestions.ui w1))
    = JS.lit "Pari" /\
  WeatherAppWithSuggestions.forecast_log (WeatherAppWithSuggestions.env w2)
    = [Samples.paris] /\
  WeatherAppWithSuggestions.input_value
    (WeatherAppWithSuggestions.render (WeatherAppWithSuggestions.ui w2))
    = JS.lit "Pari".
Proof. vm_compute. repeat split. Qed.

(** C10, amended.  In WeatherPage every selection at once overwrites the
    query with the first comma-delimited segment of the suggestion's
    [display_name].  In WeatherAppWithSuggestions the click handler of a
    listed suggestion leaves the query alone and starts the forecast fetch;
    the query is overwritten with the formatted address label when that
    fetch answers with a body that parses and that the page can render, and
    keeps its text when the fetch fails. *)
Theorem selection_overwrites_query :
  (forall (w : WeatherPage.world) (loc : WeatherPage.LocationSuggestion),
     let w' := WeatherPage.dispatch (WeatherPage.Select loc) w in
     WeatherPage.query (WeatherPage.ui w')
       = JS.at0 (JS.split JS.comma (WeatherPage.display_name loc)) /\
     Spec.first_segment (WeatherPage.query (WeatherPage.ui w'))
                        (WeatherPage.display_name loc))
  /\
  (forall (w : WeatherAppWithSuggestions.world)
          (loc : WeatherAppWithSuggestions.Location),
     WeatherAppWithSuggestions.listed loc (WeatherAppWithSuggestions.ui w)
       = true ->
     let w' := WeatherAppWithSuggestions.dispatch
                 (WeatherAppWithSuggestions.Click loc) w in
     WeatherAppWithSuggestions.query (WeatherAppWithSuggestions.ui w')
       = WeatherAppWithSuggestions.query (WeatherAppWithSuggestions.ui w) /\
     WeatherAppWithSuggestions.forecasts (WeatherAppWithSuggestions.env w')
       !! WeatherAppWithSuggestions.next_call (WeatherAppWithSuggestions.env w)
       = Some loc)
  /\
  (forall (w : WeatherAppWithSuggestions.world) (id : nat)
          (loc : WeatherAppWithSuggestions.Location),
     WeatherAppWithSuggestions.forecasts (WeatherAppWithSuggestions.env w) !! id
       = Some loc ->
     (forall r : response WeatherAppWithSuggestions.WeatherData,
        let w' := WeatherAppWithSuggestions.dispatch
                    (WeatherAppWithSuggestions.ForecastResponse id r) w in
        WeatherAppWithSuggestions.query (WeatherAppWithSuggestions.ui w')
          = match r with
            | Http _ (Some _) => WeatherAppWithSuggestions.formatDisplayName loc
            | Http _ None | NetworkError =>
                WeatherAppWithSuggestions.query (WeatherAppWithSuggestions.ui w)
            end) /\
     WeatherAppWithSuggestions.query
       (WeatherAppWithSuggestions.ui
          (WeatherAppWithSuggestions.dispatch
             (WeatherAppWithSuggestions.ForecastNull id) w))
       = WeatherAppWithSuggestions.formatDisplayName loc).
Proof.
  split; [| split].
  - intros w loc w'.
    assert (E : WeatherPage.query (WeatherPage.ui w')
                = JS.at0 (JS.split JS.comma (WeatherPage.display_name loc))).
    { subst w'. open_page w.
      unfold WeatherPage.dispatch, WeatherPage.handle, WeatherPage.handleSelect,
        WeatherPage.fetchWeatherData.
      page_simpl.
      match goal with
      | |- context [WeatherPage.search_effect ?x] =>
          destruct (page_effect_frame x) as (Eq & _); page_simpl
      end.
      destruct (decide _); [reflexivity | exact Eq]. }
    split; [exact E |]. rewrite E. apply split_first_segment.
  - intros w loc Hl w'. subst w'.
    unfold WeatherAppWithSuggestions.dispatch, WeatherAppWithSuggestions.handle.
    rewrite Hl. open_app w.
    unfold WeatherAppWithSuggestions.fetchWeather.
    app_simpl. same_query. app_simpl.
    split; [reflexivity | apply lookup_insert_eq].
  - intros w id loc Hloc. split.
    + intros r w'. subst w'. open_app w.
      unfold WeatherAppWithSuggestions.dispatch,
        WeatherAppWithSuggestions.handle.
      app_simpl. rewrite Hloc.
      unfold WeatherAppWithSuggestions.forecast_settled.
      destruct r as [| ok [data|]]; app_simpl.
      * same_query. reflexivity.
      * match goal with
        | |- context [WeatherAppWithSuggestions.search_effect ?x] =>
            destruct (app_effect_frame x) as (Eq & _); app_simpl
        end.
        destruct (decide _); [reflexivity | exact Eq].
      * same_query. reflexivity.
    + open_app w.
      unfold WeatherAppWithSuggestions.dispatch,
        WeatherAppWithSuggestions.handle.
      app_simpl. rewrite Hloc.
      unfold WeatherAppWithSuggestions.forecast_settled_null. app_simpl.
      match goal with
      | |- context [WeatherAppWithSuggestions.search_effect ?x] =>
          destruct (app_effect_frame x) as (Eq & _); app_simpl
      end.
      destruct (decide _); [reflexivity | exact Eq].
Qed.

Lemma selection_overwrites_query_witness :
  WeatherAppWithSuggestions.query
    (WeatherAppWithSuggestions.ui
       (WeatherAppWithSuggestions.dispatch
          (WeatherAppWithSuggestions.Click Samples.paris)
          Samples.paris_listed))
  = JS.lit "Pari" /\
  WeatherAppWithSuggestions.query
    (WeatherAppWithSuggestions.ui
       (WeatherAppWithSuggestions.dispatch
          (WeatherAppWithSuggestions.ForecastResponse 2
             (Http true
                (Some {| WeatherAppWithSuggestions.current :=
                           {| WeatherAppWithSuggestions.temperature_2m :=
                                Num (JS.lit "18.3");
                              WeatherAppWithSuggestions.apparent_temperature :=
                                Num (JS.lit "17.9");
                              WeatherAppWithSuggestions.relative_humidity_2m :=
                                Num (JS.lit "60");
                              WeatherAppWithSuggestions.weather_code := 2;
                              WeatherAppWithSuggestions.wind_speed_10m :=
                                Num (JS.lit "12.4") |};
                         WeatherAppWithSuggestions.daily :=
                           {| WeatherAppWithSuggestions.time := [];
                              WeatherAppWithSuggestions.temperature_2m_max := [];
                              WeatherAppWithSuggestions.temperature_2m_min := [];
                              WeatherAppWithSuggestions.daily_weather_code := [];
                              WeatherAppWithSuggestions.precipitation_probability_max
                                := [] |} |})))
          (WeatherAppWithSuggestions.dispatch
             (WeatherAppWithSuggestions.Click Samples.paris)
             Samples.paris_listed)))
  = WeatherAppWithSuggestions.formatDisplayName Samples.paris.
Proof.
  split.
  - refine (proj1 (proj1 (proj2 selection_overwrites_query)
                     Samples.paris_listed Samples.paris _)).
    vm_compute. reflexivity.
  - refine (proj1 (proj2 (proj2 selection_overwrites_query) _ 2
                     Samples.paris _) _).
    vm_compute. reflexivity.
Defined.

(** ** Responses out of order *)

(** A search that answers with a list: the list is shown, whichever search
    it was. *)
Lemma page_search_answer (w : WeatherPage.world) (id : nat) (q : JS.str)
    (results : list WeatherPage.LocationSuggestion) :
  WeatherPage.searches (WeatherPage.env w) !! id = Some q ->
  WeatherPage.dispatch
    (WeatherPage.SearchResponse id (Http true (Some results))) w
  = WeatherPage.setSearching false
      (WeatherPage.setShowDropdown true
         (WeatherPage.setSuggestions results (WeatherPage.done_search id w))).
Proof.
  intros Hq. open_page w.
  unfold WeatherPage.dispatch, WeatherPage.handle. page_simpl. rewrite Hq.
  unfold WeatherPage.search_settled, WeatherPage.searchLocations,
    WeatherPage.settle.
  page_simpl. same_query. reflexivity.
Qed.

Lemma app_search_answer (w : WeatherAppWithSuggestions.world) (id : nat)
    (q : JS.str) (ok : bool)
    (results : list WeatherAppWithSuggestions.Location) :
  WeatherAppWithSuggestions.searches (WeatherAppWithSuggestions.env w) !! id
    = Some q ->
  WeatherAppWithSuggestions.dispatch
    (WeatherAppWithSuggestions.SearchResponse id (Http ok (Some results))) w
  = WeatherAppWithSuggestions.setShowSuggestions true
      (WeatherAppWithSuggestions.setSuggestions results
         (WeatherAppWithSuggestions.done_search id w)).
Proof.
  intros Hq. open_app w.
  unfold WeatherAppWithSuggestions.dispatch, WeatherAppWithSuggestions.handle.
  app_simpl. rewrite Hq.
  unfold WeatherAppWithSuggestions.search_settled.
  app_simpl. same_query. reflexivity.
Qed.

(** C1, as stated, fails: the search for "Lon" is issued before the one for
    "London" and answers after it, and the list shown is the one for "Lon". *)
Lemma stale_response_counterexample :
  let w := Samples.two_searches in
  let w' := WeatherPage.run
              [ (760%N, WeatherPage.SearchResponse 1
                          (Http true (Some [Samples.london])));
                (900%N, WeatherPage.SearchResponse 0
                          (Http true (Some [Samples.long_eaton]))) ] w in
  WeatherPage.search_log (WeatherPage.env w)
    = [JS.lit "Lon"; JS.lit "London"] /\
  WeatherPage.searches (WeatherPage.env w) !! 0 = Some (JS.lit "Lon") /\
  WeatherPage.searches (WeatherPage.env w) !! 1 = Some (JS.lit "London") /\
  WeatherPage.query (WeatherPage.ui w') = JS.lit "London" /\
  WeatherPage.suggestions (WeatherPage.ui w') = [Samples.long_eaton] /\
  WeatherPage.dropdown (WeatherPage.render (WeatherPage.ui w'))
    = Some [ {| WeatherPage.entry_title := JS.lit "Long Eaton";
                WeatherPage.entry_subtitle := JS.lit " England, United Kingdom";
                WeatherPage.entry_loc := Samples.long_eaton |} ].
Proof. vm_compute. repeat split. Qed.

(** C1, amended.  Of two searches awaited at once, the one that answers last
    decides the list shown, in either component: the later search's list when
    the answers come in the order of issue, the earlier search's list when it
    answers after the later one.  No answer is dropped. *)
Theorem last_response_wins :
  (forall (w : WeatherPage.world) (id1 id2 : nat) (q1 q2 : JS.str)
          (l1 l2 : list WeatherPage.LocationSuggestion),
     WeatherPage.searches (WeatherPage.env w) !! id1 = Some q1 ->
     WeatherPage.searches (WeatherPage.env w) !! id2 = Some q2 ->
     id1 < id2 ->
     let answer id l := WeatherPage.dispatch
                          (WeatherPage.SearchResponse id (Http true (Some l))) in
     let in_order := WeatherPage.ui (answer id2 l2 (answer id1 l1 w)) in
     let reversed := WeatherPage.ui (answer id1 l1 (answer id2 l2 w)) in
     (WeatherPage.suggestions in_order = l2 /\
      WeatherPage.showDropdown in_order = true) /\
     (WeatherPage.suggestions reversed = l1 /\
      WeatherPage.showDropdown reversed = true))
  /\
  (forall (w : WeatherAppWithSuggestions.world) (id1 id2 : nat)
          (q1 q2 : JS.str)
          (l1 l2 : list WeatherAppWithSuggestions.Location),
     WeatherAppWithSuggestions.searches (WeatherAppWithSuggestions.env w) !! id1
       = Some q1 ->
     WeatherAppWithSuggestions.searches (WeatherAppWithSuggestions.env w) !! id2
       = Some q2 ->
     id1 < id2 ->
     let answer id l := WeatherAppWithSuggestions.dispatch
                          (WeatherAppWithSuggestions.SearchResponse id
                             (Http true (Some l))) in
     let in_order :=
       WeatherAppWithSuggestions.ui (answer id2 l2 (answer id1 l1 w)) in
     let reversed :=
       WeatherAppWithSuggestions.ui (answer id1 l1 (answer id2 l2 w)) in
     (WeatherAppWithSuggestions.suggestions in_order = l2 /\
      WeatherAppWithSuggestions.showSuggestions in_order = true) /\
     (WeatherAppWithSuggestions.suggestions reversed = l1 /\
      WeatherAppWithSuggestions.showSuggestions reversed = true)).
Proof.
  split.
  - intros w id1 id2 q1 q2 l1 l2 H1 H2 Hlt answer in_order reversed.
    subst in_order reversed answer. cbv beta.
    rewrite (page_search_answer w id1 q1 l1 H1).
    rewrite (page_search_answer w id2 q2 l2 H2).
    rewrite (page_search_answer _ id2 q2 l2),
            (page_search_answer _ id1 q1 l1).
    + open_page w. page_simpl. repeat split; reflexivity.
    + open_page w. page_simpl. rewrite lookup_delete_ne by lia. exact H1.
    + open_page w. page_simpl. rewrite lookup_delete_ne by lia. exact H2.
  - intros w id1 id2 q1 q2 l1 l2 H1 H2 Hlt answer in_order reversed.
    subst in_order reversed answer. cbv beta.
    rewrite (app_search_answer w id1 q1 true l1 H1).
    rewrite (app_search_answer w id2 q2 true l2 H2).
    rewrite (app_search_answer _ id2 q2 true l2),
            (app_search_answer _ id1 q1 true l1).
    + open_app w. app_simpl. repeat split; reflexivity.
    + open_app w. app_simpl. rewrite lookup_delete_ne by lia. exact H1.
    + open_app w. app_simpl. rewrite lookup_delete_ne by lia. exact H2.
Qed.

Lemma last_response_wins_witness :
  WeatherPage.suggestions
    (WeatherPage.ui
       (WeatherPage.dispatch
          (WeatherPage.SearchResponse 0 (Http true (Some [Samples.long_eaton])))
          (WeatherPage.dispatch
             (WeatherPage.SearchResponse 1 (Http true (Some [Samples.london])))
             Samples.two_searches)))
  = [Samples.long_eaton]
  /\
  WeatherAppWithSuggestions.suggestions
    (WeatherAppWithSuggestions.ui
       (WeatherAppWithSuggestions.dispatch
          (WeatherAppWithSuggestions.SearchResponse 0 (Http true (Some [])))
          (WeatherAppWithSuggestions.dispatch
             (WeatherAppWithSuggestions.SearchResponse 1
                (Http true (Some [Samples.paris])))
             Samples.two_fetches)))
  = [].
Proof.
  split.
  - refine (proj1 (proj2
              (proj1 last_response_wins Samples.two_searches 0 1
                 (JS.lit "Lon") (JS.lit "London")
                 [Samples.long_eaton] [Samples.london] _ _ _)));
      [vm_compute; reflexivity | vm_compute; reflexivity | lia].
  - refine (proj1 (proj2
              (proj2 last_response_wins Samples.two_fetches 0 1
                 (JS.lit "Par") (JS.lit "Paris")
                 [] [Samples.paris] _ _ _)));
      [vm_compute; reflexivity | vm_compute; reflexivity | lia].
Defined.

(** ** Time passing *)

(** Running expired callbacks only issues searches; in
    WeatherAppWithSuggestions, only for the texts that are well formed. *)
Lemma page_callbacks (due : list Timers.timer) (w : WeatherPage.world) :
  let w' := fold_left
              (fun w tm => WeatherPage.search_callback (Timers.captured tm) w)
              due w in
  WeatherPage.query (WeatherPage.ui w') = WeatherPage.query (WeatherPage.ui w)
  /\ WeatherPage.suggestions (WeatherPage.ui w')
     = WeatherPage.suggestions (WeatherPage.ui w)
  /\ WeatherPage.debounceRef (WeatherPage.ui w')
     = WeatherPage.debounceRef (WeatherPage.ui w)
  /\ WeatherPage.timers (WeatherPage.env w')
     = WeatherPage.timers (WeatherPage.env w)
  /\ WeatherPage.search_log (WeatherPage.env w')
     = WeatherPage.search_log (WeatherPage.env w)
       ++ map Timers.captured due.
Proof.
  revert w. induction due as [| tm due IH]; intros w; cbn [fold_left map].
  - rewrite app_nil_r. repeat split; reflexivity.
  - destruct (IH (WeatherPage.search_callback (Timers.captured tm) w))
      as (Eq & Es & Er & Et & El).
    cbv zeta. rewrite Eq, Es, Er, Et, El.
    open_page w. unfold WeatherPage.search_callback. page_simpl.
    rewrite <- app_assoc. repeat split; reflexivity.
Qed.

Lemma app_callbacks (due : list Timers.timer)
    (w : WeatherAppWithSuggestions.world) :
  let w' := fold_left
              (fun w tm =>
                 WeatherAppWithSuggestions.search_callback
                   (Timers.captured tm) w)
              due w in
  WeatherAppWithSuggestions.query (WeatherAppWithSuggestions.ui w')
  = WeatherAppWithSuggestions.query (WeatherAppWithSuggestions.ui w)
  /\ WeatherAppWithSuggestions.suggestions (WeatherAppWithSuggestions.ui w')
     = WeatherAppWithSuggestions.suggestions (WeatherAppWithSuggestions.ui w)
  /\ WeatherAppWithSuggestions.debounceTimer (WeatherAppWithSuggestions.ui w')
     = WeatherAppWithSuggestions.debounceTimer (WeatherAppWithSuggestions.ui w)
  /\ WeatherAppWithSuggestions.timers (WeatherAppWithSuggestions.env w')
     = WeatherAppWithSuggestions.timers (WeatherAppWithSuggestions.env w)
  /\ WeatherAppWithSuggestions.search_log (WeatherAppWithSuggestions.env w')
     = WeatherAppWithSuggestions.search_log (WeatherAppWithSuggestions.env w)
       ++ List.filter JS.well_formed (map Timers.captured due).
Proof.
  revert w.
  induction due as [| tm due IH]; intros w; cbn [fold_left map List.filter].
  - rewrite app_nil_r. repeat split; reflexivity.
  - destruct (IH (WeatherAppWithSuggestions.search_callback
                    (Timers.captured tm) w))
      as (Eq & Es & Er & Et & El).
    cbv zeta. rewrite Eq, Es, Er, Et, El.
    open_app w. unfold WeatherAppWithSuggestions.search_callback.
    destruct (JS.well_formed (Timers.captured tm)); app_simpl.
    + rewrite <- app_assoc. repeat split; reflexivity.
    + repeat split; reflexivity.
Qed.

(** [advance] in terms of the timer queue. *)
Lemma page_advance (t : N) (w : WeatherPage.world) :
  let w' := WeatherPage.advance t w in
  let h := WeatherPage.timers (WeatherPage.env w) in
  WeatherPage.query (WeatherPage.ui w') = WeatherPage.query (WeatherPage.ui w)
  /\ WeatherPage.suggestions (WeatherPage.ui w')
     = WeatherPage.suggestions (WeatherPage.ui w)
  /\ WeatherPage.debounceRef (WeatherPage.ui w')
     = WeatherPage.debounceRef (WeatherPage.ui w)
  /\ WeatherPage.timers (WeatherPage.env w') = snd (Timers.expire t h)
  /\ WeatherPage.search_log (WeatherPage.env w')
     = WeatherPage.search_log (WeatherPage.env w)
       ++ map Timers.captured (fst (Timers.expire t h)).
Proof.
  unfold WeatherPage.advance, Timers.expire. cbv zeta.
  match goal with
  | |- context [fold_left _ ?due ?x] =>
      destruct (page_callbacks due x) as (Eq & Es & Er & Et & El)
  end.
  cbv zeta in *. rewrite Eq, Es, Er, Et, El.
  open_page w. page_simpl. repeat split; reflexivity.
Qed.

Lemma app_advance (t : N) (w : WeatherAppWithSuggestions.world) :
  let w' := WeatherAppWithSuggestions.advance t w in
  let h := WeatherAppWithSuggestions.timers (WeatherAppWithSuggestions.env w) in
  WeatherAppWithSuggestions.query (WeatherAppWithSuggestions.ui w')
  = WeatherAppWithSuggestions.query (WeatherAppWithSuggestions.ui w)
  /\ WeatherAppWithSuggestions.suggestions (WeatherAppWithSuggestions.ui w')
     = WeatherAppWithSuggestions.suggestions (WeatherAppWithSuggestions.ui w)
  /\ WeatherAppWithSuggestions.debounceTimer (WeatherAppWithSuggestions.ui w')
     = WeatherAppWithSuggestions.debounceTimer (WeatherAppWithSuggestions.ui w)
  /\ WeatherAppWithSuggestions.timers (WeatherAppWithSuggestions.env w')
     = snd (Timers.expire t h)
  /\ WeatherAppWithSuggestions.search_log (WeatherAppWithSuggestions.env w')
     = WeatherAppWithSuggestions.search_log (WeatherAppWithSuggestions.env w)
       ++ List.filter JS.well_formed
            (map Timers.captured (fst (Timers.expire t h))).
Proof.
  unfold WeatherAppWithSuggestions.advance, Timers.expire. cbv zeta.
  match goal with
  | |- context [fold_left _ ?due ?x] =>
      destruct (app_callbacks due x) as (Eq & Es & Er & Et & El)
  end.
  cbv zeta in *. rewrite Eq, Es, Er, Et, El.
  open_app w. app_simpl. repeat split; reflexivity.
Qed.

(** ** Updates below the length threshold *)

(** C4, as stated, fails: two spaces trim to nothing, yet the search for them
    is issued when the settle interval has elapsed, in either component. *)
Lemma whitespace_query_counterexample :
  let text := JS.lit "  " in
  Spec.trimmed_length text = 0 /\
  WeatherPage.search_log
    (WeatherPage.env
       (WeatherPage.advance 300
          (WeatherPage.type_burst [(0%N, text)] WeatherPage.initial)))
  = [text] /\
  WeatherAppWithSuggestions.search_log
    (WeatherAppWithSuggestions.env
       (WeatherAppWithSuggestions.advance 300
          (WeatherAppWithSuggestions.type_burst [(0%N, text)]
             WeatherAppWithSuggestions.initial)))
  = [text].
Proof. vm_compute. repeat split. Qed.

(** C4, amended.  The threshold is on the raw length of the text, not on its
    trimmed length.  In either component an update that changes the query to
    a text of fewer than two code units empties the suggestion list, hides
    the dropdown, schedules nothing and issues no search; and when no timeout
    was pending, none is issued later either and the list stays empty as time
    passes. *)
Theorem short_update :
  (forall (w : WeatherPage.world) (text : JS.str),
     JS.len text < 2 ->
     text <> WeatherPage.query (WeatherPage.ui w) ->
     let w' := WeatherPage.dispatch (WeatherPage.Change text) w in
     WeatherPage.suggestions (WeatherPage.ui w') = [] /\
     WeatherPage.dropdown (WeatherPage.render (WeatherPage.ui w')) = None /\
     WeatherPage.timers (WeatherPage.env w')
       = WeatherPage.timers (WeatherPage.env w) /\
     WeatherPage.search_log (WeatherPage.env w')
       = WeatherPage.search_log (WeatherPage.env w) /\
     (Timers.pending (WeatherPage.timers (WeatherPage.env w)) = [] ->
      forall t : N,
        WeatherPage.search_log (WeatherPage.env (WeatherPage.advance t w'))
          = WeatherPage.search_log (WeatherPage.env w) /\
        WeatherPage.suggestions (WeatherPage.ui (WeatherPage.advance t w'))
          = []))
  /\
  (forall (w : WeatherAppWithSuggestions.world) (text : JS.str),
     JS.len text < 2 ->
     text <> WeatherAppWithSuggestions.query (WeatherAppWithSuggestions.ui w) ->
     let w' := WeatherAppWithSuggestions.dispatch
                 (WeatherAppWithSuggestions.Change text) w in
     WeatherAppWithSuggestions.suggestions (WeatherAppWithSuggestions.ui w')
       = [] /\
     WeatherAppWithSuggestions.dropdown
       (WeatherAppWithSuggestions.render (WeatherAppWithSuggestions.ui w'))
       = None /\
     WeatherAppWithSuggestions.timers (WeatherAppWithSuggestions.env w')
       = WeatherAppWithSuggestions.timers (WeatherAppWithSuggestions.env w) /\
     WeatherAppWithSuggestions.search_log (WeatherAppWithSuggestions.env w')
       = WeatherAppWithSuggestions.search_log
           (WeatherAppWithSuggestions.env w) /\
     (Timers.pending
        (WeatherAppWithSuggestions.timers (WeatherAppWithSuggestions.env w))
      = [] ->
      forall t : N,
        WeatherAppWithSuggestions.search_log
          (WeatherAppWithSuggestions.env
             (WeatherAppWithSuggestions.advance t w'))
          = WeatherAppWithSuggestions.search_log
              (WeatherAppWithSuggestions.env w) /\
        WeatherAppWithSuggestions.suggestions
          (WeatherAppWithSuggestions.ui
             (WeatherAppWithSuggestions.advance t w'))
          = [])).
Proof.
  split.
  - intros w text Hlen Hne w'.
    assert (E : w' = WeatherPage.setShowDropdown false
                       (WeatherPage.setSuggestions []
                          (WeatherPage.setQuery text w))).
    { subst w'. open_page w.
      unfold WeatherPage.dispatch, WeatherPage.handle. page_simpl.
      destruct (decide (text = uq)) as [E | _]; [contradiction |].
      unfold WeatherPage.search_effect. page_simpl.
      apply Nat.ltb_lt in Hlen. rewrite Hlen. reflexivity. }
    rewrite E. clear E w'. open_page w. page_simpl.
    do 4 (split; [reflexivity |]). intros H t. split.
    + match goal with
      | |- context [WeatherPage.advance t ?x] =>
          destruct (page_advance t x) as (_ & _ & _ & _ & El)
      end.
      rewrite El. page_simpl. unfold Timers.expire. page_simpl.
      rewrite H. apply app_nil_r.
    + match goal with
      | |- context [WeatherPage.advance t ?x] =>
          destruct (page_advance t x) as (_ & Es & _)
      end.
      rewrite Es. reflexivity.
  - intros w text Hlen Hne w'.
    assert (E : w' = WeatherAppWithSuggestions.setShowSuggestions false
                       (WeatherAppWithSuggestions.setSuggestions []
                          (WeatherAppWithSuggestions.setQuery text w))).
    { subst w'. open_app w.
      unfold WeatherAppWithSuggestions.dispatch,
        WeatherAppWithSuggestions.handle. app_simpl.
      destruct (decide (text = uq)) as [E | _]; [contradiction |].
      unfold WeatherAppWithSuggestions.search_effect. app_simpl.
      apply Nat.ltb_lt in Hlen. rewrite Hlen. reflexivity. }
    rewrite E. clear E w'. open_app w. app_simpl.
    do 4 (split; [reflexivity |]). intros H t. split.
    + match goal with
      | |- context [WeatherAppWithSuggestions.advance t ?x] =>
          destruct (app_advance t x) as (_ & _ & _ & _ & El)
      end.
      rewrite El. app_simpl. unfold Timers.expire. app_simpl.
      rewrite H. apply app_nil_r.
    + match goal with
      | |- context [WeatherAppWithSuggestions.advance t ?x] =>
          destruct (app_advance t x) as (_ & Es & _)
      end.
      rewrite Es. reflexivity.
Qed.

Lemma short_update_witness :
  WeatherPage.suggestions
    (WeatherPage.ui
       (WeatherPage.dispatch (WeatherPage.Change (JS.lit "B"))
                             Samples.berlin_listed)) = []
  /\
  WeatherAppWithSuggestions.suggestions
    (WeatherAppWithSuggestions.ui
       (WeatherAppWithSuggestions.dispatch
          (WeatherAppWithSuggestions.Change (JS.lit "P"))
          Samples.paris_listed)) = [].
Proof.
  split.
  - refine (proj1 (proj1 short_update Samples.berlin_listed (JS.lit "B") _ _)).
    + vm_compute. lia.
    + intros E. vm_compute in E. discriminate E.
  - refine (proj1 (proj2 short_update Samples.paris_listed (JS.lit "P") _ _)).
    + vm_compute. lia.
    + intros E. vm_compute in E. discriminate E.
Defined.

(** ** Debouncing *)

Lemma filter_all {A : Type} (l : list A) :
  List.filter (fun _ => true) l = l.
Proof. induction l as [| a l IH]; [reflexivity | cbn; rewrite IH; reflexivity]. Qed.

Lemma clear_all (id : N) (h : Timers.queue) :
  (forall tm, In tm (Timers.pending h) -> Some id = Some (Timers.tid tm)) ->
  Timers.pending (Timers.clearTimeout id h) = [].
Proof.
  unfold Timers.clearTimeout. cbn [Timers.pending].
  induction (Timers.pending h) as [| tm l IH]; intros Hall; [reflexivity |].
  cbn [List.filter].
  assert (E : Timers.tid tm = id)
    by (specialize (Hall tm (or_introl eq_refl)); congruence).
  rewrite E, N.eqb_refl. cbn [negb].
  apply IH. intros tm' Hin. apply Hall. right. exact Hin.
Qed.

Section Burst.

Variable W : Type.
Variable query : W -> JS.str.
Variable ref : W -> option N.
Variable tq : W -> Timers.queue.
Variable log : W -> list JS.str.
Variable sent : JS.str -> bool.
Variable advance : N -> W -> W.
Variable change : JS.str -> W -> W.

(** Time passing expires timeouts and logs the searches they issue: one for
    each expired timeout whose text the callback can send. *)
Hypothesis advance_spec : forall t w,
  query (advance t w) = query w /\
  ref (advance t w) = ref w /\
  tq (advance t w) = snd (Timers.expire t (tq w)) /\
  log (advance t w)
    = log w
      ++ List.filter sent (map Timers.captured (fst (Timers.expire t (tq w)))).

(** An update of two code units or more that changes the text clears the
    timeout of the ref and schedules one for the new text. *)
Hypothesis change_spec : forall x w,
  x <> query w -> 2 <= JS.len x ->
  let h := match ref w with
           | Some id => Timers.clearTimeout id (tq w)
           | None => tq w
           end in
  query (change x w) = x /\
  ref (change x w) = Some (fst (Timers.setTimeout x 300 h)) /\
  tq (change x w) = snd (Timers.setTimeout x 300 h) /\
  log (change x w) = log w.

Local Abbreviation tidy := (Debounce.tidy W ref tq).
Local Abbreviation armed := (Debounce.armed W query ref tq).
Local Abbreviation type_burst := (Debounce.type_burst W advance change).

Lemma advance_tidy t w : tidy w -> tidy (advance t w).
Proof.
  intros Hw tm Hin. destruct (advance_spec t w) as (_ & Er & Et & _).
  rewrite Er. apply Hw. rewrite Et in Hin.
  unfold Timers.expire in Hin. cbn [snd Timers.pending] in Hin.
  apply filter_In in Hin. tauto.
Qed.

Lemma change_arms x w :
  tidy w -> x <> query w -> 2 <= JS.len x ->
  armed (Timers.clock (tq w)) x (change x w) /\ log (change x w) = log w.
Proof.
  intros Hw Hne Hlen.
  destruct (change_spec x w Hne Hlen) as (Eq & Er & Et & El).
  split; [| exact El].
  assert (Hh : Timers.pending
                 (match ref w with
                  | Some id => Timers.clearTimeout id (tq w)
                  | None => tq w
                  end) = []
               /\ Timers.clock
                    (match ref w with
                     | Some id => Timers.clearTimeout id (tq w)
                     | None => tq w
                     end) = Timers.clock (tq w)).
  { unfold Debounce.tidy in Hw. destruct (ref w) as [id |].
    - split; [apply clear_all; exact Hw | reflexivity].
    - split; [| reflexivity].
      destruct (Timers.pending (tq w)) as [| tm l]; [reflexivity |].
      specialize (Hw tm (or_introl eq_refl)). discriminate Hw. }
  destruct Hh as [Hp Hc].
  unfold Debounce.armed. rewrite Eq, Er, Et.
  unfold Timers.setTimeout. cbn [fst snd Timers.clock Timers.pending].
  rewrite Hp, Hc. repeat split. eexists. split; reflexivity.
Qed.

Lemma armed_tidy t x w : armed t x w -> tidy w.
Proof.
  intros (_ & _ & id & Hp & Hr) tm Hin. rewrite Hp in Hin.
  destruct Hin as [<- | []]. exact Hr.
Qed.

(** An armed timeout survives until its deadline ... *)
Lemma advance_early t0 x w t :
  armed t0 x w -> (t0 <= t < t0 + 300)%N ->
  query (advance t w) = x /\ Timers.clock (tq (advance t w)) = t /\
  tidy (advance t w) /\ log (advance t w) = log w.
Proof.
  intros Ha Ht. pose proof (armed_tidy _ _ _ Ha) as Hw.
  destruct Ha as (Hq & Hc & id & Hp & Hr).
  destruct (advance_spec t w) as (Eq & Er & Et & El).
  split; [congruence |]. split; [| split].
  - rewrite Et. unfold Timers.expire. cbn [snd Timers.clock]. lia.
  - apply advance_tidy. exact Hw.
  - rewrite El. unfold Timers.expire. cbn [fst]. rewrite Hp.
    cbn [List.filter]. unfold Timers.is_due. cbn [Timers.deadline].
    replace (t0 + 300 <=? t)%N with false by (symmetry; apply N.leb_gt; lia).
    cbn [map List.filter]. apply app_nil_r.
Qed.

(** ... and then issues its search. *)
Lemma advance_late t0 x w t :
  armed t0 x w -> (t0 + 300 <= t)%N ->
  log (advance t w) = log w ++ List.filter sent [x] /\
  Timers.pending (tq (advance t w)) = [].
Proof.
  intros (Hq & Hc & id & Hp & Hr) Ht.
  destruct (advance_spec t w) as (Eq & Er & Et & El).
  rewrite El, Et. unfold Timers.expire. cbn [fst snd Timers.pending].
  rewrite Hp. cbn [List.filter]. unfold Timers.is_due.
  cbn [Timers.deadline].
  replace (t0 + 300 <=? t)%N with true by (symmetry; apply N.leb_le; lia).
  cbn [map negb Timers.captured]. split; reflexivity.
Qed.

Lemma update_armed t0 x w t x' :
  armed t0 x w -> (t0 <= t < t0 + 300)%N -> x' <> x -> 2 <= JS.len x' ->
  armed t x' (change x' (advance t w)) /\
  log (change x' (advance t w)) = log w.
Proof.
  intros Ha Ht Hne Hlen.
  destruct (advance_early t0 x w t Ha Ht) as (Eq & Ec & Hw & El).
  destruct (change_arms x' (advance t w) Hw) as [Ha' El'];
    [congruence | exact Hlen |].
  rewrite Ec in Ha'. split; [exact Ha' | congruence].
Qed.

Lemma first_update t1 x1 w :
  tidy w -> (Timers.clock (tq w) <= t1)%N ->
  x1 <> query w -> 2 <= JS.len x1 ->
  armed t1 x1 (change x1 (advance t1 w)) /\
  log (change x1 (advance t1 w)) = log (advance t1 w).
Proof.
  intros Hw Hc Hne Hlen.
  destruct (advance_spec t1 w) as (Eq & Er & Et & El).
  destruct (change_arms x1 (advance t1 w)) as [Ha El'];
    [apply advance_tidy; exact Hw | congruence | exact Hlen |].
  split; [| exact El'].
  replace (Timers.clock (tq (advance t1 w))) with t1 in Ha; [exact Ha |].
  rewrite Et. unfold Timers.expire. cbn [snd Timers.clock]. lia.
Qed.

(** Through a burst the schedule follows the last update. *)
Lemma burst_armed (b : Spec.burst) : forall t0 x w,
  armed t0 x w -> Spec.spaced t0 b -> Spec.changing x b -> Spec.long b ->
  armed (fst (List.last b (t0, x))) (snd (List.last b (t0, x))) (type_burst b w) /\
  log (type_burst b w) = log w.
Proof.
  induction b as [| [t x'] b IH]; intros t0 x w Ha Hs Hc Hl.
  - split; [exact Ha | reflexivity].
  - destruct Hs as [Ht Hs]. destruct Hc as [Hne Hc].
    inversion Hl as [| u l Hlen Hl']; subst. cbn [snd] in Hlen.
    destruct (update_armed t0 x w t x' Ha Ht Hne Hlen) as [Ha' El].
    destruct (IH t x' _ Ha' Hs Hc Hl') as [Hfin Elog].
    change (type_burst ((t, x') :: b) w)
      with (type_burst b (change x' (advance t w))).
    replace (List.last ((t, x') :: b) (t0, x)) with (List.last b (t, x')).
    + split; [exact Hfin | congruence].
    + clear. revert t x'. induction b as [| v b IHb]; intros t x';
        [reflexivity |].
      cbn [List.last]. destruct b; [reflexivity |]. apply (IHb t x').
Qed.

Lemma prefix_armed (b : Spec.burst) : forall t0 x w,
  armed t0 x w -> Spec.spaced t0 b -> Spec.changing x b -> Spec.long b ->
  forall b1 u b2, b = b1 ++ u :: b2 ->
    armed (fst u) (snd u) (type_burst (b1 ++ [u]) w).
Proof.
  induction b as [| [t x'] b IH]; intros t0 x w Ha Hs Hc Hl b1 u b2 E.
  - destruct b1; discriminate E.
  - destruct Hs as [Ht Hs]. destruct Hc as [Hne Hc].
    inversion Hl as [| v l Hlen Hl']; subst v l. cbn [snd] in Hlen.
    destruct (update_armed t0 x w t x' Ha Ht Hne Hlen) as [Ha' _].
    destruct b1 as [| v b1]; cbn [app] in E; injection E as <- E.
    + exact Ha'.
    + change (type_burst (((t, x') :: b1) ++ [u]) w)
        with (type_burst (b1 ++ [u]) (change x' (advance t w))).
      exact (IH t x' _ Ha' Hs Hc Hl' b1 u b2 E).
Qed.

(** One burst, one search, for the last text. *)
Lemma burst_one_search (w : W) (t1 : N) (x1 : JS.str) (rest : Spec.burst)
    (te : N) :
  tidy w -> (Timers.clock (tq w) <= t1)%N ->
  Spec.long ((t1, x1) :: rest) ->
  Spec.changing (query w) ((t1, x1) :: rest) ->
  Spec.spaced t1 rest ->
  (fst (List.last rest (t1, x1)) + 300 <= te)%N ->
  log (advance te (type_burst ((t1, x1) :: rest) w))
    = log (advance t1 w) ++ List.filter sent [snd (List.last rest (t1, x1))] /\
  forall b1 u b2, (t1, x1) :: rest = b1 ++ u :: b2 ->
    armed (fst u) (snd u) (type_burst (b1 ++ [u]) w).
Proof.
  intros Hw Hc Hl [Hne Hch] Hs Hte.
  inversion Hl as [| v l Hlen Hl']; subst v l. cbn [snd] in Hlen.
  destruct (first_update t1 x1 w Hw Hc Hne Hlen) as [Ha El].
  change (type_burst ((t1, x1) :: rest) w)
    with (type_burst rest (change x1 (advance t1 w))).
  split.
  - destruct (burst_armed rest t1 x1 _ Ha Hs Hch Hl') as [Hfin Elog].
    destruct (advance_late _ _ _ te Hfin Hte) as [E _].
    rewrite E, Elog, El. reflexivity.
  - intros b1 u b2 E. destruct b1 as [| v b1]; cbn [app] in E;
      injection E as <- E.
    + exact Ha.
    + change (type_burst (((t1, x1) :: b1) ++ [u]) w)
        with (type_burst (b1 ++ [u]) (change x1 (advance t1 w))).
      exact (prefix_armed rest t1 x1 _ Ha Hs Hch Hl' b1 u b2 E).
Qed.

End Burst.

(** *** The two components follow the discipline *)

Lemma page_advance_spec (t : N) (w : WeatherPage.world) :
  PageDebounce.query (WeatherPage.advance t w) = PageDebounce.query w /\
  PageDebounce.ref (WeatherPage.advance t w) = PageDebounce.ref w /\
  PageDebounce.tq (WeatherPage.advance t w)
    = snd (Timers.expire t (PageDebounce.tq w)) /\
  WeatherPage.search_log (WeatherPage.env (WeatherPage.advance t w))
    = WeatherPage.search_log (WeatherPage.env w)
      ++ List.filter (fun _ => true)
           (map Timers.captured (fst (Timers.expire t (PageDebounce.tq w)))).
Proof.
  destruct (page_advance t w) as (Eq & _ & Er & Et & El).
  rewrite filter_all.
  unfold PageDebounce.query, PageDebounce.ref, PageDebounce.tq. tauto.
Qed.

Lemma page_change_spec (x : JS.str) (w : WeatherPage.world) :
  x <> PageDebounce.query w -> 2 <= JS.len x ->
  let h := match PageDebounce.ref w with
           | Some id => Timers.clearTimeout id (PageDebounce.tq w)
           | None => PageDebounce.tq w
           end in
  let w' := WeatherPage.dispatch (WeatherPage.Change x) w in
  PageDebounce.query w' = x /\
  PageDebounce.ref w' = Some (fst (Timers.setTimeout x 300 h)) /\
  PageDebounce.tq w' = snd (Timers.setTimeout x 300 h) /\
  WeatherPage.search_log (WeatherPage.env w')
    = WeatherPage.search_log (WeatherPage.env w).
Proof.
  unfold PageDebounce.query, PageDebounce.ref, PageDebounce.tq.
  intros Hne Hlen. open_page w.
  unfold WeatherPage.dispatch, WeatherPage.handle. page_simpl.
  destruct (decide (x = uq)) as [E | _]; [contradiction |].
  unfold WeatherPage.search_effect. page_simpl.
  apply Nat.ltb_ge in Hlen. rewrite Hlen.
  destruct udr; unfold Timers.setTimeout; page_simpl;
    repeat split; reflexivity.
Qed.

Lemma app_advance_spec (t : N) (w : WeatherAppWithSuggestions.world) :
  AppDebounce.query (WeatherAppWithSuggestions.advance t w)
    = AppDebounce.query w /\
  AppDebounce.ref (WeatherAppWithSuggestions.advance t w)
    = AppDebounce.ref w /\
  AppDebounce.tq (WeatherAppWithSuggestions.advance t w)
    = snd (Timers.expire t (AppDebounce.tq w)) /\
  WeatherAppWithSuggestions.search_log
    (WeatherAppWithSuggestions.env (WeatherAppWithSuggestions.advance t w))
    = WeatherAppWithSuggestions.search_log (WeatherAppWithSuggestions.env w)
      ++ List.filter JS.well_formed
           (map Timers.captured (fst (Timers.expire t (AppDebounce.tq w)))).
Proof.
  destruct (app_advance t w) as (Eq & _ & Er & Et & El).
  unfold AppDebounce.query, AppDebounce.ref, AppDebounce.tq. tauto.
Qed.

Lemma app_change_spec (x : JS.str) (w : WeatherAppWithSuggestions.world) :
  x <> AppDebounce.query w -> 2 <= JS.len x ->
  let h := match AppDebounce.ref w with
           | Some id => Timers.clearTimeout id (AppDebounce.tq w)
           | None => AppDebounce.tq w
           end in
  let w' := WeatherAppWithSuggestions.dispatch
              (WeatherAppWithSuggestions.Change x) w in
  AppDebounce.query w' = x /\
  AppDebounce.ref w' = Some (fst (Timers.setTimeout x 300 h)) /\
  AppDebounce.tq w' = snd (Timers.setTimeout x 300 h) /\
  WeatherAppWithSuggestions.search_log (WeatherAppWithSuggestions.env w')
    = WeatherAppWithSuggestions.search_log (WeatherAppWithSuggestions.env w).
Proof.
  unfold AppDebounce.query, AppDebounce.ref, AppDebounce.tq.
  intros Hne Hlen. open_app w.
  unfold WeatherAppWithSuggestions.dispatch, WeatherAppWithSuggestions.handle.
  app_simpl.
  destruct (decide (x = uq)) as [E | _]; [contradiction |].
  unfold WeatherAppWithSuggestions.search_effect. app_simpl.
  apply Nat.ltb_ge in Hlen. rewrite Hlen.
  destruct udr; unfold Timers.setTimeout; app_simpl;
    repeat split; reflexivity.
Qed.

(** C5, where the code departs from it.  "Lo" is typed, cut back to "L"
    250 ms later and extended to "Lon" after another 250 ms: one burst, each
    update less than 300 ms after the one before.  The update to "L" leaves
    the effect before [clearTimeout] is reached, so the timeout of "Lo" is
    not cancelled: it is still pending after that update and fires at
    300 ms.  The update to "Lon" schedules its own.  Two searches are
    issued, for "Lo" and for "Lon", in either component. *)
Theorem mixed_burst_two_searches :
  let b := Samples.mixed_burst in
  Spec.spaced 0 (tl b) /\
  Spec.changing [] b /\
  Timers.pending
    (WeatherPage.timers
       (WeatherPage.env (WeatherPage.type_burst (take 2 b) WeatherPage.initial)))
  = [Timers.Timer 1 300 (JS.lit "Lo")] /\
  WeatherPage.search_log
    (WeatherPage.env
       (WeatherPage.advance 800 (WeatherPage.type_burst b WeatherPage.initial)))
  = [JS.lit "Lo"; JS.lit "Lon"] /\
  Timers.pending
    (WeatherAppWithSuggestions.timers
       (WeatherAppWithSuggestions.env
          (WeatherAppWithSuggestions.type_burst (take 2 b)
             WeatherAppWithSuggestions.initial)))
  = [Timers.Timer 1 300 (JS.lit "Lo")] /\
  WeatherAppWithSuggestions.search_log
    (WeatherAppWithSuggestions.env
       (WeatherAppWithSuggestions.advance 800
          (WeatherAppWithSuggestions.type_burst b
             WeatherAppWithSuggestions.initial)))
  = [JS.lit "Lo"; JS.lit "Lon"].
Proof.
  split; [cbn; repeat split; lia |].
  split; [cbn; repeat split; discriminate |].
  vm_compute. repeat split.
Qed.

(** X12.  In either component, take a burst of updates that each change the
    text, each have at least two code units, and each arrive less than
    300 ms after the one before, starting from a state where no timeout is
    pending but the one of the ref.  After every update of the burst exactly
    one timeout is pending, the one for that update's text, due 300 ms after
    it: the earlier one is cancelled.  And once 300 ms have passed after the
    last update, exactly one search call has been made since the burst
    began, for the text of the last update; in WeatherAppWithSuggestions
    that is when the text is well formed, and otherwise no request is made
    at all. *)
Theorem burst_coalesces :
  (forall (w : WeatherPage.world) (t1 : N) (x1 : JS.str) (rest : Spec.burst)
          (te : N),
     PageDebounce.tidy w ->
     (Timers.clock (PageDebounce.tq w) <= t1)%N ->
     Spec.long ((t1, x1) :: rest) ->
     Spec.changing (PageDebounce.query w) ((t1, x1) :: rest) ->
     Spec.spaced t1 rest ->
     (fst (List.last rest (t1, x1)) + 300 <= te)%N ->
     WeatherPage.search_log
       (WeatherPage.env
          (WeatherPage.advance te
             (WeatherPage.type_burst ((t1, x1) :: rest) w)))
     = WeatherPage.search_log (WeatherPage.env (WeatherPage.advance t1 w))
       ++ [snd (List.last rest (t1, x1))] /\
     forall b1 u b2, (t1, x1) :: rest = b1 ++ u :: b2 ->
       PageDebounce.armed (fst u) (snd u)
         (WeatherPage.type_burst (b1 ++ [u]) w))
  /\
  (forall (w : WeatherAppWithSuggestions.world) (t1 : N) (x1 : JS.str)
          (rest : Spec.burst) (te : N),
     AppDebounce.tidy w ->
     (Timers.clock (AppDebounce.tq w) <= t1)%N ->
     Spec.long ((t1, x1) :: rest) ->
     Spec.changing (AppDebounce.query w) ((t1, x1) :: rest) ->
     Spec.spaced t1 rest ->
     (fst (List.last rest (t1, x1)) + 300 <= te)%N ->
     WeatherAppWithSuggestions.search_log
       (WeatherAppWithSuggestions.env
          (WeatherAppWithSuggestions.advance te
             (WeatherAppWithSuggestions.type_burst ((t1, x1) :: rest) w)))
     = WeatherAppWithSuggestions.search_log
         (WeatherAppWithSuggestions.env
            (WeatherAppWithSuggestions.advance t1 w))
       ++ (if JS.well_formed (snd (List.last rest (t1, x1)))
           then [snd (List.last rest (t1, x1))] else []) /\
     forall b1 u b2, (t1, x1) :: rest = b1 ++ u :: b2 ->
       AppDebounce.armed (fst u) (snd u)
         (WeatherAppWithSuggestions.type_burst (b1 ++ [u]) w)).
Proof.
  split.
  - intros w t1 x1 rest te.
    exact (burst_one_search WeatherPage.world
             PageDebounce.query PageDebounce.ref PageDebounce.tq
             (fun w => WeatherPage.search_log (WeatherPage.env w))
             (fun _ => true)
             WeatherPage.advance
             (fun x => WeatherPage.dispatch (WeatherPage.Change x))
             page_advance_spec page_change_spec w t1 x1 rest te).
  - intros w t1 x1 rest te.
    exact (burst_one_search WeatherAppWithSuggestions.world
             AppDebounce.query AppDebounce.ref AppDebounce.tq
             (fun w => WeatherAppWithSuggestions.search_log
                         (WeatherAppWithSuggestions.env w))
             JS.well_formed
             WeatherAppWithSuggestions.advance
             (fun x => WeatherAppWithSuggestions.dispatch
                         (WeatherAppWithSuggestions.Change x))
             app_advance_spec app_change_spec w t1 x1 rest te).
Qed.

Lemma burst_coalesces_witness :
  WeatherPage.search_log
    (WeatherPage.env
       (WeatherPage.advance 450
          (WeatherPage.type_burst Samples.keystrokes WeatherPage.initial)))
  = [JS.lit "Berli"]
  /\
  WeatherAppWithSuggestions.search_log
    (WeatherAppWithSuggestions.env
       (WeatherAppWithSuggestions.advance 450
          (WeatherAppWithSuggestions.type_burst Samples.keystrokes
             WeatherAppWithSuggestions.initial)))
  = [JS.lit "Berli"].
Proof.
  assert (Hlong : Spec.long Samples.keystrokes)
    by (repeat constructor; vm_compute; repeat constructor).
  assert (Hchanging : Spec.changing [] Samples.keystrokes)
    by (vm_compute; repeat split; discriminate).
  assert (Hspaced : Spec.spaced 0 (tl Samples.keystrokes))
    by (cbn [Spec.spaced tl Samples.keystrokes]; repeat split; lia).
  split.
  - refine (proj1 (proj1 burst_coalesces WeatherPage.initial 0%N (JS.lit "Be")
                     (tl Samples.keystrokes) 450%N _ _ Hlong Hchanging Hspaced
                     _)).
    + intros tm Hin. vm_compute in Hin. destruct Hin.
    + vm_compute. discriminate.
    + vm_compute. discriminate.
  - refine (proj1 (proj2 burst_coalesces WeatherAppWithSuggestions.initial 0%N
                     (JS.lit "Be") (tl Samples.keystrokes) 450%N _ _
                     Hlong Hchanging Hspaced _)).
    + intros tm Hin. vm_compute in Hin. destruct Hin.
    + vm_compute. discriminate.
    + vm_compute. discriminate.
Defined.

(** *** Every reachable state is tidy *)

Lemma page_handle_frame (e : WeatherPage.event) (w : WeatherPage.world) :
  PageDebounce.ref (WeatherPage.handle e w) = PageDebounce.ref w /\
  PageDebounce.tq (WeatherPage.handle e w) = PageDebounce.tq w.
Proof.
  unfold PageDebounce.ref, PageDebounce.tq. open_page w.
  destruct e; unfold WeatherPage.handle, WeatherPage.handleSelect,
    WeatherPage.handleUseMyLocation, WeatherPage.search_settled,
    WeatherPage.forecast_settled, WeatherPage.getWeather,
    WeatherPage.position_granted,
    WeatherPage.position_denied, WeatherPage.lookup_settled,
    WeatherPage.fetchWeatherData;
    page_simpl;
    repeat match goal with
           | |- context [match ?x with _ => _ end] => destruct x; page_simpl
           end;
    split; reflexivity.
Qed.

Lemma page_effect_tidy (w : WeatherPage.world) :
  PageDebounce.tidy w -> PageDebounce.tidy (WeatherPage.search_effect w).
Proof.
  unfold PageDebounce.tidy, Debounce.tidy, PageDebounce.ref, PageDebounce.tq.
  open_page w. unfold WeatherPage.search_effect. page_simpl.
  intros Hw. destruct (JS.len uq <? 2); [exact Hw |].
  assert (Hp : Timers.pending
                 (match udr with
                  | Some id => Timers.clearTimeout id htq
                  | None => htq
                  end) = []).
  { destruct udr as [id |]; [apply clear_all; exact Hw |].
    destruct (Timers.pending htq) as [| tm l]; [reflexivity |].
    specialize (Hw tm (or_introl eq_refl)). discriminate Hw. }
  destruct udr as [id |]; unfold Timers.setTimeout; page_simpl;
    rewrite Hp; intros tm [<- | []]; reflexivity.
Qed.

Lemma page_step_tidy (te : N * WeatherPage.event) (w : WeatherPage.world) :
  PageDebounce.tidy w -> PageDebounce.tidy (WeatherPage.step te w).
Proof.
  intros Hw. unfold WeatherPage.step, WeatherPage.dispatch.
  assert (Ha : PageDebounce.tidy (WeatherPage.advance (fst te) w)).
  { exact (advance_tidy WeatherPage.world PageDebounce.query PageDebounce.ref
             PageDebounce.tq
             (fun w => WeatherPage.search_log (WeatherPage.env w))
             (fun _ => true)
             WeatherPage.advance page_advance_spec (fst te) w Hw). }
  assert (Hh : PageDebounce.tidy
                 (WeatherPage.handle (snd te)
                    (WeatherPage.advance (fst te) w))).
  { destruct (page_handle_frame (snd te) (WeatherPage.advance (fst te) w))
      as [Er Et].
    intros tm Hin. rewrite Er. apply Ha. rewrite <- Et. exact Hin. }
  destruct (decide _); [exact Hh | apply page_effect_tidy; exact Hh].
Qed.

Lemma page_reachable_tidy (evs : list (N * WeatherPage.event)) :
  PageDebounce.tidy (WeatherPage.run evs WeatherPage.initial).
Proof.
  unfold WeatherPage.run.
  assert (H0 : PageDebounce.tidy WeatherPage.initial) by (intros tm []).
  revert H0. generalize WeatherPage.initial.
  induction evs as [| te evs IH]; intros w Hw; [exact Hw |].
  cbn [fold_left]. apply IH. apply page_step_tidy. exact Hw.
Qed.

Lemma app_handle_frame (e : WeatherAppWithSuggestions.event)
    (w : WeatherAppWithSuggestions.world) :
  AppDebounce.ref (WeatherAppWithSuggestions.handle e w) = AppDebounce.ref w /\
  AppDebounce.tq (WeatherAppWithSuggestions.handle e w) = AppDebounce.tq w.
Proof.
  unfold AppDebounce.ref, AppDebounce.tq. open_app w.
  destruct e; unfold WeatherAppWithSuggestions.handle,
    WeatherAppWithSuggestions.fetchWeather,
    WeatherAppWithSuggestions.search_settled,
    WeatherAppWithSuggestions.forecast_settled;
    app_simpl;
    repeat match goal with
           | |- context [match ?x with _ => _ end] => destruct x; app_simpl
           end;
    split; reflexivity.
Qed.

Lemma app_effect_tidy (w : WeatherAppWithSuggestions.world) :
  AppDebounce.tidy w ->
  AppDebounce.tidy (WeatherAppWithSuggestions.search_effect w).
Proof.
  unfold AppDebounce.tidy, Debounce.tidy, AppDebounce.ref, AppDebounce.tq.
  open_app w. unfold WeatherAppWithSuggestions.search_effect. app_simpl.
  intros Hw. destruct (JS.len uq <? 2); [exact Hw |].
  assert (Hp : Timers.pending
                 (match udr with
                  | Some id => Timers.clearTimeout id htq
                  | None => htq
                  end) = []).
  { destruct udr as [id |]; [apply clear_all; exact Hw |].
    destruct (Timers.pending htq) as [| tm l]; [reflexivity |].
    specialize (Hw tm (or_introl eq_refl)). discriminate Hw. }
  destruct udr as [id |]; unfold Timers.setTimeout; app_simpl;
    rewrite Hp; intros tm [<- | []]; reflexivity.
Qed.

Lemma app_step_tidy (te : N * WeatherAppWithSuggestions.event)
    (w : WeatherAppWithSuggestions.world) :
  AppDebounce.tidy w -> AppDebounce.tidy (WeatherAppWithSuggestions.step te w).
Proof.
  intros Hw.
  unfold WeatherAppWithSuggestions.step, WeatherAppWithSuggestions.dispatch.
  assert (Ha : AppDebounce.tidy
                 (WeatherAppWithSuggestions.advance (fst te) w)).
  { exact (advance_tidy WeatherAppWithSuggestions.world AppDebounce.query
             AppDebounce.ref AppDebounce.tq
             (fun w => WeatherAppWithSuggestions.search_log
                         (WeatherAppWithSuggestions.env w))
             JS.well_formed
             WeatherAppWithSuggestions.advance app_advance_spec
             (fst te) w Hw). }
  assert (Hh : AppDebounce.tidy
                 (WeatherAppWithSuggestions.handle (snd te)
                    (WeatherAppWithSuggestions.advance (fst te) w))).
  { destruct (app_handle_frame (snd te)
                (WeatherAppWithSuggestions.advance (fst te) w)) as [Er Et].
    intros tm Hin. rewrite Er. apply Ha. rewrite <- Et. exact Hin. }
  destruct (decide _); [exact Hh | apply app_effect_tidy; exact Hh].
Qed.

Lemma app_reachable_tidy (evs : list (N * WeatherAppWithSuggestions.event)) :
  AppDebounce.tidy
    (WeatherAppWithSuggestions.run evs WeatherAppWithSuggestions.initial).
Proof.
  unfold WeatherAppWithSuggestions.run.
  assert (H0 : AppDebounce.tidy WeatherAppWithSuggestions.initial)
    by (intros tm []).
  revert H0. generalize WeatherAppWithSuggestions.initial.
  induction evs as [| te evs IH]; intros w Hw; [exact Hw |].
  cbn [fold_left]. apply IH. apply app_step_tidy. exact Hw.
Qed.

(** The early return of the effect leaves a pending timeout alone: "Lo" is
    typed and cut back to "L" within the settle interval, and the search for
    "Lo" is still issued and its answer shown. *)
Example short_update_keeps_timeout :
  let w := WeatherPage.run
             [ (0%N, WeatherPage.Change (JS.lit "Lo"));
               (50%N, WeatherPage.Change (JS.lit "L"));
               (420%N, WeatherPage.SearchResponse 0
                         (Http true (Some [Samples.london]))) ]
             WeatherPage.initial in
  WeatherPage.query (WeatherPage.ui w) = JS.lit "L" /\
  WeatherPage.search_log (WeatherPage.env w) = [JS.lit "Lo"] /\
  WeatherPage.suggestions (WeatherPage.ui w) = [Samples.london].
Proof. vm_compute. repeat split. Qed.

(** * Further properties of the code *)

(** ** The classifiers outside the range of their tables *)

Ltac no_such_key :=
  apply not_elem_of_list_to_map_1; simpl;
  rewrite ?not_elem_of_cons; repeat split; try lia; apply not_elem_of_nil.

(** X1.  Every key of the three tables lies between 0 and 99: a negative code or
    a code above 99 gets the default glyph from each classifier. *)
Theorem classifier_out_of_range (code : Z) :
  (code < 0 \/ 99 < code)%Z ->
  getWeatherEmoji code = JS.lit "🌤️" /\
  getWeatherIcon code = JS.lit "🌤️" /\
  App.getWeatherEmoji code = JS.lit "🌤️".
Proof.
  intros Hcode.
  assert (E1 : emoji_map !! code = None) by (unfold emoji_map; no_such_key).
  assert (E2 : icon_map !! code = None) by (unfold icon_map; no_such_key).
  assert (E3 : App.weatherMap !! code = None)
    by (unfold App.weatherMap; no_such_key).
  unfold getWeatherEmoji, getWeatherIcon, App.getWeatherEmoji.
  rewrite E1, E2, E3. repeat split; reflexivity.
Qed.

Lemma classifier_out_of_range_witness :
  getWeatherEmoji (-1) = JS.lit "🌤️" /\
  getWeatherIcon (-1) = JS.lit "🌤️" /\
  App.getWeatherEmoji (-1) = JS.lit "🌤️".
Proof. refine (classifier_out_of_range (-1) _). left. lia. Defined.

(** ** The formatted label *)

(** X2.  The formatted label is empty exactly when none of the five address
    fields is present: a field counts as missing when it is undefined or the
    empty string. *)
Theorem formatDisplayName_empty_iff (loc : WeatherAppWithSuggestions.Location) :
  let a := WeatherAppWithSuggestions.address loc in
  WeatherAppWithSuggestions.formatDisplayName loc = [] <->
  JS.truthy (WeatherAppWithSuggestions.city a)
  || JS.truthy (WeatherAppWithSuggestions.town a)
  || JS.truthy (WeatherAppWithSuggestions.village a)
  || JS.truthy (WeatherAppWithSuggestions.state a)
  || JS.truthy (WeatherAppWithSuggestions.country a) = false.
Proof.
  destruct loc as [la lo dn [c t v s k]].
  unfold WeatherAppWithSuggestions.formatDisplayName.
  cbn [WeatherAppWithSuggestions.address WeatherAppWithSuggestions.city
       WeatherAppWithSuggestions.town WeatherAppWithSuggestions.village
       WeatherAppWithSuggestions.state WeatherAppWithSuggestions.country].
  destruct c as [[|c0 c]|], t as [[|t0 t]|], v as [[|v0 v]|],
    s as [[|s0 s]|], k as [[|k0 k]|];
    (split; intros H; [vm_compute in H |- *; congruence
                      | vm_compute in H |- *; congruence]).
Qed.

(** ** Splitting a label at its commas *)

(** [s.split(',').join(',')] gives [s] back. *)
Lemma split_join (c : N) (s : JS.str) :
  JS.join [c] (JS.at0 (JS.split c s) :: JS.slice1 (JS.split c s)) = s.
Proof.
  unfold JS.at0, JS.slice1.
  induction s as [| x r IH]; [reflexivity |].
  cbn [JS.split]. destruct (JS.split c r) as [seg segs]. cbn [fst snd] in *.
  destruct (N.eqb_spec x c) as [-> | Hx]; cbn [fst snd].
  - change (JS.join [c] ([] :: seg :: segs))
      with ([] ++ [c] ++ JS.join [c] (seg :: segs)).
    rewrite IH. reflexivity.
  - destruct segs as [| s1 segs]; cbn [JS.join] in *; rewrite <- IH;
      reflexivity.
Qed.

(** The array has one element exactly when [s] has no comma. *)
Lemma split_single (c : N) (s : JS.str) :
  JS.slice1 (JS.split c s) = [] <-> ~ In c s.
Proof.
  unfold JS.slice1.
  induction s as [| x r IH]; [cbn; tauto |].
  cbn [JS.split]. destruct (JS.split c r) as [seg segs]. cbn [snd] in *.
  destruct (N.eqb_spec x c) as [-> | Hx]; cbn [snd In].
  - split; [discriminate | intros H; exfalso; apply H; left; reflexivity].
  - rewrite IH. split; [intros H [E | Hin]; [congruence | tauto] | tauto].
Qed.

(** X3.  An entry of WeatherPage's dropdown splits the label of its suggestion
    in two and loses nothing: without a comma the title is the whole label
    and the subtitle is empty; with one, the label is the title, the first
    comma and the subtitle.  The title never holds a comma. *)
Theorem entry_recomposes (loc : WeatherPage.LocationSuggestion) :
  let e := WeatherPage.render_entry loc in
  let label := WeatherPage.display_name loc in
  ~ In JS.comma (WeatherPage.entry_title e) /\
  ((~ In JS.comma label /\
    WeatherPage.entry_title e = label /\ WeatherPage.entry_subtitle e = [])
   \/
   (In JS.comma label /\
    label = WeatherPage.entry_title e
            ++ JS.comma :: WeatherPage.entry_subtitle e)).
Proof.
  cbv zeta. unfold WeatherPage.render_entry.
  cbn [WeatherPage.entry_title WeatherPage.entry_subtitle].
  set (label := WeatherPage.display_name loc).
  split; [apply (proj1 (split_first_segment label)) |].
  pose proof (split_join JS.comma label) as Hj.
  pose proof (split_single JS.comma label) as Hs.
  destruct (JS.slice1 (JS.split JS.comma label)) as [| s1 segs] eqn:E.
  - left. split; [apply Hs; reflexivity |]. split; [exact Hj | reflexivity].
  - right. split.
    + destruct (in_dec N.eq_dec JS.comma label) as [Hin | Hno]; [exact Hin |].
      apply Hs in Hno. discriminate Hno.
    + cbn [JS.join] in Hj. rewrite <- Hj at 1. reflexivity.
Qed.

(** ** The day cards *)

(** X4.  WeatherPage shows one card per date, whatever the length of the other
    daily arrays: a date with a code gets the glyph of its code, a date past
    the end of the codes gets the default glyph, and the first card alone is
    labelled Today. *)
Theorem page_cards_per_date (data : WeatherPage.WeatherData) :
  let dates := WeatherPage.time (WeatherPage.daily data) in
  let codes := WeatherPage.daily_weather_code (WeatherPage.daily data) in
  length (Days.page_cards data) = length dates /\
  (forall i date code,
     dates !! i = Some date -> codes !! i = Some code ->
     Days.page_cards data !! i
     = Some {| Days.card_label :=
                 match i with 0 => Days.Today | S _ => Days.Weekday date end;
               Days.card_glyph := getWeatherEmoji code |}) /\
  (forall i date,
     dates !! i = Some date -> length codes <= i ->
     Days.page_cards data !! i
     = Some {| Days.card_label :=
                 match i with 0 => Days.Today | S _ => Days.Weekday date end;
               Days.card_glyph := JS.lit "🌤️" |}).
Proof.
  cbv zeta. unfold Days.page_cards. split; [apply length_imap |].
  split.
  - intros i date code Hd Hc. rewrite list_lookup_imap, Hd. cbn [fmap option_fmap option_map].
    unfold Days.emoji_at. rewrite Hc. reflexivity.
  - intros i date Hd Hc. rewrite list_lookup_imap, Hd. cbn [fmap option_fmap option_map].
    unfold Days.emoji_at. rewrite (lookup_ge_None_2 _ _ Hc). reflexivity.
Qed.

(** X5.  WeatherAppWithSuggestions shows the first seven dates at most: the
    number of cards is the smaller of 7 and the number of dates, and each
    card carries the icon of the code at its index, or the default icon when
    the codes stop short. *)
Theorem app_cards_at_most_seven (data : WeatherAppWithSuggestions.WeatherData) :
  let dates := WeatherAppWithSuggestions.time
                 (WeatherAppWithSuggestions.daily data) in
  let codes := WeatherAppWithSuggestions.daily_weather_code
                 (WeatherAppWithSuggestions.daily data) in
  length (Days.app_cards data) = Nat.min 7 (length dates) /\
  length (Days.app_cards data) <= 7 /\
  (forall i, 7 <= i -> Days.app_cards data !! i = None) /\
  (forall i date,
     i < 7 -> dates !! i = Some date ->
     Days.app_cards data !! i
     = Some {| Days.card_label := Days.Weekday date;
               Days.card_glyph :=
                 match codes !! i with
                 | Some code => getWeatherIcon code
                 | None => JS.lit "🌤️"
                 end |}).
Proof.
  cbv zeta. unfold Days.app_cards.
  assert (Hlen : length
                   (imap (fun i day =>
                            {| Days.card_label := Days.Weekday day;
                               Days.card_glyph :=
                                 Days.icon_at
                                   (WeatherAppWithSuggestions.daily_weather_code
                                      (WeatherAppWithSuggestions.daily data))
                                   i |})
                         (take 7 (WeatherAppWithSuggestions.time
                                    (WeatherAppWithSuggestions.daily data))))
                 = Nat.min 7 (length (WeatherAppWithSuggestions.time
                                        (WeatherAppWithSuggestions.daily data))))
    by (rewrite length_imap, length_take; reflexivity).
  split; [exact Hlen |]. split; [rewrite Hlen; lia |]. split.
  - intros i Hi. apply lookup_ge_None_2. rewrite Hlen. lia.
  - intros i date Hi Hd. rewrite list_lookup_imap, lookup_take_lt by exact Hi.
    rewrite Hd. cbn [fmap option_fmap option_map].
    unfold Days.icon_at.
    destruct (_ !! i); reflexivity.
Qed.

(** ** WeatherPage: what the search machinery leaves alone *)

Lemma page_effect_keeps (w : WeatherPage.world) :
  let w' := WeatherPage.search_effect w in
  (WeatherPage.query (WeatherPage.ui w') = WeatherPage.query (WeatherPage.ui w)
   /\ WeatherPage.loading (WeatherPage.ui w')
      = WeatherPage.loading (WeatherPage.ui w)
   /\ WeatherPage.weather (WeatherPage.ui w')
      = WeatherPage.weather (WeatherPage.ui w)
   /\ WeatherPage.selectedCity (WeatherPage.ui w')
      = WeatherPage.selectedCity (WeatherPage.ui w)
   /\ WeatherPage.error (WeatherPage.ui w')
      = WeatherPage.error (WeatherPage.ui w)
   /\ WeatherPage.geoLoading (WeatherPage.ui w')
      = WeatherPage.geoLoading (WeatherPage.ui w))
  /\
  (WeatherPage.next_call (WeatherPage.env w')
   = WeatherPage.next_call (WeatherPage.env w)
   /\ WeatherPage.forecasts (WeatherPage.env w')
      = WeatherPage.forecasts (WeatherPage.env w)
   /\ WeatherPage.forecast_log (WeatherPage.env w')
      = WeatherPage.forecast_log (WeatherPage.env w)
   /\ WeatherPage.positions (WeatherPage.env w')
      = WeatherPage.positions (WeatherPage.env w)
   /\ WeatherPage.lookups (WeatherPage.env w')
      = WeatherPage.lookups (WeatherPage.env w)).
Proof.
  open_page w. unfold WeatherPage.search_effect. page_simpl.
  destruct (JS.len uq <? 2); [| destruct udr];
    page_simpl; repeat split; reflexivity.
Qed.

Lemma page_callbacks_keep (due : list Timers.timer) (w : WeatherPage.world) :
  let w' := fold_left
              (fun w tm => WeatherPage.search_callback (Timers.captured tm) w)
              due w in
  (WeatherPage.showDropdown (WeatherPage.ui w')
   = WeatherPage.showDropdown (WeatherPage.ui w)
   /\ WeatherPage.loading (WeatherPage.ui w')
      = WeatherPage.loading (WeatherPage.ui w)
   /\ WeatherPage.weather (WeatherPage.ui w')
      = WeatherPage.weather (WeatherPage.ui w)
   /\ WeatherPage.selectedCity (WeatherPage.ui w')
      = WeatherPage.selectedCity (WeatherPage.ui w)
   /\ WeatherPage.geoLoading (WeatherPage.ui w')
      = WeatherPage.geoLoading (WeatherPage.ui w))
  /\
  (WeatherPage.forecasts (WeatherPage.env w')
   = WeatherPage.forecasts (WeatherPage.env w)
   /\ WeatherPage.forecast_log (WeatherPage.env w')
      = WeatherPage.forecast_log (WeatherPage.env w)
   /\ WeatherPage.positions (WeatherPage.env w')
      = WeatherPage.positions (WeatherPage.env w)
   /\ WeatherPage.lookups (WeatherPage.env w')
      = WeatherPage.lookups (WeatherPage.env w)).
Proof.
  revert w. induction due as [| tm due IH]; intros w; cbn [fold_left].
  - repeat split; reflexivity.
  - destruct (IH (WeatherPage.search_callback (Timers.captured tm) w))
      as ((E1 & E2 & E3 & E4 & E5) & (E6 & E7 & E8 & E9)).
    cbv zeta. rewrite E1, E2, E3, E4, E5, E6, E7, E8, E9.
    open_page w. unfold WeatherPage.search_callback. page_simpl.
    repeat split; reflexivity.
Qed.

Lemma page_advance_keeps (t : N) (w : WeatherPage.world) :
  let w' := WeatherPage.advance t w in
  (WeatherPage.showDropdown (WeatherPage.ui w')
   = WeatherPage.showDropdown (WeatherPage.ui w)
   /\ WeatherPage.loading (WeatherPage.ui w')
      = WeatherPage.loading (WeatherPage.ui w)
   /\ WeatherPage.weather (WeatherPage.ui w')
      = WeatherPage.weather (WeatherPage.ui w)
   /\ WeatherPage.selectedCity (WeatherPage.ui w')
      = WeatherPage.selectedCity (WeatherPage.ui w)
   /\ WeatherPage.geoLoading (WeatherPage.ui w')
      = WeatherPage.geoLoading (WeatherPage.ui w))
  /\
  (WeatherPage.forecasts (WeatherPage.env w')
   = WeatherPage.forecasts (WeatherPage.env w)
   /\ WeatherPage.forecast_log (WeatherPage.env w')
      = WeatherPage.forecast_log (WeatherPage.env w)
   /\ WeatherPage.positions (WeatherPage.env w')
      = WeatherPage.positions (WeatherPage.env w)
   /\ WeatherPage.lookups (WeatherPage.env w')
      = WeatherPage.lookups (WeatherPage.env w)).
Proof.
  unfold WeatherPage.advance, Timers.expire. cbv zeta.
  match goal with
  | |- context [fold_left _ ?due ?x] =>
      destruct (page_callbacks_keep due x)
        as ((E1 & E2 & E3 & E4 & E5) & (E6 & E7 & E8 & E9))
  end.
  cbv zeta in *. rewrite E1, E2, E3, E4, E5, E6, E7, E8, E9.
  open_page w. page_simpl. repeat split; reflexivity.
Qed.

(** A property kept by every step holds along every trace. *)
Lemma page_run_invariant (P : WeatherPage.world -> Prop) :
  (forall te w, P w -> P (WeatherPage.step te w)) ->
  forall evs w, P w -> P (WeatherPage.run evs w).
Proof.
  intros Hstep evs. unfold WeatherPage.run.
  induction evs as [| te evs IH]; intros w Hw; [exact Hw |].
  cbn [fold_left]. apply IH. apply Hstep. exact Hw.
Qed.

(** ** WeatherPage: the failures of the current-position path *)

(** X6.  Without [navigator.geolocation] the click only reports it: no position
    is asked for and no request of any kind is made. *)
Theorem geolocation_unsupported (w : WeatherPage.world) :
  WeatherPage.geoLoading (WeatherPage.ui w) = false ->
  let w' := WeatherPage.dispatch (WeatherPage.UseMyLocation false) w in
  WeatherPage.error (WeatherPage.ui w') = JS.lit "Geolocation not supported" /\
  WeatherPage.env w' = WeatherPage.env w /\
  WeatherPage.geoLoading (WeatherPage.ui w') = false /\
  WeatherPage.query (WeatherPage.ui w') = WeatherPage.query (WeatherPage.ui w)
  /\ WeatherPage.weather (WeatherPage.ui w')
     = WeatherPage.weather (WeatherPage.ui w).
Proof.
  intros Hg. open_page w. page_simpl. subst ugl.
  unfold WeatherPage.dispatch, WeatherPage.handle,
    WeatherPage.handleUseMyLocation.
  page_simpl. cbn [negb]. page_simpl. same_query.
  repeat split; reflexivity.
Qed.

Lemma geolocation_unsupported_witness :
  WeatherPage.error
    (WeatherPage.ui
       (WeatherPage.dispatch (WeatherPage.UseMyLocation false)
                             WeatherPage.initial))
  = JS.lit "Geolocation not supported".
Proof.
  refine (proj1 (geolocation_unsupported WeatherPage.initial _)).
  reflexivity.
Defined.

(** X7.  When the position is refused, the page says so with a message of its
    own, re-enables the button and makes no request: nothing is looked up,
    no forecast is fetched, the query and the snapshot stay. *)
Theorem position_refused (w : WeatherPage.world) (id : nat) :
  id ∈ WeatherPage.positions (WeatherPage.env w) ->
  let w' := WeatherPage.dispatch (WeatherPage.Position id None) w in
  WeatherPage.error (WeatherPage.ui w') = JS.lit "Location access denied" /\
  WeatherPage.error (WeatherPage.ui w') <> JS.lit "Failed to load weather data"
  /\ WeatherPage.error (WeatherPage.ui w') <> JS.lit "Location search failed"
  /\ WeatherPage.geoLoading (WeatherPage.ui w') = false /\
  WeatherPage.lookups (WeatherPage.env w')
    = WeatherPage.lookups (WeatherPage.env w) /\
  WeatherPage.forecasts (WeatherPage.env w')
    = WeatherPage.forecasts (WeatherPage.env w) /\
  WeatherPage.forecast_log (WeatherPage.env w')
    = WeatherPage.forecast_log (WeatherPage.env w) /\
  WeatherPage.search_log (WeatherPage.env w')
    = WeatherPage.search_log (WeatherPage.env w) /\
  WeatherPage.query (WeatherPage.ui w') = WeatherPage.query (WeatherPage.ui w)
  /\ WeatherPage.weather (WeatherPage.ui w')
     = WeatherPage.weather (WeatherPage.ui w).
Proof.
  intros Hid. open_page w.
  unfold WeatherPage.dispatch, WeatherPage.handle. page_simpl.
  rewrite (decide_True _ _ Hid).
  unfold WeatherPage.position_denied. page_simpl. same_query.
  repeat split; try reflexivity; intros E; vm_compute in E; discriminate E.
Qed.

Lemma position_refused_witness :
  WeatherPage.error
    (WeatherPage.ui
       (WeatherPage.dispatch (WeatherPage.Position 0 None) Samples2.asking))
  = JS.lit "Location access denied".
Proof.
  refine (proj1 (position_refused Samples2.asking 0 _)).
  vm_compute. set_solver.
Defined.

(** X8.  When the reverse lookup fails (transport error, non-success status,
    body that does not parse), the page reports it and re-enables the
    button; no forecast is fetched and the query and the snapshot stay. *)
Theorem lookup_failure (w : WeatherPage.world) (id : nat)
    (c : number * number) (r : response WeatherPage.Place) :
  WeatherPage.lookups (WeatherPage.env w) !! id = Some c ->
  WeatherPage.reverseGeocode r = Rejected ->
  let w' := WeatherPage.dispatch (WeatherPage.LookupResponse id r) w in
  WeatherPage.error (WeatherPage.ui w') = JS.lit "Could not detect city name"
  /\ WeatherPage.geoLoading (WeatherPage.ui w') = false /\
  WeatherPage.forecasts (WeatherPage.env w')
    = WeatherPage.forecasts (WeatherPage.env w) /\
  WeatherPage.forecast_log (WeatherPage.env w')
    = WeatherPage.forecast_log (WeatherPage.env w) /\
  WeatherPage.loading (WeatherPage.ui w')
    = WeatherPage.loading (WeatherPage.ui w) /\
  WeatherPage.query (WeatherPage.ui w') = WeatherPage.query (WeatherPage.ui w)
  /\ WeatherPage.weather (WeatherPage.ui w')
     = WeatherPage.weather (WeatherPage.ui w).
Proof.
  intros Hc Hr. open_page w. destruct c as [latitude longitude].
  unfold WeatherPage.dispatch, WeatherPage.handle. page_simpl. rewrite Hc.
  unfold WeatherPage.lookup_settled. rewrite Hr. page_simpl. same_query.
  repeat split; reflexivity.
Qed.

Lemma lookup_failure_witness :
  WeatherPage.error
    (WeatherPage.ui
       (WeatherPage.dispatch
          (WeatherPage.LookupResponse 1 (Http false None))
          Samples2.looking_up))
  = JS.lit "Could not detect city name".
Proof.
  refine (proj1 (lookup_failure Samples2.looking_up 1
                   (Num (JS.lit "48.8566"), Num (JS.lit "2.3522"))
                   (Http false None) _ _));
    vm_compute; reflexivity.
Defined.

(** ** WeatherPage: the button and the requests it starts *)

Lemma locating_ext (w w' : WeatherPage.world) :
  WeatherPage.geoLoading (WeatherPage.ui w')
    = WeatherPage.geoLoading (WeatherPage.ui w) ->
  WeatherPage.positions (WeatherPage.env w')
    = WeatherPage.positions (WeatherPage.env w) ->
  WeatherPage.lookups (WeatherPage.env w')
    = WeatherPage.lookups (WeatherPage.env w) ->
  Inv.locating w -> Inv.locating w'.
Proof.
  unfold Inv.locating. cbv zeta. intros E1 E2 E3. rewrite E1, E2, E3. tauto.
Qed.

Lemma page_handle_locating (e : WeatherPage.event) (w : WeatherPage.world) :
  Inv.locating w -> Inv.locating (WeatherPage.handle e w).
Proof.
  intros Hw.
  destruct e as [text | | | loc | supported | id r | id r | id coords | id r];
    unfold WeatherPage.handle.
  - apply (locating_ext w); [reflexivity .. | exact Hw].
  - destruct (0 <? _); [| exact Hw].
    apply (locating_ext w); [reflexivity .. | exact Hw].
  - apply (locating_ext w); [reflexivity .. | exact Hw].
  - apply (locating_ext w); [reflexivity .. | exact Hw].
  - destruct (WeatherPage.geoLoading (WeatherPage.ui w)) eqn:Eg; [exact Hw |].
    destruct supported; unfold WeatherPage.handleUseMyLocation; cbn [negb].
    + destruct Hw as [(_ & Hp & Hl) | (Ht & _)]; [| congruence].
      open_page w. page_simpl. subst hps hls. right. page_simpl.
      split; [reflexivity |]. left. exists hnc.
      split; [apply union_empty_r_L | reflexivity].
    + apply (locating_ext w); [reflexivity .. | exact Hw].
  - destruct (WeatherPage.searches (WeatherPage.env w) !! id); [| exact Hw].
    unfold WeatherPage.search_settled.
    destruct (WeatherPage.searchLocations r);
      (apply (locating_ext w); [reflexivity .. | exact Hw]).
  - destruct (WeatherPage.forecasts (WeatherPage.env w) !! id); [| exact Hw].
    unfold WeatherPage.forecast_settled, WeatherPage.getWeather.
    apply (locating_ext w); [reflexivity .. | exact Hw].
  - destruct (decide _) as [Hin | _]; [| exact Hw].
    destruct Hw as [(_ & Hp & _) | (Ht & [(id' & Hp & Hl) | (Hp & _)])].
    + rewrite Hp in Hin. set_solver.
    + rewrite Hp in Hin. apply elem_of_singleton in Hin. subst id'.
      open_page w. page_simpl. subst ugl hps hls.
      destruct coords as [[latitude longitude] |].
      * right. unfold WeatherPage.position_granted. page_simpl.
        split; [reflexivity |]. right.
        split; [apply difference_diag_L |].
        exists hnc, (latitude, longitude). apply insert_empty.
      * left. unfold WeatherPage.position_denied. page_simpl.
        split; [reflexivity |]. split; [apply difference_diag_L | reflexivity].
    + rewrite Hp in Hin. set_solver.
  - destruct (WeatherPage.lookups (WeatherPage.env w) !! id)
      as [[latitude longitude] |] eqn:El; [| exact Hw].
    destruct Hw as [(_ & _ & Hl) | (Ht & [(id' & _ & Hl) | (Hp & id' & c & Hl)])].
    + rewrite Hl, lookup_empty in El. discriminate El.
    + rewrite Hl, lookup_empty in El. discriminate El.
    + rewrite Hl in El. apply lookup_singleton_Some in El as [-> _].
      open_page w. page_simpl. subst ugl hps hls. left.
      unfold WeatherPage.lookup_settled, WeatherPage.fetchWeatherData.
      destruct (WeatherPage.reverseGeocode r); page_simpl;
        (split; [reflexivity |]; split; [reflexivity |];
         apply delete_singleton_eq).
Qed.

Lemma page_step_locating (te : N * WeatherPage.event) (w : WeatherPage.world) :
  Inv.locating w -> Inv.locating (WeatherPage.step te w).
Proof.
  intros Hw. unfold WeatherPage.step, WeatherPage.dispatch.
  destruct (page_advance_keeps (fst te) w) as ((_ & _ & _ & _ & Eg) & (_ & _ & Ep & El)).
  assert (Ha : Inv.locating (WeatherPage.advance (fst te) w))
    by (apply (locating_ext w); assumption).
  apply (page_handle_locating (snd te)) in Ha.
  destruct (decide _); [exact Ha |].
  destruct (page_effect_keeps
              (WeatherPage.handle (snd te) (WeatherPage.advance (fst te) w)))
    as ((_ & _ & _ & _ & _ & Eg') & (_ & _ & _ & Ep' & El')).
  apply (locating_ext _ _ Eg' Ep' El'). exact Ha.
Qed.

(** X9.  In every state the page can reach, the location button is disabled
    exactly while a position request or a reverse lookup is awaited, and
    never more than one of the two is awaited. *)
Theorem button_tracks_requests (evs : list (N * WeatherPage.event)) :
  Inv.locating (WeatherPage.run evs WeatherPage.initial).
Proof.
  apply page_run_invariant; [apply page_step_locating |].
  left. repeat split; reflexivity.
Qed.

(** ** WeatherPage: the snapshot *)

Lemma page_handle_weather (e : WeatherPage.event) (w : WeatherPage.world) :
  is_Some (WeatherPage.weather (WeatherPage.ui w)) ->
  is_Some (WeatherPage.weather (WeatherPage.ui (WeatherPage.handle e w))).
Proof.
  intros Hw.
  destruct e as [text | | | loc | supported | id r | id r | id coords | id r];
    unfold WeatherPage.handle.
  - exact Hw.
  - destruct (0 <? _); exact Hw.
  - exact Hw.
  - exact Hw.
  - destruct (WeatherPage.geoLoading _); [exact Hw |].
    unfold WeatherPage.handleUseMyLocation.
    destruct (negb supported); exact Hw.
  - destruct (_ !! id); [| exact Hw].
    unfold WeatherPage.search_settled.
    destruct (WeatherPage.searchLocations r); exact Hw.
  - destruct (_ !! id); [| exact Hw].
    unfold WeatherPage.forecast_settled, WeatherPage.getWeather. exact Hw.
  - destruct (decide _); [| exact Hw].
    destruct coords as [[latitude longitude] |]; exact Hw.
  - destruct (_ !! id) as [[latitude longitude] |]; [| exact Hw].
    unfold WeatherPage.lookup_settled.
    destruct (WeatherPage.reverseGeocode r); exact Hw.
Qed.



Lemma page_handle_same_weather (e : WeatherPage.event) (w : WeatherPage.world) :
  WeatherPage.weather (WeatherPage.ui (WeatherPage.handle e w))
  = WeatherPage.weather (WeatherPage.ui w).
Proof.
  destruct e as [text | | | loc | supported | id r | id r | id coords | id r];
    unfold WeatherPage.handle.
  - reflexivity.
  - destruct (0 <? _); reflexivity.
  - reflexivity.
  - reflexivity.
  - destruct (WeatherPage.geoLoading _); [reflexivity |].
    unfold WeatherPage.handleUseMyLocation.
    destruct (negb supported); reflexivity.
  - destruct (_ !! id); [| reflexivity].
    unfold WeatherPage.search_settled.
    destruct (WeatherPage.searchLocations r); reflexivity.
  - destruct (_ !! id); [| reflexivity].
    unfold WeatherPage.forecast_settled, WeatherPage.getWeather. reflexivity.
  - destruct (decide _); [| reflexivity].
    destruct coords as [[latitude longitude] |]; reflexivity.
  - destruct (_ !! id) as [[latitude longitude] |]; [| reflexivity].
    unfold WeatherPage.lookup_settled.
    destruct (WeatherPage.reverseGeocode r); reflexivity.
Qed.

Lemma page_step_same_weather (te : N * WeatherPage.event)
    (w : WeatherPage.world) :
  WeatherPage.weather (WeatherPage.ui (WeatherPage.step te w))
  = WeatherPage.weather (WeatherPage.ui w).
Proof.
  unfold WeatherPage.step, WeatherPage.dispatch.
  destruct (page_advance_keeps (fst te) w) as ((_ & _ & Ew & _) & _).
  destruct (decide _).
  - rewrite page_handle_same_weather. exact Ew.
  - destruct (page_effect_keeps
                (WeatherPage.handle (snd te) (WeatherPage.advance (fst te) w)))
      as ((_ & _ & Ew' & _) & _).
    rewrite Ew', page_handle_same_weather. exact Ew.
Qed.

(** X11.  As the source stands, [getWeather] rejects every call, so no event
    ever changes the snapshot of WeatherPage: started from its initial
    state the page never renders a weather section, and whatever answers a
    forecast fetch, what the page shows for it is the message "Failed to
    load weather data". *)
Theorem forecast_never_shown :
  (forall (w : WeatherPage.world) (evs : list (N * WeatherPage.event)),
     WeatherPage.weather (WeatherPage.ui (WeatherPage.run evs w))
     = WeatherPage.weather (WeatherPage.ui w))
  /\
  (forall evs : list (N * WeatherPage.event),
     WeatherPage.weather_section
       (WeatherPage.render
          (WeatherPage.ui (WeatherPage.run evs WeatherPage.initial)))
     = None)
  /\
  (forall (w : WeatherPage.world) (id : nat) (c : WeatherPage.forecast_call)
          (r : response WeatherPage.WeatherData),
     WeatherPage.forecasts (WeatherPage.env w) !! id = Some c ->
     let s' := WeatherPage.ui (WeatherPage.dispatch
                                 (WeatherPage.ForecastResponse id r) w) in
     WeatherPage.error_box (WeatherPage.render s')
       = Some (JS.lit "Failed to load weather data") /\
     WeatherPage.loading_spinner (WeatherPage.render s') = false).
Proof.
  assert (Hrun : forall (w : WeatherPage.world) evs,
             WeatherPage.weather (WeatherPage.ui (WeatherPage.run evs w))
             = WeatherPage.weather (WeatherPage.ui w)).
  { intros w evs. revert w. unfold WeatherPage.run.
    induction evs as [| te evs IH]; intros w; [reflexivity |].
    cbn [fold_left]. rewrite IH. apply page_step_same_weather. }
  split; [exact Hrun |]. split.
  - intros evs. unfold WeatherPage.render. cbn [WeatherPage.weather_section].
    rewrite Hrun. reflexivity.
  - intros w id c r Hc s'. subst s'. open_page w.
    unfold WeatherPage.dispatch, WeatherPage.handle.
    page_simpl. rewrite Hc.
    unfold WeatherPage.forecast_settled, WeatherPage.getWeather.
    page_simpl. same_query. unfold WeatherPage.render. page_simpl.
    split; reflexivity.
Qed.

Lemma forecast_never_shown_witness :
  WeatherPage.error_box
    (WeatherPage.render
       (WeatherPage.ui
          (WeatherPage.dispatch
             (WeatherPage.ForecastResponse 2 (Http true (Some Samples.mild)))
             Samples.refetching)))
  = Some (JS.lit "Failed to load weather data").
Proof.
  refine (proj1 (proj2 (proj2 forecast_never_shown) Samples.refetching 2
                   {| WeatherPage.fc_lat := JS.lit "51.5074";
                      WeatherPage.fc_lon := JS.lit "-0.1278";
                      WeatherPage.fc_cityName :=
                        JS.lit "London, England, United Kingdom" |}
                   (Http true (Some Samples.mild)) _)).
  vm_compute. reflexivity.
Defined.

(** ** The dropdown *)

(** X13.  A mousedown outside closes the dropdown and a focus brings back the very
    entries that were shown, in either component: closing forgets nothing. *)
Theorem dropdown_closed_and_restored :
  (forall (w : WeatherPage.world) (l : list WeatherPage.entry),
     WeatherPage.dropdown (WeatherPage.render (WeatherPage.ui w)) = Some l ->
     let w1 := WeatherPage.dispatch WeatherPage.MouseDownOutside w in
     let w2 := WeatherPage.dispatch WeatherPage.Focus w1 in
     WeatherPage.dropdown (WeatherPage.render (WeatherPage.ui w1)) = None /\
     WeatherPage.dropdown (WeatherPage.render (WeatherPage.ui w2)) = Some l)
  /\
  (forall (w : WeatherAppWithSuggestions.world)
          (l : list WeatherAppWithSuggestions.entry),
     WeatherAppWithSuggestions.dropdown
       (WeatherAppWithSuggestions.render (WeatherAppWithSuggestions.ui w))
     = Some l ->
     let w1 := WeatherAppWithSuggestions.dispatch
                 WeatherAppWithSuggestions.MouseDownOutside w in
     let w2 := WeatherAppWithSuggestions.dispatch
                 WeatherAppWithSuggestions.Focus w1 in
     WeatherAppWithSuggestions.dropdown
       (WeatherAppWithSuggestions.render (WeatherAppWithSuggestions.ui w1))
     = None /\
     WeatherAppWithSuggestions.dropdown
       (WeatherAppWithSuggestions.render (WeatherAppWithSuggestions.ui w2))
     = Some l).
Proof.
  split.
  - intros w l Hl w1 w2.
    assert (E1 : w1 = WeatherPage.setShowDropdown false w).
    { subst w1. open_page w. unfold WeatherPage.dispatch, WeatherPage.handle.
      page_simpl. same_query. reflexivity. }
    subst w2. rewrite E1. clear E1 w1. open_page w.
    unfold WeatherPage.render in Hl. page_simpl.
    destruct usd; [| discriminate Hl].
    destruct (0 <? length usg) eqn:En; [| discriminate Hl].
    cbn [andb] in Hl.
    unfold WeatherPage.dispatch, WeatherPage.handle. page_simpl. rewrite En.
    page_simpl. same_query. unfold WeatherPage.render. page_simpl.
    rewrite En. cbn [andb]. split; [reflexivity | exact Hl].
  - intros w l Hl w1 w2.
    assert (E1 : w1 = WeatherAppWithSuggestions.setShowSuggestions false w).
    { subst w1. open_app w.
      unfold WeatherAppWithSuggestions.dispatch,
        WeatherAppWithSuggestions.handle.
      app_simpl. same_query. reflexivity. }
    subst w2. rewrite E1. clear E1 w1. open_app w.
    unfold WeatherAppWithSuggestions.render in Hl. app_simpl.
    destruct usd; [| discriminate Hl].
    destruct (0 <? length usg) eqn:En; [| discriminate Hl].
    cbn [andb] in Hl.
    unfold WeatherAppWithSuggestions.dispatch,
      WeatherAppWithSuggestions.handle. app_simpl. rewrite En.
    app_simpl. same_query. unfold WeatherAppWithSuggestions.render.
    app_simpl. rewrite En. cbn [andb]. split; [reflexivity | exact Hl].
Qed.

Lemma dropdown_closed_and_restored_witness :
  WeatherPage.dropdown
    (WeatherPage.render
       (WeatherPage.ui
          (WeatherPage.dispatch WeatherPage.Focus
             (WeatherPage.dispatch WeatherPage.MouseDownOutside
                                   Samples.berlin_listed))))
  = Some [WeatherPage.render_entry Samples.berlin].
Proof.
  refine (proj2 (proj1 dropdown_closed_and_restored Samples.berlin_listed
                   [WeatherPage.render_entry Samples.berlin] _)).
  vm_compute. reflexivity.
Defined.

(** X14.  An answer with suggestions opens the dropdown with one entry per
    suggestion, in the order of the answer; an answer without any shows no
    dropdown and reports no error, in either component. *)
Theorem answer_shown :
  (forall (w : WeatherPage.world) (id : nat) (q : JS.str)
          (l : list WeatherPage.LocationSuggestion),
     WeatherPage.searches (WeatherPage.env w) !! id = Some q ->
     let w' := WeatherPage.dispatch
                 (WeatherPage.SearchResponse id (Http true (Some l))) w in
     WeatherPage.dropdown (WeatherPage.render (WeatherPage.ui w'))
       = match l with
         | [] => None
         | _ :: _ => Some (map WeatherPage.render_entry l)
         end /\
     WeatherPage.error (WeatherPage.ui w') = WeatherPage.error (WeatherPage.ui w)
     /\ WeatherPage.search_spinner (WeatherPage.render (WeatherPage.ui w'))
        = false)
  /\
  (forall (w : WeatherAppWithSuggestions.world) (id : nat) (q : JS.str)
          (ok : bool) (l : list WeatherAppWithSuggestions.Location),
     WeatherAppWithSuggestions.searches (WeatherAppWithSuggestions.env w) !! id
       = Some q ->
     let w' := WeatherAppWithSuggestions.dispatch
                 (WeatherAppWithSuggestions.SearchResponse id
                    (Http ok (Some l))) w in
     WeatherAppWithSuggestions.dropdown
       (WeatherAppWithSuggestions.render (WeatherAppWithSuggestions.ui w'))
       = match l with
         | [] => None
         | _ :: _ =>
             Some (map (fun loc =>
                          {| WeatherAppWithSuggestions.entry_title :=
                               WeatherAppWithSuggestions.formatDisplayName loc;
                             WeatherAppWithSuggestions.entry_loc := loc |}) l)
         end /\
     WeatherAppWithSuggestions.console (WeatherAppWithSuggestions.env w')
       = WeatherAppWithSuggestions.console (WeatherAppWithSuggestions.env w)).
Proof.
  split.
  - intros w id q l Hq w'. subst w'.
    rewrite (page_search_answer w id q l Hq). open_page w.
    unfold WeatherPage.render. page_simpl.
    destruct l; repeat split; reflexivity.
  - intros w id q ok l Hq w'. subst w'.
    rewrite (app_search_answer w id q ok l Hq). open_app w.
    unfold WeatherAppWithSuggestions.render. app_simpl.
    destruct l; repeat split; reflexivity.
Qed.

Lemma answer_shown_witness :
  WeatherPage.dropdown
    (WeatherPage.render
       (WeatherPage.ui
          (WeatherPage.dispatch
             (WeatherPage.SearchResponse 1 (Http true (Some [])))
             Samples.berlin_listed)))
  = None.
Proof.
  refine (proj1 (proj1 answer_shown Samples.berlin_listed 1 (JS.lit "Berl")
                   [] _)).
  vm_compute. reflexivity.
Defined.

(** ** Debouncing along every trace *)

Lemma page_effect_arms (w : WeatherPage.world) :
  PageDebounce.tidy w -> 2 <= JS.len (PageDebounce.query w) ->
  PageDebounce.armed (Timers.clock (PageDebounce.tq w)) (PageDebounce.query w)
                     (WeatherPage.search_effect w).
Proof.
  unfold PageDebounce.tidy, PageDebounce.armed, Debounce.tidy, Debounce.armed,
    PageDebounce.ref, PageDebounce.tq, PageDebounce.query.
  open_page w. unfold WeatherPage.search_effect. page_simpl.
  intros Hw Hlen. apply Nat.ltb_ge in Hlen. rewrite Hlen.
  assert (Hp : Timers.pending
                 (match udr with
                  | Some id => Timers.clearTimeout id htq
                  | None => htq
                  end) = []).
  { destruct udr as [id |]; [apply clear_all; exact Hw |].
    destruct (Timers.pending htq) as [| tm l]; [reflexivity |].
    specialize (Hw tm (or_introl eq_refl)). discriminate Hw. }
  destruct udr as [id |]; unfold Timers.setTimeout; page_simpl;
    rewrite Hp; (split; [reflexivity |]); (split; [reflexivity |]);
    eexists; split; reflexivity.
Qed.

Lemma app_effect_arms (w : WeatherAppWithSuggestions.world) :
  AppDebounce.tidy w -> 2 <= JS.len (AppDebounce.query w) ->
  AppDebounce.armed (Timers.clock (AppDebounce.tq w)) (AppDebounce.query w)
                    (WeatherAppWithSuggestions.search_effect w).
Proof.
  unfold AppDebounce.tidy, AppDebounce.armed, Debounce.tidy, Debounce.armed,
    AppDebounce.ref, AppDebounce.tq, AppDebounce.query.
  open_app w. unfold WeatherAppWithSuggestions.search_effect. app_simpl.
  intros Hw Hlen. apply Nat.ltb_ge in Hlen. rewrite Hlen.
  assert (Hp : Timers.pending
                 (match udr with
                  | Some id => Timers.clearTimeout id htq
                  | None => htq
                  end) = []).
  { destruct udr as [id |]; [apply clear_all; exact Hw |].
    destruct (Timers.pending htq) as [| tm l]; [reflexivity |].
    specialize (Hw tm (or_introl eq_refl)). discriminate Hw. }
  destruct udr as [id |]; unfold Timers.setTimeout; app_simpl;
    rewrite Hp; (split; [reflexivity |]); (split; [reflexivity |]);
    eexists; split; reflexivity.
Qed.

(** No handler issues a search: only an expired timeout does. *)
Lemma page_handle_log (e : WeatherPage.event) (w : WeatherPage.world) :
  WeatherPage.search_log (WeatherPage.env (WeatherPage.handle e w))
  = WeatherPage.search_log (WeatherPage.env w).
Proof.
  open_page w.
  destruct e; unfold WeatherPage.handle, WeatherPage.handleSelect,
    WeatherPage.handleUseMyLocation, WeatherPage.search_settled,
    WeatherPage.forecast_settled, WeatherPage.getWeather,
    WeatherPage.position_granted,
    WeatherPage.position_denied, WeatherPage.lookup_settled,
    WeatherPage.fetchWeatherData;
    page_simpl;
    repeat match goal with
           | |- context [match ?x with _ => _ end] => destruct x; page_simpl
           end;
    reflexivity.
Qed.

Lemma app_handle_log (e : WeatherAppWithSuggestions.event)
    (w : WeatherAppWithSuggestions.world) :
  WeatherAppWithSuggestions.search_log
    (WeatherAppWithSuggestions.env (WeatherAppWithSuggestions.handle e w))
  = WeatherAppWithSuggestions.search_log (WeatherAppWithSuggestions.env w).
Proof.
  open_app w.
  destruct e; unfold WeatherAppWithSuggestions.handle,
    WeatherAppWithSuggestions.fetchWeather,
    WeatherAppWithSuggestions.search_settled,
    WeatherAppWithSuggestions.forecast_settled;
    app_simpl;
    repeat match goal with
           | |- context [match ?x with _ => _ end] => destruct x; app_simpl
           end;
    reflexivity.
Qed.

Lemma queue_ok_expire (sent : JS.str -> bool) (ref : option N)
    (log : list JS.str) (h : Timers.queue) (t : N) :
  Inv.queue_ok ref log h ->
  Inv.queue_ok ref
    (log ++ List.filter sent (map Timers.captured (fst (Timers.expire t h))))
    (snd (Timers.expire t h)).
Proof.
  intros (Hr & Hn & Hp & Hl). unfold Timers.expire.
  cbn [fst snd Timers.pending].
  rewrite List.Forall_forall in Hp.
  split; [| split; [| split]].
  - intros tm Hin. apply filter_In in Hin. apply Hr. tauto.
  - etransitivity; [apply List.filter_length_le | exact Hn].
  - apply List.Forall_forall. intros tm Hin. apply filter_In in Hin.
    apply Hp. tauto.
  - apply List.Forall_app. split; [exact Hl |].
    apply List.Forall_forall. intros q Hin. apply filter_In in Hin.
    destruct Hin as [Hin _]. apply in_map_iff in Hin.
    destruct Hin as (tm & <- & Hin). apply filter_In in Hin. apply Hp. tauto.
Qed.

Lemma queue_ok_armed (ref : option N) (log : list JS.str) (h : Timers.queue)
    (id d : N) (q : JS.str) :
  Timers.pending h = [Timers.Timer id d q] -> ref = Some id ->
  2 <= JS.len q -> Forall (fun q => 2 <= JS.len q) log ->
  Inv.queue_ok ref log h.
Proof.
  intros Hp Hr Hq Hl. unfold Inv.queue_ok. rewrite Hp.
  split; [| split; [| split]].
  - intros tm [<- | []]. exact Hr.
  - cbn. lia.
  - repeat constructor. exact Hq.
  - exact Hl.
Qed.

Lemma page_step_queue (te : N * WeatherPage.event) (w : WeatherPage.world) :
  Inv.queue_ok (PageDebounce.ref w)
               (WeatherPage.search_log (WeatherPage.env w)) (PageDebounce.tq w)
  -> let w' := WeatherPage.step te w in
     Inv.queue_ok (PageDebounce.ref w')
                  (WeatherPage.search_log (WeatherPage.env w'))
                  (PageDebounce.tq w').
Proof.
  intros Hw. cbv zeta. unfold WeatherPage.step, WeatherPage.dispatch.
  set (wa := WeatherPage.advance (fst te) w).
  assert (Ha : Inv.queue_ok (PageDebounce.ref wa)
                 (WeatherPage.search_log (WeatherPage.env wa))
                 (PageDebounce.tq wa)).
  { subst wa. destruct (page_advance_spec (fst te) w) as (_ & Er & Et & El).
    rewrite Er, Et, El. apply queue_ok_expire. exact Hw. }
  set (wh := WeatherPage.handle (snd te) wa).
  assert (Hh : Inv.queue_ok (PageDebounce.ref wh)
                 (WeatherPage.search_log (WeatherPage.env wh))
                 (PageDebounce.tq wh)).
  { subst wh. destruct (page_handle_frame (snd te) wa) as [Er Et].
    rewrite Er, Et, page_handle_log. exact Ha. }
  destruct (decide _); [exact Hh |].
  destruct (page_effect_frame wh) as (_ & _ & _ & _ & El & _).
  destruct (Nat.ltb_spec (JS.len (PageDebounce.query wh)) 2) as [Hs | Hlong].
  - assert (E : WeatherPage.search_effect wh
                = WeatherPage.setShowDropdown false
                    (WeatherPage.setSuggestions [] wh)).
    { unfold WeatherPage.search_effect. apply Nat.ltb_lt in Hs.
      unfold PageDebounce.query in Hs. rewrite Hs. reflexivity. }
    rewrite E. exact Hh.
  - destruct (page_effect_arms wh) as (_ & _ & id & Hp & Hr);
      [exact (proj1 Hh) | exact Hlong |].
    rewrite El.
    exact (queue_ok_armed _ _ _ _ _ _ Hp Hr Hlong (proj2 (proj2 (proj2 Hh)))).
Qed.

Lemma app_step_queue (te : N * WeatherAppWithSuggestions.event)
    (w : WeatherAppWithSuggestions.world) :
  Inv.queue_ok (AppDebounce.ref w)
               (WeatherAppWithSuggestions.search_log
                  (WeatherAppWithSuggestions.env w)) (AppDebounce.tq w)
  -> let w' := WeatherAppWithSuggestions.step te w in
     Inv.queue_ok (AppDebounce.ref w')
                  (WeatherAppWithSuggestions.search_log
                     (WeatherAppWithSuggestions.env w'))
                  (AppDebounce.tq w').
Proof.
  intros Hw. cbv zeta.
  unfold WeatherAppWithSuggestions.step, WeatherAppWithSuggestions.dispatch.
  set (wa := WeatherAppWithSuggestions.advance (fst te) w).
  assert (Ha : Inv.queue_ok (AppDebounce.ref wa)
                 (WeatherAppWithSuggestions.search_log
                    (WeatherAppWithSuggestions.env wa))
                 (AppDebounce.tq wa)).
  { subst wa. destruct (app_advance_spec (fst te) w) as (_ & Er & Et & El).
    rewrite Er, Et, El. apply queue_ok_expire. exact Hw. }
  set (wh := WeatherAppWithSuggestions.handle (snd te) wa).
  assert (Hh : Inv.queue_ok (AppDebounce.ref wh)
                 (WeatherAppWithSuggestions.search_log
                    (WeatherAppWithSuggestions.env wh))
                 (AppDebounce.tq wh)).
  { subst wh. destruct (app_handle_frame (snd te) wa) as [Er Et].
    rewrite Er, Et, app_handle_log. exact Ha. }
  destruct (decide _); [exact Hh |].
  destruct (app_effect_frame wh) as (_ & El & _).
  destruct (Nat.ltb_spec (JS.len (AppDebounce.query wh)) 2) as [Hs | Hlong].
  - assert (E : WeatherAppWithSuggestions.search_effect wh
                = WeatherAppWithSuggestions.setShowSuggestions false
                    (WeatherAppWithSuggestions.setSuggestions [] wh)).
    { unfold WeatherAppWithSuggestions.search_effect. apply Nat.ltb_lt in Hs.
      unfold AppDebounce.query in Hs. rewrite Hs. reflexivity. }
    rewrite E. exact Hh.
  - destruct (app_effect_arms wh) as (_ & _ & id & Hp & Hr);
      [exact (proj1 Hh) | exact Hlong |].
    rewrite El.
    exact (queue_ok_armed _ _ _ _ _ _ Hp Hr Hlong (proj2 (proj2 (proj2 Hh)))).
Qed.

Lemma app_run_invariant (P : WeatherAppWithSuggestions.world -> Prop) :
  (forall te w, P w -> P (WeatherAppWithSuggestions.step te w)) ->
  forall evs w, P w -> P (WeatherAppWithSuggestions.run evs w).
Proof.
  intros Hstep evs. unfold WeatherAppWithSuggestions.run.
  induction evs as [| te evs IH]; intros w Hw; [exact Hw |].
  cbn [fold_left]. apply IH. apply Hstep. exact Hw.
Qed.

Lemma page_reachable_queue (evs : list (N * WeatherPage.event)) :
  let w := WeatherPage.run evs WeatherPage.initial in
  Inv.queue_ok (PageDebounce.ref w)
               (WeatherPage.search_log (WeatherPage.env w)) (PageDebounce.tq w).
Proof.
  cbv zeta.
  apply (page_run_invariant
           (fun w => Inv.queue_ok (PageDebounce.ref w)
                       (WeatherPage.search_log (WeatherPage.env w))
                       (PageDebounce.tq w))).
  - intros te w. apply page_step_queue.
  - split; [intros tm [] |]. split; [cbn; lia |]. split; constructor.
Qed.

Lemma app_reachable_queue (evs : list (N * WeatherAppWithSuggestions.event)) :
  let w := WeatherAppWithSuggestions.run evs
             WeatherAppWithSuggestions.initial in
  Inv.queue_ok (AppDebounce.ref w)
               (WeatherAppWithSuggestions.search_log
                  (WeatherAppWithSuggestions.env w)) (AppDebounce.tq w).
Proof.
  cbv zeta.
  apply (app_run_invariant
           (fun w => Inv.queue_ok (AppDebounce.ref w)
                       (WeatherAppWithSuggestions.search_log
                          (WeatherAppWithSuggestions.env w))
                       (AppDebounce.tq w))).
  - intros te w. apply app_step_queue.
  - split; [intros tm [] |]. split; [cbn; lia |]. split; constructor.
Qed.

(** X15.  Whatever the user does and whatever answers arrive, neither component
    ever issues a search for a text of fewer than two code units. *)
Theorem no_search_below_threshold :
  (forall evs : list (N * WeatherPage.event),
     Forall (fun q => 2 <= JS.len q)
            (WeatherPage.search_log
               (WeatherPage.env (WeatherPage.run evs WeatherPage.initial))))
  /\
  (forall evs : list (N * WeatherAppWithSuggestions.event),
     Forall (fun q => 2 <= JS.len q)
            (WeatherAppWithSuggestions.search_log
               (WeatherAppWithSuggestions.env
                  (WeatherAppWithSuggestions.run evs
                     WeatherAppWithSuggestions.initial)))).
Proof.
  split; intros evs.
  - exact (proj2 (proj2 (proj2 (page_reachable_queue evs)))).
  - exact (proj2 (proj2 (proj2 (app_reachable_queue evs)))).
Qed.

(** X16.  Whatever the user does, at most one search is scheduled at any time in
    either component, and the debounce ref holds its handle. *)
Theorem one_search_scheduled :
  (forall evs : list (N * WeatherPage.event),
     let w := WeatherPage.run evs WeatherPage.initial in
     length (Timers.pending (WeatherPage.timers (WeatherPage.env w))) <= 1 /\
     forall tm,
       In tm (Timers.pending (WeatherPage.timers (WeatherPage.env w))) ->
       WeatherPage.debounceRef (WeatherPage.ui w) = Some (Timers.tid tm))
  /\
  (forall evs : list (N * WeatherAppWithSuggestions.event),
     let w := WeatherAppWithSuggestions.run evs
                WeatherAppWithSuggestions.initial in
     length (Timers.pending
               (WeatherAppWithSuggestions.timers
                  (WeatherAppWithSuggestions.env w))) <= 1 /\
     forall tm,
       In tm (Timers.pending
                (WeatherAppWithSuggestions.timers
                   (WeatherAppWithSuggestions.env w))) ->
       WeatherAppWithSuggestions.debounceTimer (WeatherAppWithSuggestions.ui w)
       = Some (Timers.tid tm)).
Proof.
  split; intros evs.
  - destruct (page_reachable_queue evs) as (Hr & Hn & _). split; assumption.
  - destruct (app_reachable_queue evs) as (Hr & Hn & _). split; assumption.
Qed.

(** ** A short update does not cancel a scheduled search *)

Lemma expire_early (h : Timers.queue) (id d : N) (x : JS.str) (t : N) :
  Timers.pending h = [Timers.Timer id d x] -> (t < d)%N ->
  fst (Timers.expire t h) = [] /\
  Timers.pending (snd (Timers.expire t h)) = [Timers.Timer id d x].
Proof.
  intros Hp Ht. unfold Timers.expire. cbn [fst snd Timers.pending].
  rewrite Hp. cbn [List.filter]. unfold Timers.is_due. cbn [Timers.deadline].
  replace (d <=? t)%N with false by (symmetry; apply N.leb_gt; lia).
  split; reflexivity.
Qed.

Lemma expire_late (h : Timers.queue) (id d : N) (x : JS.str) (t : N) :
  Timers.pending h = [Timers.Timer id d x] -> (d <= t)%N ->
  map Timers.captured (fst (Timers.expire t h)) = [x] /\
  Timers.pending (snd (Timers.expire t h)) = [].
Proof.
  intros Hp Ht. unfold Timers.expire. cbn [fst snd Timers.pending].
  rewrite Hp. cbn [List.filter]. unfold Timers.is_due. cbn [Timers.deadline].
  replace (d <=? t)%N with true by (symmetry; apply N.leb_le; lia).
  split; reflexivity.
Qed.

Lemma page_short_change (w : WeatherPage.world) (text : JS.str) :
  JS.len text < 2 -> text <> WeatherPage.query (WeatherPage.ui w) ->
  WeatherPage.dispatch (WeatherPage.Change text) w
  = WeatherPage.setShowDropdown false
      (WeatherPage.setSuggestions [] (WeatherPage.setQuery text w)).
Proof.
  intros Hlen Hne. open_page w.
  unfold WeatherPage.dispatch, WeatherPage.handle. page_simpl.
  destruct (decide (text = uq)) as [E | _]; [contradiction |].
  unfold WeatherPage.search_effect. page_simpl.
  apply Nat.ltb_lt in Hlen. rewrite Hlen. reflexivity.
Qed.

Lemma app_short_change (w : WeatherAppWithSuggestions.world) (text : JS.str) :
  JS.len text < 2 ->
  text <> WeatherAppWithSuggestions.query (WeatherAppWithSuggestions.ui w) ->
  WeatherAppWithSuggestions.dispatch (WeatherAppWithSuggestions.Change text) w
  = WeatherAppWithSuggestions.setShowSuggestions false
      (WeatherAppWithSuggestions.setSuggestions []
         (WeatherAppWithSuggestions.setQuery text w)).
Proof.
  intros Hlen Hne. open_app w.
  unfold WeatherAppWithSuggestions.dispatch, WeatherAppWithSuggestions.handle.
  app_simpl.
  destruct (decide (text = uq)) as [E | _]; [contradiction |].
  unfold WeatherAppWithSuggestions.search_effect. app_simpl.
  apply Nat.ltb_lt in Hlen. rewrite Hlen. reflexivity.
Qed.

(** X17.  The effect returns before [clearTimeout] when the text is short.  So
    when a search is scheduled for a text and the query is cut down to fewer
    than two code units before the search fires, the timeout still fires
    once its 300 ms have passed: WeatherPage then calls [searchLocations]
    for the old text, and WeatherAppWithSuggestions fetches for the old text
    when it is well formed (and makes no request when it is not). *)
Theorem short_update_keeps_search :
  (forall (w : WeatherPage.world) (t0 t te : N) (x text : JS.str),
     PageDebounce.armed t0 x w ->
     (t0 <= t < t0 + 300)%N -> (t0 + 300 <= te)%N ->
     JS.len text < 2 -> text <> x ->
     let w1 := WeatherPage.step (t, WeatherPage.Change text) w in
     let w2 := WeatherPage.advance te w1 in
     WeatherPage.query (WeatherPage.ui w2) = text /\
     WeatherPage.suggestions (WeatherPage.ui w1) = [] /\
     WeatherPage.search_log (WeatherPage.env w1)
       = WeatherPage.search_log (WeatherPage.env w) /\
     WeatherPage.search_log (WeatherPage.env w2)
       = WeatherPage.search_log (WeatherPage.env w) ++ [x])
  /\
  (forall (w : WeatherAppWithSuggestions.world) (t0 t te : N)
          (x text : JS.str),
     AppDebounce.armed t0 x w ->
     (t0 <= t < t0 + 300)%N -> (t0 + 300 <= te)%N ->
     JS.len text < 2 -> text <> x ->
     let w1 := WeatherAppWithSuggestions.step
                 (t, WeatherAppWithSuggestions.Change text) w in
     let w2 := WeatherAppWithSuggestions.advance te w1 in
     WeatherAppWithSuggestions.query (WeatherAppWithSuggestions.ui w2) = text /\
     WeatherAppWithSuggestions.suggestions (WeatherAppWithSuggestions.ui w1)
       = [] /\
     WeatherAppWithSuggestions.search_log (WeatherAppWithSuggestions.env w1)
       = WeatherAppWithSuggestions.search_log
           (WeatherAppWithSuggestions.env w) /\
     WeatherAppWithSuggestions.search_log (WeatherAppWithSuggestions.env w2)
       = WeatherAppWithSuggestions.search_log
           (WeatherAppWithSuggestions.env w)
         ++ (if JS.well_formed x then [x] else [])).
Proof.
  split.
  - intros w t0 t te x text (Hq & Hc & id & Hp & Hr) Ht Hte Hlen Hne w1 w2.
    unfold PageDebounce.query, PageDebounce.tq in *.
    destruct (page_advance t w) as (Eq & _ & _ & Et & El).
    destruct (expire_early _ _ _ _ t Hp) as [Hd Hp']; [lia |].
    rewrite Hd, app_nil_r in El. rewrite <- Et in Hp'.
    assert (E1 : w1 = WeatherPage.setShowDropdown false
                        (WeatherPage.setSuggestions []
                           (WeatherPage.setQuery text
                              (WeatherPage.advance t w)))).
    { subst w1. unfold WeatherPage.step. cbn [fst snd].
      apply page_short_change; [exact Hlen | congruence]. }
    subst w2. rewrite E1. clear E1 w1.
    match goal with
    | |- context [WeatherPage.advance te ?y] =>
        destruct (page_advance te y) as (Eq2 & _ & _ & _ & El2)
    end.
    rewrite Eq2, El2. page_simpl.
    destruct (expire_late _ _ _ _ te Hp') as [Hd2 _]; [lia |].
    rewrite Hd2, El. repeat split; reflexivity.
  - intros w t0 t te x text (Hq & Hc & id & Hp & Hr) Ht Hte Hlen Hne w1 w2.
    unfold AppDebounce.query, AppDebounce.tq in *.
    destruct (app_advance t w) as (Eq & _ & _ & Et & El).
    destruct (expire_early _ _ _ _ t Hp) as [Hd Hp']; [lia |].
    rewrite Hd in El. cbn [map List.filter] in El.
    rewrite app_nil_r in El. rewrite <- Et in Hp'.
    assert (E1 : w1 = WeatherAppWithSuggestions.setShowSuggestions false
                        (WeatherAppWithSuggestions.setSuggestions []
                           (WeatherAppWithSuggestions.setQuery text
                              (WeatherAppWithSuggestions.advance t w)))).
    { subst w1. unfold WeatherAppWithSuggestions.step. cbn [fst snd].
      apply app_short_change; [exact Hlen | congruence]. }
    subst w2. rewrite E1. clear E1 w1.
    match goal with
    | |- context [WeatherAppWithSuggestions.advance te ?y] =>
        destruct (app_advance te y) as (Eq2 & _ & _ & _ & El2)
    end.
    rewrite Eq2, El2. app_simpl.
    destruct (expire_late _ _ _ _ te Hp') as [Hd2 _]; [lia |].
    rewrite Hd2, El. repeat split; reflexivity.
Qed.

Lemma short_update_keeps_search_witness :
  let w := WeatherPage.type_burst [(0%N, JS.lit "Lo")] WeatherPage.initial in
  WeatherPage.search_log
    (WeatherPage.env
       (WeatherPage.advance 300
          (WeatherPage.step (50%N, WeatherPage.Change (JS.lit "L")) w)))
  = WeatherPage.search_log (WeatherPage.env w) ++ [JS.lit "Lo"].
Proof.
  intros w.
  refine (proj2 (proj2 (proj2
            (proj1 short_update_keeps_search w 0%N 50%N 300%N
               (JS.lit "Lo") (JS.lit "L") _ _ _ _ _)))).
  - split; [reflexivity |]. split; [reflexivity |].
    exists 1%N. split; reflexivity.
  - lia.
  - lia.
  - vm_compute. lia.
  - intros E. vm_compute in E. discriminate E.
Defined.

(** ** A selection schedules a search of its own *)

(** X18.  [handleSelect] writes the city into the query, and the search effect
    treats that like typing: when the city differs from the query and has two
    code units or more, the selection schedules a search for the city, which
    is issued 300 ms later. *)
Theorem selection_schedules_search (w : WeatherPage.world)
    (loc : WeatherPage.LocationSuggestion) (te : N) :
  let city := JS.at0 (JS.split JS.comma (WeatherPage.display_name loc)) in
  PageDebounce.tidy w ->
  city <> PageDebounce.query w -> 2 <= JS.len city ->
  (Timers.clock (PageDebounce.tq w) + 300 <= te)%N ->
  let w1 := WeatherPage.dispatch (WeatherPage.Select loc) w in
  PageDebounce.armed (Timers.clock (PageDebounce.tq w)) city w1 /\
  WeatherPage.search_log (WeatherPage.env (WeatherPage.advance te w1))
    = WeatherPage.search_log (WeatherPage.env w) ++ [city].
Proof.
  intros city Hw Hne Hlen Hte w1.
  set (wh := WeatherPage.handle (WeatherPage.Select loc) w).
  assert (Hq : PageDebounce.query wh = city) by reflexivity.
  destruct (page_handle_frame (WeatherPage.Select loc) w) as [Er Et].
  fold wh in Er, Et.
  assert (Hwh : PageDebounce.tidy wh).
  { intros tm Hin. rewrite Er. apply Hw. rewrite <- Et. exact Hin. }
  assert (E1 : w1 = WeatherPage.search_effect wh).
  { subst w1. unfold WeatherPage.dispatch. fold wh.
    destruct (decide _) as [E | _]; [| reflexivity].
    exfalso. apply Hne. rewrite <- Hq. exact E. }
  assert (Ha : PageDebounce.armed (Timers.clock (PageDebounce.tq w)) city w1).
  { rewrite E1, <- Et, <- Hq. apply page_effect_arms; [exact Hwh |].
    rewrite Hq. exact Hlen. }
  split; [exact Ha |].
  destruct (advance_late WeatherPage.world PageDebounce.query PageDebounce.ref
              PageDebounce.tq
              (fun w => WeatherPage.search_log (WeatherPage.env w))
              (fun _ => true)
              WeatherPage.advance page_advance_spec _ _ _ te Ha Hte)
    as [El _].
  rewrite El, E1.
  destruct (page_effect_frame wh) as (_ & _ & _ & _ & Elog & _).
  rewrite Elog. subst wh. rewrite page_handle_log. reflexivity.
Qed.

Lemma selection_schedules_search_witness :
  WeatherPage.search_log
    (WeatherPage.env
       (WeatherPage.advance 300
          (WeatherPage.dispatch (WeatherPage.Select Samples.berlin)
                                WeatherPage.initial)))
  = WeatherPage.search_log (WeatherPage.env WeatherPage.initial)
    ++ [JS.at0 (JS.split JS.comma (WeatherPage.display_name Samples.berlin))].
Proof.
  refine (proj2 (selection_schedules_search WeatherPage.initial
                   Samples.berlin 300%N _ _ _ _)).
  - intros tm [].
  - intros E. vm_compute in E. discriminate E.
  - vm_compute. lia.
  - vm_compute. discriminate.
Defined.

(** ** WeatherAppWithSuggestions: the forecast *)

Lemma app_effect_keeps (w : WeatherAppWithSuggestions.world) :
  let w' := WeatherAppWithSuggestions.search_effect w in
  WeatherAppWithSuggestions.selectedLocation (WeatherAppWithSuggestions.ui w')
  = WeatherAppWithSuggestions.selectedLocation (WeatherAppWithSuggestions.ui w)
  /\ WeatherAppWithSuggestions.weather (WeatherAppWithSuggestions.ui w')
     = WeatherAppWithSuggestions.weather (WeatherAppWithSuggestions.ui w)
  /\ WeatherAppWithSuggestions.loading (WeatherAppWithSuggestions.ui w')
     = WeatherAppWithSuggestions.loading (WeatherAppWithSuggestions.ui w)
  /\ (WeatherAppWithSuggestions.showSuggestions (WeatherAppWithSuggestions.ui w)
      = false ->
      WeatherAppWithSuggestions.showSuggestions
        (WeatherAppWithSuggestions.ui w') = false)
  /\ WeatherAppWithSuggestions.next_call (WeatherAppWithSuggestions.env w')
     = WeatherAppWithSuggestions.next_call (WeatherAppWithSuggestions.env w)
  /\ WeatherAppWithSuggestions.alerts (WeatherAppWithSuggestions.env w')
     = WeatherAppWithSuggestions.alerts (WeatherAppWithSuggestions.env w)
  /\ WeatherAppWithSuggestions.forecast_log (WeatherAppWithSuggestions.env w')
     = WeatherAppWithSuggestions.forecast_log (WeatherAppWithSuggestions.env w).
Proof.
  open_app w. unfold WeatherAppWithSuggestions.search_effect. app_simpl.
  destruct (JS.len uq <? 2); [| destruct udr];
    app_simpl; repeat split; try reflexivity; intros H; exact H.
Qed.

(** The timer callback of this component touches no state, and of the host
    only the searches and the console. *)
Lemma app_callbacks_keep (due : list Timers.timer)
    (w : WeatherAppWithSuggestions.world) :
  let w' := fold_left
              (fun w tm =>
                 WeatherAppWithSuggestions.search_callback
                   (Timers.captured tm) w)
              due w in
  WeatherAppWithSuggestions.ui w' = WeatherAppWithSuggestions.ui w /\
  WeatherAppWithSuggestions.forecasts (WeatherAppWithSuggestions.env w')
  = WeatherAppWithSuggestions.forecasts (WeatherAppWithSuggestions.env w) /\
  WeatherAppWithSuggestions.forecast_log (WeatherAppWithSuggestions.env w')
  = WeatherAppWithSuggestions.forecast_log (WeatherAppWithSuggestions.env w) /\
  WeatherAppWithSuggestions.alerts (WeatherAppWithSuggestions.env w')
  = WeatherAppWithSuggestions.alerts (WeatherAppWithSuggestions.env w).
Proof.
  revert w. induction due as [| tm due IH]; intros w; cbn [fold_left].
  - repeat split; reflexivity.
  - destruct (IH (WeatherAppWithSuggestions.search_callback
                    (Timers.captured tm) w)) as (Eu & Ef & El & Ea).
    cbv zeta. rewrite Eu, Ef, El, Ea.
    unfold WeatherAppWithSuggestions.search_callback.
    destruct (JS.well_formed (Timers.captured tm));
      repeat split; reflexivity.
Qed.

(** Time passing changes nothing on screen. *)
Lemma app_advance_ui (t : N) (w : WeatherAppWithSuggestions.world) :
  WeatherAppWithSuggestions.ui (WeatherAppWithSuggestions.advance t w)
  = WeatherAppWithSuggestions.ui w.
Proof.
  unfold WeatherAppWithSuggestions.advance, Timers.expire. cbv zeta.
  match goal with
  | |- context [fold_left _ ?due ?x] =>
      destruct (app_callbacks_keep due x) as (Eu & _)
  end.
  cbv zeta in Eu. rewrite Eu. reflexivity.
Qed.

Lemma app_advance_host (t : N) (w : WeatherAppWithSuggestions.world) :
  let w' := WeatherAppWithSuggestions.advance t w in
  WeatherAppWithSuggestions.forecasts (WeatherAppWithSuggestions.env w')
  = WeatherAppWithSuggestions.forecasts (WeatherAppWithSuggestions.env w) /\
  WeatherAppWithSuggestions.forecast_log (WeatherAppWithSuggestions.env w')
  = WeatherAppWithSuggestions.forecast_log (WeatherAppWithSuggestions.env w) /\
  WeatherAppWithSuggestions.alerts (WeatherAppWithSuggestions.env w')
  = WeatherAppWithSuggestions.alerts (WeatherAppWithSuggestions.env w).
Proof.
  unfold WeatherAppWithSuggestions.advance, Timers.expire. cbv zeta.
  match goal with
  | |- context [fold_left _ ?due ?x] =>
      destruct (app_callbacks_keep due x) as (_ & Ef & El & Ea)
  end.
  cbv zeta in Ef, El, Ea. rewrite Ef, El, Ea. repeat split; reflexivity.
Qed.

(** X19.  When the forecast fetch fails (transport error, or a body that does not
    parse) the component raises an alert and stops the loading text; the
    query, the suggestions, the snapshot and the selected location stay, and
    nothing is written to the console. *)
Theorem app_forecast_failure (w : WeatherAppWithSuggestions.world) (id : nat)
    (loc : WeatherAppWithSuggestions.Location)
    (r : response WeatherAppWithSuggestions.WeatherData) :
  WeatherAppWithSuggestions.forecasts (WeatherAppWithSuggestions.env w) !! id
    = Some loc ->
  r = NetworkError \/ (exists ok, r = Http ok None) ->
  let s := WeatherAppWithSuggestions.ui w in
  let w' := WeatherAppWithSuggestions.dispatch
              (WeatherAppWithSuggestions.ForecastResponse id r) w in
  let s' := WeatherAppWithSuggestions.ui w' in
  WeatherAppWithSuggestions.alerts (WeatherAppWithSuggestions.env w')
    = WeatherAppWithSuggestions.alerts (WeatherAppWithSuggestions.env w)
      ++ [JS.lit "Failed to load weather"] /\
  WeatherAppWithSuggestions.loading s' = false /\
  WeatherAppWithSuggestions.query s' = WeatherAppWithSuggestions.query s /\
  WeatherAppWithSuggestions.suggestions s'
    = WeatherAppWithSuggestions.suggestions s /\
  WeatherAppWithSuggestions.weather s' = WeatherAppWithSuggestions.weather s /\
  WeatherAppWithSuggestions.selectedLocation s'
    = WeatherAppWithSuggestions.selectedLocation s /\
  WeatherAppWithSuggestions.console (WeatherAppWithSuggestions.env w')
    = WeatherAppWithSuggestions.console (WeatherAppWithSuggestions.env w).
Proof.
  intros Hloc Hr. open_app w.
  unfold WeatherAppWithSuggestions.dispatch, WeatherAppWithSuggestions.handle.
  app_simpl. rewrite Hloc.
  unfold WeatherAppWithSuggestions.forecast_settled.
  destruct Hr as [-> | [ok ->]]; app_simpl; same_query;
    repeat split; reflexivity.
Qed.

Lemma app_forecast_failure_witness :
  WeatherAppWithSuggestions.alerts
    (WeatherAppWithSuggestions.env
       (WeatherAppWithSuggestions.dispatch
          (WeatherAppWithSuggestions.ForecastResponse 2 NetworkError)
          Samples2.paris_selected))
  = WeatherAppWithSuggestions.alerts
      (WeatherAppWithSuggestions.env Samples2.paris_selected)
    ++ [JS.lit "Failed to load weather"].
Proof.
  refine (proj1 (app_forecast_failure Samples2.paris_selected 2 Samples.paris
                   NetworkError _ (or_introl eq_refl))).
  vm_compute. reflexivity.
Defined.

(** ** WeatherAppWithSuggestions: a selection with the pointer *)

Lemma app_handle_idle (e : WeatherAppWithSuggestions.event)
    (w : WeatherAppWithSuggestions.world) :
  WeatherAppWithSuggestions.unscripted e = true ->
  Inv.idle w -> Inv.idle (WeatherAppWithSuggestions.handle e w).
Proof.
  intros He (Hl & Hf & Hw & Hs & Hld & Ha).
  unfold Inv.idle, WeatherAppWithSuggestions.handle.
  destruct e as [text | | | loc | loc | id r | id r | id | id];
    try discriminate He.
  - repeat split; assumption.
  - destruct (0 <? _); repeat split; assumption.
  - repeat split; assumption.
  - destruct (WeatherAppWithSuggestions.listed _ _); repeat split; assumption.
  - destruct (_ !! id); [| repeat split; assumption].
    unfold WeatherAppWithSuggestions.search_settled.
    destruct r as [| ok [data |]]; repeat split; assumption.
  - rewrite Hf, lookup_empty. repeat split; assumption.
  - destruct (_ !! id); repeat split; assumption.
  - rewrite Hf, lookup_empty. repeat split; assumption.
Qed.

Lemma app_step_idle (te : N * WeatherAppWithSuggestions.event)
    (w : WeatherAppWithSuggestions.world) :
  WeatherAppWithSuggestions.unscripted (snd te) = true ->
  Inv.idle w -> Inv.idle (WeatherAppWithSuggestions.step te w).
Proof.
  intros He Hw.
  unfold WeatherAppWithSuggestions.step, WeatherAppWithSuggestions.dispatch.
  assert (Ha : Inv.idle (WeatherAppWithSuggestions.advance (fst te) w)).
  { destruct (app_advance_host (fst te) w) as (Ef & El & Ea).
    destruct Hw as (Hl & Hf & Hw & Hs & Hld & Hal).
    unfold Inv.idle. rewrite app_advance_ui, Ef, El, Ea.
    repeat split; assumption. }
  apply (app_handle_idle (snd te) _ He) in Ha.
  destruct (decide _); [exact Ha |].
  set (wh := WeatherAppWithSuggestions.handle _ _) in *.
  destruct (app_effect_frame wh) as (_ & _ & _ & Ef).
  destruct (app_effect_keeps wh) as (Es & Ew & Eld & _ & _ & Eal & El).
  destruct Ha as (Hl & Hf & Hw' & Hs & Hld & Hal).
  unfold Inv.idle. rewrite Ef, Es, Ew, Eld, Eal, El.
  repeat split; assumption.
Qed.



(** ** WeatherAppWithSuggestions: a body the render cannot take *)

Lemma app_handle_forecast_log (e : WeatherAppWithSuggestions.event)
    (w : WeatherAppWithSuggestions.world) :
  WeatherAppWithSuggestions.forecast_log
    (WeatherAppWithSuggestions.env (WeatherAppWithSuggestions.host_only e w))
  = WeatherAppWithSuggestions.forecast_log (WeatherAppWithSuggestions.env w).
Proof.
  open_app w.
  destruct e; unfold WeatherAppWithSuggestions.host_only,
    WeatherAppWithSuggestions.handle,
    WeatherAppWithSuggestions.search_settled,
    WeatherAppWithSuggestions.forecast_settled,
    WeatherAppWithSuggestions.search_settled_lengthless,
    WeatherAppWithSuggestions.forecast_settled_null;
    app_simpl;
    repeat match goal with
           | |- context [match ?x with _ => _ end] => destruct x; app_simpl
           end;
    reflexivity.
Qed.

Lemma app_host_only_timers (e : WeatherAppWithSuggestions.event)
    (w : WeatherAppWithSuggestions.world) :
  WeatherAppWithSuggestions.timers
    (WeatherAppWithSuggestions.env (WeatherAppWithSuggestions.host_only e w))
  = WeatherAppWithSuggestions.timers (WeatherAppWithSuggestions.env w).
Proof.
  destruct (app_handle_frame e w) as [_ Et].
  unfold AppDebounce.tq in Et.
  destruct e; unfold WeatherAppWithSuggestions.host_only;
    try reflexivity; exact Et.
Qed.

Lemma app_occur_blank (to : N * WeatherAppWithSuggestions.occurrence)
    (p : WeatherAppWithSuggestions.page) :
  WeatherAppWithSuggestions.mounted p = false ->
  let p' := WeatherAppWithSuggestions.occur to p in
  WeatherAppWithSuggestions.mounted p' = false /\
  WeatherAppWithSuggestions.ui (WeatherAppWithSuggestions.content p')
  = WeatherAppWithSuggestions.ui (WeatherAppWithSuggestions.content p) /\
  WeatherAppWithSuggestions.forecast_log
    (WeatherAppWithSuggestions.env (WeatherAppWithSuggestions.content p'))
  = WeatherAppWithSuggestions.forecast_log
      (WeatherAppWithSuggestions.env (WeatherAppWithSuggestions.content p)) /\
  length (Timers.pending
            (WeatherAppWithSuggestions.timers
               (WeatherAppWithSuggestions.env
                  (WeatherAppWithSuggestions.content p'))))
  <= length (Timers.pending
               (WeatherAppWithSuggestions.timers
                  (WeatherAppWithSuggestions.env
                     (WeatherAppWithSuggestions.content p)))).
Proof.
  intros Hm. cbv zeta. unfold WeatherAppWithSuggestions.occur. rewrite Hm.
  destruct p as [w m]. cbn [WeatherAppWithSuggestions.content] in *.
  set (wa := WeatherAppWithSuggestions.advance (fst to) w).
  assert (Hu : WeatherAppWithSuggestions.ui wa = WeatherAppWithSuggestions.ui w)
    by apply app_advance_ui.
  assert (Hl : WeatherAppWithSuggestions.forecast_log
                 (WeatherAppWithSuggestions.env wa)
               = WeatherAppWithSuggestions.forecast_log
                   (WeatherAppWithSuggestions.env w))
    by apply (app_advance_host (fst to) w).
  assert (Ht : length (Timers.pending
                         (WeatherAppWithSuggestions.timers
                            (WeatherAppWithSuggestions.env wa)))
               <= length (Timers.pending
                            (WeatherAppWithSuggestions.timers
                               (WeatherAppWithSuggestions.env w)))).
  { destruct (app_advance (fst to) w) as (_ & _ & _ & Et & _).
    subst wa. rewrite Et. unfold Timers.expire. cbn [snd Timers.pending].
    apply List.filter_length_le. }
  clearbody wa.
  destruct (snd to) as [e | id | id];
    cbn [WeatherAppWithSuggestions.content WeatherAppWithSuggestions.mounted].
  - rewrite app_handle_forecast_log, app_host_only_timers.
    split; [reflexivity |]. split; [| split; assumption].
    rewrite <- Hu. destruct e; reflexivity.
  - open_app wa. app_simpl. repeat split; assumption.
  - open_app wa. app_simpl. repeat split; assumption.
Qed.



(** ** App, the first draft *)

Ltac open_draft w :=
  destruct w as [[uq usg usd uld usr uwe usc uer ugl udr]
                 [hky htq hnc hss hsl hfs hfl hps hls hll]].

Ltac draft_simpl :=
  cbn [App.ui App.env App.query App.suggestions App.showDropdown App.loading
       App.searchingLocation App.weather App.selectedCity App.error
       App.geoLoading App.debounceTimer
       App.apiKey App.timers App.next_call App.searches App.search_log
       App.forecasts App.forecast_log App.positions App.lookups App.lookup_log
       App.setQuery App.setSuggestions App.setShowDropdown App.setLoading
       App.setSearchingLocation App.setWeather App.setSelectedCity
       App.setError App.setGeoLoading App.setDebounceTimer
       App.withTimers App.call_search App.done_search App.call_forecast
       App.done_forecast App.call_position App.done_position App.call_lookup
       App.done_lookup
       App.fc_lat App.fc_lon App.fc_cityName App.fc_awaited
       App.input_value App.search_spinner App.button_disabled App.dropdown
       App.error_box App.loading_spinner App.weather_section App.placeholder
       Timers.clock Timers.next_id Timers.pending
       Timers.tid Timers.deadline Timers.captured
       fst snd] in *.

Lemma draft_run_invariant (P : App.world -> Prop) :
  (forall te w, P w -> P (App.step te w)) ->
  forall evs w, P w -> P (App.run evs w).
Proof.
  intros Hstep evs. unfold App.run.
  induction evs as [| te evs IH]; intros w Hw; [exact Hw |].
  cbn [fold_left]. apply IH. apply Hstep. exact Hw.
Qed.

Lemma draft_effect_keeps (w : App.world) :
  let w' := App.search_effect w in
  (App.query (App.ui w') = App.query (App.ui w)
   /\ App.loading (App.ui w') = App.loading (App.ui w)
   /\ App.weather (App.ui w') = App.weather (App.ui w)
   /\ App.selectedCity (App.ui w') = App.selectedCity (App.ui w)
   /\ App.error (App.ui w') = App.error (App.ui w)
   /\ App.geoLoading (App.ui w') = App.geoLoading (App.ui w))
  /\
  (App.apiKey (App.env w') = App.apiKey (App.env w)
   /\ App.next_call (App.env w') = App.next_call (App.env w)
   /\ App.searches (App.env w') = App.searches (App.env w)
   /\ App.search_log (App.env w') = App.search_log (App.env w)
   /\ App.forecasts (App.env w') = App.forecasts (App.env w)
   /\ App.forecast_log (App.env w') = App.forecast_log (App.env w)
   /\ App.positions (App.env w') = App.positions (App.env w)
   /\ App.lookups (App.env w') = App.lookups (App.env w)
   /\ App.lookup_log (App.env w') = App.lookup_log (App.env w)).
Proof.
  open_draft w. unfold App.search_effect. draft_simpl.
  destruct (JS.len uq <? 2); [| destruct udr];
    draft_simpl; repeat split; reflexivity.
Qed.

(** The table of the draft, as code units. *)
Example draft_glyph_code_units :
  Forall (fun p : Z * JS.str => App.weatherMap !! fst p = Some (snd p))
    [ (0, [9728; 65039]%N);
    (1, [55356; 57124; 65039]%N);
    (2, [9925]%N);
    (3, [9729; 65039]%N);
    (45, [55356; 57131; 65039]%N);
    (48, [55356; 57131; 65039]%N);
    (51, [55356; 57126; 65039]%N);
    (53, [55356; 57126; 65039]%N);
    (55, [55356; 57126; 65039]%N);
    (56, [55356; 57127; 65039]%N);
    (57, [55356; 57127; 65039]%N);
    (61, [55356; 57127; 65039]%N);
    (63, [55356; 57127; 65039]%N);
    (65, [55356; 57127; 65039]%N);
    (66, [55356; 57128; 65039]%N);
    (67, [55356; 57128; 65039]%N);
    (71, [55356; 57128; 65039]%N);
    (73, [55356; 57128; 65039]%N);
    (75, [55356; 57128; 65039]%N);
    (77, [55356; 57128; 65039]%N);
    (80, [55356; 57126; 65039]%N);
    (81, [55356; 57126; 65039]%N);
    (82, [55356; 57126; 65039]%N);
    (85, [55356; 57128; 65039]%N);
    (86, [55356; 57128; 65039]%N);
    (95, [9928; 65039]%N);
    (96, [9928; 65039]%N);
    (99, [9928; 65039]%N) ]%Z.
Proof. repeat constructor. Qed.

(** *** Without an API key *)

Lemma draft_callbacks_nokey (due : list Timers.timer) (w : App.world) :
  JS.truthy (App.apiKey (App.env w)) = false ->
  App.env (fold_left (fun w tm => App.search_callback (Timers.captured tm) w)
                     due w)
  = App.env w.
Proof.
  revert w. induction due as [| tm due IH]; intros w Hk; [reflexivity |].
  cbn [fold_left].
  assert (E : App.env (App.search_callback (Timers.captured tm) w) = App.env w).
  { unfold App.search_callback. draft_simpl. rewrite Hk. reflexivity. }
  rewrite IH; [exact E | rewrite E; exact Hk].
Qed.

Lemma draft_step_nokey (te : N * App.event) (w : App.world) :
  let quiet w :=
    JS.truthy (App.apiKey (App.env w)) = false /\
    App.search_log (App.env w) = [] /\ App.lookup_log (App.env w) = [] /\
    App.searches (App.env w) = ∅ /\ App.lookups (App.env w) = ∅ in
  quiet w -> quiet (App.step te w).
Proof.
  intros quiet (Hk & Hs & Hl & Hss & Hls). subst quiet. cbv beta.
  unfold App.step, App.dispatch.
  set (wa := App.advance (fst te) w).
  assert (Ha : JS.truthy (App.apiKey (App.env wa)) = false /\
               App.search_log (App.env wa) = [] /\
               App.lookup_log (App.env wa) = [] /\
               App.searches (App.env wa) = ∅ /\ App.lookups (App.env wa) = ∅).
  { subst wa. unfold App.advance, Timers.expire. cbv zeta.
    rewrite draft_callbacks_nokey by exact Hk.
    open_draft w. draft_simpl. repeat split; assumption. }
  clearbody wa. clear Hk Hs Hl Hss Hls w.
  destruct Ha as (Hk & Hs & Hl & Hss & Hls).
  set (wh := App.handle (snd te) wa).
  assert (Hh : JS.truthy (App.apiKey (App.env wh)) = false /\
               App.search_log (App.env wh) = [] /\
               App.lookup_log (App.env wh) = [] /\
               App.searches (App.env wh) = ∅ /\ App.lookups (App.env wh) = ∅).
  { subst wh. open_draft wa. draft_simpl. subst hsl hll hss hls.
    destruct (snd te) as [text | | loc | supported | id r | id r | id p | id r];
      unfold App.handle; draft_simpl.
    - repeat split; assumption.
    - repeat split; assumption.
    - unfold App.handleLocationSelect, App.fetchWeather. draft_simpl.
      repeat split; assumption.
    - destruct ugl; [repeat split; assumption |].
      unfold App.handleUseMyLocation.
      destruct (negb supported); draft_simpl; repeat split; assumption.
    - rewrite lookup_empty. repeat split; assumption.
    - destruct (hfs !! id) as [c |]; [| repeat split; assumption].
      unfold App.forecast_settled.
      destruct (WeatherPage.settle r), (App.fc_awaited c); draft_simpl;
        repeat split; assumption.
    - destruct (decide _); [| repeat split; assumption].
      destruct p as [latitude longitude | denied].
      + unfold App.position_granted. draft_simpl. rewrite Hk.
        unfold App.lookup_failed. draft_simpl. repeat split; assumption.
      + unfold App.position_failed. destruct denied; draft_simpl;
          repeat split; assumption.
    - rewrite lookup_empty. repeat split; assumption. }
  destruct (decide _); [exact Hh |].
  destruct (draft_effect_keeps wh)
    as (_ & (Ek & _ & Ess & Es & _ & _ & _ & Els & El)).
  rewrite Ek, Ess, Es, Els, El. exact Hh.
Qed.

(** X23.  Without an API key (undefined or empty) the draft never asks the
    geocoding service for anything: along every trace no suggestion request
    and no reverse lookup is made.  A scheduled search then fails on the
    spot: when its timeout expires the error message is set and the
    suggestions are emptied, with the spinner off. *)
Theorem draft_without_key (key : option JS.str) :
  JS.truthy key = false ->
  (forall evs : list (N * App.event),
     let w := App.run evs (App.initial key) in
     App.search_log (App.env w) = [] /\ App.lookup_log (App.env w) = []) /\
  (forall (w : App.world) (id d : N) (x : JS.str) (te : N),
     App.apiKey (App.env w) = key ->
     Timers.pending (App.timers (App.env w)) = [Timers.Timer id d x] ->
     (d <= te)%N ->
     let s := App.ui (App.advance te w) in
     App.error s = JS.lit "Failed to search locations. Please try again." /\
     App.suggestions s = [] /\ App.searchingLocation s = false /\
     App.search_log (App.env (App.advance te w)) = App.search_log (App.env w)).
Proof.
  intros Hk. split.
  - intros evs. cbv zeta.
    assert (H : JS.truthy
                  (App.apiKey (App.env (App.run evs (App.initial key))))
                = false /\
                App.search_log (App.env (App.run evs (App.initial key))) = []
                /\ App.lookup_log (App.env (App.run evs (App.initial key)))
                   = [] /\
                App.searches (App.env (App.run evs (App.initial key))) = ∅ /\
                App.lookups (App.env (App.run evs (App.initial key))) = ∅).
    { apply (draft_run_invariant
               (fun w =>
                  JS.truthy (App.apiKey (App.env w)) = false /\
                  App.search_log (App.env w) = [] /\
                  App.lookup_log (App.env w) = [] /\
                  App.searches (App.env w) = ∅ /\ App.lookups (App.env w) = ∅)).
      - intros te w. apply (draft_step_nokey te w).
      - repeat split; try reflexivity. exact Hk. }
    tauto.
  - intros w id d x te Hkey Hp Hd. cbv zeta.
    unfold App.advance, Timers.expire. cbv zeta. rewrite Hp.
    cbn [List.filter]. unfold Timers.is_due. cbn [Timers.deadline].
    replace (d <=? te)%N with true by (symmetry; apply N.leb_le; lia).
    cbn [fold_left negb Timers.captured].
    unfold App.search_callback. open_draft w. draft_simpl. subst hky.
    rewrite Hk. unfold App.search_failed. draft_simpl.
    repeat split; reflexivity.
Qed.

Lemma draft_without_key_witness :
  App.search_log
    (App.env
       (App.run [ (0%N, App.Change (JS.lit "Berlin"));
                  (400%N, App.UseMyLocation true);
                  (900%N, App.Position 0
                            (App.Granted (Num (JS.lit "52.52"))
                                         (Num (JS.lit "13.405")))) ]
                (App.initial None)))
  = [].
Proof.
  refine (proj1 (proj1 (draft_without_key None _) _)). reflexivity.
Defined.

(** *** The snapshot is cleared before a fetch *)

Lemma draft_callbacks_weather (due : list Timers.timer) (w : App.world) :
  App.weather
    (App.ui (fold_left (fun w tm => App.search_callback (Timers.captured tm) w)
                       due w))
  = App.weather (App.ui w).
Proof.
  revert w. induction due as [| tm due IH]; intros w; [reflexivity |].
  cbn [fold_left]. rewrite IH. unfold App.search_callback, App.search_failed.
  destruct (JS.truthy _); [destruct (JS.well_formed _) |]; reflexivity.
Qed.

Lemma draft_advance_weather (t : N) (w : App.world) :
  App.weather (App.ui (App.advance t w)) = App.weather (App.ui w).
Proof.
  unfold App.advance, Timers.expire. cbv zeta.
  rewrite draft_callbacks_weather. reflexivity.
Qed.

Lemma draft_handle_no_snapshot (e : App.event) (w : App.world) :
  App.brings_snapshot e = false ->
  App.weather (App.ui w) = None ->
  App.weather (App.ui (App.handle e w)) = None.
Proof.
  intros He Hw.
  destruct e as [text | | loc | supported | id r | id r | id p | id r];
    unfold App.handle.
  - exact Hw.
  - exact Hw.
  - reflexivity.
  - destruct (App.geoLoading _); [exact Hw |].
    unfold App.handleUseMyLocation. destruct (negb supported); exact Hw.
  - destruct (_ !! id); [| exact Hw].
    unfold App.search_settled, App.search_failed.
    destruct (WeatherPage.settle r); exact Hw.
  - destruct (_ !! id) as [c |]; [| exact Hw].
    unfold App.forecast_settled. cbn [App.brings_snapshot] in He.
    destruct (WeatherPage.settle r); [discriminate He |].
    destruct (App.fc_awaited c); exact Hw.
  - destruct (decide _); [| exact Hw].
    destruct p as [latitude longitude | denied].
    + unfold App.position_granted, App.lookup_failed.
      destruct (JS.truthy _); exact Hw.
    + unfold App.position_failed. destruct denied; exact Hw.
  - destruct (_ !! id) as [[latitude longitude] |]; [| exact Hw].
    unfold App.lookup_settled, App.lookup_failed.
    destruct (WeatherPage.settle r) as [data |]; [| exact Hw].
    destruct (WeatherPage.address data); [reflexivity | exact Hw].
Qed.

Lemma draft_step_no_snapshot (te : N * App.event) (w : App.world) :
  App.brings_snapshot (snd te) = false ->
  App.weather (App.ui w) = None ->
  App.weather (App.ui (App.step te w)) = None.
Proof.
  intros He Hw. unfold App.step, App.dispatch.
  rewrite <- (draft_advance_weather (fst te)) in Hw.
  apply (draft_handle_no_snapshot (snd te) _ He) in Hw.
  destruct (decide _); [exact Hw |].
  destruct (draft_effect_keeps
              (App.handle (snd te) (App.advance (fst te) w)))
    as ((_ & _ & Ew & _) & _).
  rewrite Ew. exact Hw.
Qed.

(** X24.  The draft clears the snapshot when a fetch starts: right after a
    selection no weather section is on screen and the spinner is.  The
    section stays away through any further events that bring no successful
    forecast answer.  And when the failure of the selection's fetch is the
    next event, the page shows the error message and nothing else. *)
Theorem draft_failed_fetch_shows_nothing (w : App.world) (loc : App.Location)
    (r : response App.WeatherData) :
  WeatherPage.settle r = Rejected ->
  let call := App.next_call (App.env w) in
  let w1 := App.dispatch (App.Select loc) w in
  let w2 := App.dispatch (App.ForecastResponse call r) w1 in
  (App.weather (App.ui w1) = None /\
   App.weather_section (App.render (App.ui w1)) = None /\
   App.loading_spinner (App.render (App.ui w1)) = true) /\
  (forall evs : list (N * App.event),
     Forall (fun te => App.brings_snapshot (snd te) = false) evs ->
     App.weather_section (App.render (App.ui (App.run evs w1))) = None) /\
  (App.weather (App.ui w2) = None /\
   App.weather_section (App.render (App.ui w2)) = None /\
   App.loading_spinner (App.render (App.ui w2)) = false /\
   App.error_box (App.render (App.ui w2))
     = Some (JS.lit "Failed to fetch weather data. Please try again.") /\
   App.placeholder (App.render (App.ui w2)) = false).
Proof.
  intros Hr call w1 w2.
  assert (H1 : App.weather (App.ui w1) = None
               /\ App.loading (App.ui w1) = true
               /\ exists c, App.forecasts (App.env w1) !! call = Some c
                            /\ App.fc_awaited c = false).
  { subst w1 call. unfold App.dispatch.
    set (wh := App.handle (App.Select loc) w).
    assert (Hh : App.weather (App.ui wh) = None
                 /\ App.loading (App.ui wh) = true
                 /\ exists c,
                      App.forecasts (App.env wh) !! App.next_call (App.env w)
                        = Some c
                      /\ App.fc_awaited c = false).
    { subst wh. open_draft w.
      unfold App.handle, App.handleLocationSelect, App.fetchWeather.
      draft_simpl. split; [reflexivity |]. split; [reflexivity |].
      eexists. split; [apply lookup_insert_eq | reflexivity]. }
    destruct (decide _); [exact Hh |].
    destruct (draft_effect_keeps wh)
      as ((_ & El & Ew & _) & (_ & _ & _ & _ & Ef & _)).
    rewrite El, Ew, Ef. exact Hh. }
  destruct H1 as (Hw & Hl & c & Hc & Hawait).
  split.
  { unfold App.render. draft_simpl. rewrite Hw, Hl. repeat split; reflexivity. }
  split.
  { intros evs Hevs.
    assert (Hn : App.weather (App.ui (App.run evs w1)) = None).
    { clear - Hw Hevs. revert Hw. generalize w1. unfold App.run.
      induction Hevs as [| te evs Hte Hevs IH]; intros w0 H0; [exact H0 |].
      cbn [fold_left]. apply IH. apply draft_step_no_snapshot; assumption. }
    unfold App.render. cbn [App.weather_section]. rewrite Hn. reflexivity. }
  subst w2. clearbody w1. open_draft w1. draft_simpl. subst uwe uld.
  unfold App.dispatch, App.handle. draft_simpl. rewrite Hc.
  unfold App.forecast_settled. rewrite Hr, Hawait. draft_simpl. same_query.
  unfold App.render. draft_simpl. repeat split; reflexivity.
Qed.

Lemma draft_failed_fetch_shows_nothing_witness :
  App.weather_section
    (App.render
       (App.ui
          (App.dispatch
             (App.ForecastResponse (App.next_call (App.env Samples2.draft_shown))
                                   (Http false None))
             (App.dispatch (App.Select Samples.london) Samples2.draft_shown))))
  = None /\
  App.weather_section
    (App.render
       (App.ui
          (App.run
             [ (300%N, App.Change (JS.lit "Lond"));
               (700%N, App.SearchResponse 2 (Http true (Some [Samples.london])));
               (900%N, App.MouseDownOutside) ]
             (App.dispatch (App.Select Samples.london) Samples2.draft_shown))))
  = None.
Proof.
  split.
  - refine (proj1 (proj2 (proj2 (proj2
              (draft_failed_fetch_shows_nothing Samples2.draft_shown
                 Samples.london (Http false None) _))))).
    reflexivity.
  - refine (proj1 (proj2
              (draft_failed_fetch_shows_nothing Samples2.draft_shown
                 Samples.london (Http false None) _)) _ _).
    + reflexivity.
    + repeat constructor.
Defined.

(** *** The current-position path of the draft *)

(** X25.  When the reverse lookup answers with an address, the draft names the
    place by its city, else town, else village, else by the first segment of
    its label (never by a placeholder), writes that name into the query and
    fetches the forecast for the coordinate pair under the full label.  The
    button stays disabled through that fetch and is enabled again when it
    answers, whatever the answer. *)
Theorem draft_current_position (w : App.world) (id : nat)
    (latitude longitude : number) (r : response App.Place) (data : App.Place)
    (a : WeatherPage.Address) (r2 : response App.WeatherData) :
  App.lookups (App.env w) !! id = Some (latitude, longitude) ->
  WeatherPage.settle r = Resolved data ->
  WeatherPage.address data = Some a ->
  let call := App.next_call (App.env w) in
  let w1 := App.dispatch (App.LookupResponse id r) w in
  let w2 := App.dispatch (App.ForecastResponse call r2) w1 in
  let name := App.cityName_of a (WeatherPage.place_name data) in
  name = JS.or (head (Spec.first_present
                        [WeatherPage.city a; WeatherPage.town a;
                         WeatherPage.village a]))
               (JS.at0 (JS.split JS.comma (WeatherPage.place_name data))) /\
  App.query (App.ui w1) = name /\
  App.forecast_log (App.env w1)
    = App.forecast_log (App.env w)
      ++ [ {| App.fc_lat := toString latitude;
              App.fc_lon := toString longitude;
              App.fc_cityName := WeatherPage.place_name data;
              App.fc_awaited := true |} ] /\
  App.button_disabled (App.render (App.ui w1))
    = App.button_disabled (App.render (App.ui w)) /\
  App.button_disabled (App.render (App.ui w2)) = false.
Proof.
  intros Hc Hr Ha call w1 w2 name.
  split.
  { subst name. unfold App.cityName_of. destruct a as [c t v].
    cbn [WeatherPage.city WeatherPage.town WeatherPage.village].
    destruct c as [[|c0 c]|], t as [[|t0 t]|], v as [[|v0 v]|]; reflexivity. }
  assert (H1 : App.query (App.ui w1) = name
               /\ App.geoLoading (App.ui w1) = App.geoLoading (App.ui w)
               /\ App.forecast_log (App.env w1)
                  = App.forecast_log (App.env w)
                    ++ [ {| App.fc_lat := toString latitude;
                            App.fc_lon := toString longitude;
                            App.fc_cityName := WeatherPage.place_name data;
                            App.fc_awaited := true |} ]
               /\ App.forecasts (App.env w1) !! call
                  = Some {| App.fc_lat := toString latitude;
                            App.fc_lon := toString longitude;
                            App.fc_cityName := WeatherPage.place_name data;
                            App.fc_awaited := true |}).
  { subst w1 call. unfold App.dispatch.
    set (wh := App.handle (App.LookupResponse id r) w).
    assert (Hh : App.query (App.ui wh) = name
                 /\ App.geoLoading (App.ui wh) = App.geoLoading (App.ui w)
                 /\ App.forecast_log (App.env wh)
                    = App.forecast_log (App.env w)
                      ++ [ {| App.fc_lat := toString latitude;
                              App.fc_lon := toString longitude;
                              App.fc_cityName := WeatherPage.place_name data;
                              App.fc_awaited := true |} ]
                 /\ App.forecasts (App.env wh) !! App.next_call (App.env w)
                    = Some {| App.fc_lat := toString latitude;
                              App.fc_lon := toString longitude;
                              App.fc_cityName := WeatherPage.place_name data;
                              App.fc_awaited := true |}).
    { subst wh. open_draft w. unfold App.handle. draft_simpl. rewrite Hc.
      unfold App.lookup_settled. rewrite Hr, Ha.
      unfold App.fetchWeather. draft_simpl.
      repeat split; try reflexivity. apply lookup_insert_eq. }
    destruct (decide _); [exact Hh |].
    destruct (draft_effect_keeps wh)
      as ((Eq & _ & _ & _ & _ & Eg) & (_ & _ & _ & _ & Ef & Efl & _)).
    rewrite Eq, Eg, Ef, Efl. exact Hh. }
  destruct H1 as (Hq & Hg & Hfl & Hf).
  split; [exact Hq |]. split; [exact Hfl |].
  split; [unfold App.render; draft_simpl; exact Hg |].
  subst w2. clearbody w1. clear Hfl Hg Hq. open_draft w1. draft_simpl.
  unfold App.dispatch, App.handle. draft_simpl. rewrite Hf.
  unfold App.forecast_settled. draft_simpl.
  destruct (WeatherPage.settle r2); draft_simpl; same_query; reflexivity.
Qed.

Lemma draft_current_position_witness :
  App.query
    (App.ui
       (App.dispatch
          (App.LookupResponse 1 (Http true (Some Samples.road_place)))
          Samples2.draft_looking_up))
  = JS.lit "Route 66".
Proof.
  refine (proj1 (proj2
            (draft_current_position Samples2.draft_looking_up 1
               (Num (JS.lit "48.8566")) (Num (JS.lit "2.3522"))
               (Http true (Some Samples.road_place)) Samples.road_place
               {| WeatherPage.city := None; WeatherPage.town := None;
                  WeatherPage.village := None |}
               NetworkError _ _ _)));
    vm_compute; reflexivity.
Defined.

(** X26.  When the reverse lookup fails, or answers without an [address], the
    draft reports that the place could not be named, enables the button and
    fetches no forecast; the query stays. *)
Theorem draft_lookup_failure (w : App.world) (id : nat) (c : number * number)
    (r : response App.Place) :
  App.lookups (App.env w) !! id = Some c ->
  WeatherPage.settle r = Rejected \/
  (exists data, WeatherPage.settle r = Resolved data /\
                WeatherPage.address data = None) ->
  let w' := App.dispatch (App.LookupResponse id r) w in
  App.error (App.ui w')
    = JS.lit "Failed to get location name. Please try searching manually." /\
  App.geoLoading (App.ui w') = false /\
  App.forecast_log (App.env w') = App.forecast_log (App.env w) /\
  App.forecasts (App.env w') = App.forecasts (App.env w) /\
  App.query (App.ui w') = App.query (App.ui w) /\
  App.weather (App.ui w') = App.weather (App.ui w).
Proof.
  intros Hc Hr. open_draft w. destruct c as [latitude longitude].
  unfold App.dispatch, App.handle. draft_simpl. rewrite Hc.
  unfold App.lookup_settled.
  destruct Hr as [-> | (data & -> & ->)]; unfold App.lookup_failed;
    draft_simpl; same_query; repeat split; reflexivity.
Qed.

Lemma draft_lookup_failure_witness :
  App.error
    (App.ui
       (App.dispatch
          (App.LookupResponse 1 (Http true (Some Samples2.bare_place)))
          Samples2.draft_looking_up))
  = JS.lit "Failed to get location name. Please try searching manually.".
Proof.
  refine (proj1 (draft_lookup_failure Samples2.draft_looking_up 1
                   (Num (JS.lit "48.8566"), Num (JS.lit "2.3522"))
                   (Http true (Some Samples2.bare_place)) _ _)).
  - vm_compute. reflexivity.
  - right. exists Samples2.bare_place. split; reflexivity.
Defined.

(** X27.  When the position cannot be had, the draft tells a refusal from any
    other failure by the message, enables the button and makes no request:
    nothing is looked up and no forecast is fetched. *)
Theorem draft_position_failed (w : App.world) (id : nat) (denied : bool) :
  id ∈ App.positions (App.env w) ->
  let w' := App.dispatch (App.Position id (App.Failed denied)) w in
  let refused :=
    JS.lit "Location access denied. Please enable location permissions." in
  let other :=
    JS.lit "Failed to get your location. Please try searching manually." in
  App.error (App.ui w') = (if denied then refused else other) /\
  refused <> other /\
  App.geoLoading (App.ui w') = false /\
  App.lookup_log (App.env w') = App.lookup_log (App.env w) /\
  App.forecast_log (App.env w') = App.forecast_log (App.env w) /\
  App.search_log (App.env w') = App.search_log (App.env w) /\
  App.query (App.ui w') = App.query (App.ui w).
Proof.
  intros Hid. open_draft w.
  unfold App.dispatch, App.handle. draft_simpl.
  rewrite (decide_True _ _ Hid).
  unfold App.position_failed.
  destruct denied; draft_simpl; same_query;
    repeat split; try reflexivity; intros E; vm_compute in E; discriminate E.
Qed.

Lemma draft_position_failed_witness :
  App.error
    (App.ui
       (App.dispatch (App.Position 0 (App.Failed false)) Samples2.draft_asking))
  = JS.lit "Failed to get your location. Please try searching manually.".
Proof.
  refine (proj1 (draft_position_failed Samples2.draft_asking 0 false _)).
  vm_compute. set_solver.
Defined.
